(** * BEO workflow: a shallow embedding of [backend/app/main_db.py]

    The request handlers of the catering-document service are embedded as
    programs of a small state-and-exception monad over the relational
    tables of [models.py] and the three storage directories of
    [database.py].  Python's [datetime] arithmetic and the filename
    pattern of [parse_filename_date] are embedded first. *)

From Stdlib Require Import ZArith Lia List String Ascii Bool.
From stdpp Require Import base option list gmap strings pretty sorting.

Local Open Scope string_scope.
Local Open Scope list_scope.
Local Open Scope Z_scope.

(** ** Python's proleptic Gregorian calendar ([datetime] module) *)

Module Calendar.

Definition MINYEAR : Z := 1.
Definition MAXYEAR : Z := 9999.

Definition is_leap (year : Z) : bool :=
  (year mod 4 =? 0) && (negb (year mod 100 =? 0) || (year mod 400 =? 0)).

Definition days_before_year (year : Z) : Z :=
  let y := year - 1 in y * 365 + y / 4 - y / 100 + y / 400.

Definition days_in_month (year month : Z) : Z :=
  if month =? 2 then (if is_leap year then 29 else 28)
  else if (month =? 4) || (month =? 6) || (month =? 9) || (month =? 11)
       then 30 else 31.

(** Number of days of the year before the first day of [month]. *)
Fixpoint days_before_month_aux (year : Z) (k : nat) : Z :=
  match k with
  | O => 0
  | S k' => days_before_month_aux year k' + days_in_month year (Z.of_nat k)
  end.

Definition days_before_month (year month : Z) : Z :=
  days_before_month_aux year (Z.to_nat (month - 1)).

Definition ymd2ord (year month day : Z) : Z :=
  days_before_year year + days_before_month year month + day.

(** A naive [datetime]: the wall-clock fields, no time zone. *)
Record datetime : Type := mk_datetime {
  dt_year : Z; dt_month : Z; dt_day : Z;
  dt_hour : Z; dt_minute : Z; dt_second : Z; dt_microsecond : Z
}.

#[global] Instance datetime_eq_dec : EqDecision datetime.
Proof. solve_decision. Defined.

(** [datetime(year, month, day)]: [None] stands for [ValueError]. *)
Definition datetime_ymd (year month day : Z) : option datetime :=
  if (MINYEAR <=? year) && (year <=? MAXYEAR)
     && (1 <=? month) && (month <=? 12)
     && (1 <=? day) && (day <=? days_in_month year month)
  then Some (mk_datetime year month day 0 0 0 0)
  else None.

Definition toordinal (d : datetime) : Z :=
  ymd2ord (dt_year d) (dt_month d) (dt_day d).

(** Monday is 0. *)
Definition weekday (d : datetime) : Z := (toordinal d + 6) mod 7.

Definition day_names : list string :=
  ["Monday"; "Tuesday"; "Wednesday"; "Thursday"; "Friday"; "Saturday"; "Sunday"].

(** [d.strftime("%A")] in the C locale. *)
Definition strftime_A (d : datetime) : string :=
  nth (Z.to_nat (weekday d)) day_names "Sunday".

Definition isoweek1monday (year : Z) : Z :=
  let firstday := ymd2ord year 1 1 in
  let firstweekday := (firstday + 6) mod 7 in
  let week1monday := firstday - firstweekday in
  if 3 <? firstweekday then week1monday + 7 else week1monday.

(** [d.isocalendar()[1]]. *)
Definition isocalendar_week (d : datetime) : Z :=
  let year := dt_year d in
  let today := toordinal d in
  let week := (today - isoweek1monday year) / 7 in
  if week <? 0 then (today - isoweek1monday (year - 1)) / 7 + 1
  else if (52 <=? week) && (isoweek1monday (year + 1) <=? today) then 1
  else week + 1.

(** Microseconds since the start of day 0 of the calendar. *)
Definition to_microseconds (d : datetime) : Z :=
  (((toordinal d * 24 + dt_hour d) * 60 + dt_minute d) * 60 + dt_second d)
  * 1000000 + dt_microsecond d.

(** [(a - b).days]: a [timedelta] is normalised so that its seconds and
    microseconds are non-negative, hence the floor. *)
Definition timedelta_days (a b : datetime) : Z :=
  (to_microseconds a - to_microseconds b) / (86400 * 1000000).

(** The fields of a value built by the [datetime] constructor. *)
Definition time_in_range (d : datetime) : Prop :=
  0 <= dt_hour d < 24 /\ 0 <= dt_minute d < 60 /\
  0 <= dt_second d < 60 /\ 0 <= dt_microsecond d < 1000000.

End Calendar.

Import Calendar.

(** ** Python strings

    A [str] is modelled by a Rocq [string]; a character stands for the
    code point of the same number (below 256). *)

Module PyStr.

Definition code (c : ascii) : Z := Z.of_N (N_of_ascii c).

Definition in_range (lo hi : Z) (c : ascii) : bool :=
  (lo <=? code c) && (code c <=? hi).

(** The classes [\d], [\s] and [\w] of [re] for a [str] pattern. *)
Definition is_digit (c : ascii) : bool := in_range 48 57 c.

Definition is_space (c : ascii) : bool :=
  in_range 9 13 c || in_range 28 32 c || (code c =? 133) || (code c =? 160).

Definition is_word (c : ascii) : bool :=
  in_range 48 57 c || in_range 65 90 c || (code c =? 95) || in_range 97 122 c
  || (code c =? 170) || in_range 178 179 c || (code c =? 181)
  || in_range 185 186 c || in_range 188 190 c
  || in_range 192 214 c || in_range 216 246 c || in_range 248 255 c.

(** ASCII case folding, enough for the literal [.pdf]. *)
Definition lower (c : ascii) : ascii :=
  if in_range 65 90 c then ascii_of_N (N_of_ascii c + 32) else c.

Fixpoint span (p : ascii -> bool) (s : string) : string * string :=
  match s with
  | String c r =>
      if p c then let '(a, b) := span p r in (String c a, b) else (EmptyString, s)
  | EmptyString => (EmptyString, EmptyString)
  end.

(** [s] starts with [lit], letter case ignored. *)
Fixpoint startswith_ci (lit s : string) : bool :=
  match lit, s with
  | EmptyString, _ => true
  | String a l', String b s' =>
      if decide (lower a = lower b) then startswith_ci l' s' else false
  | String _ _, EmptyString => false
  end.

(** [s.endswith(suffix)] *)
Fixpoint endswith (s suffix : string) : bool :=
  if decide (s = suffix) then true
  else match s with
       | String _ r => endswith r suffix
       | EmptyString => false
       end.

(** [c in s] for a one-character [c] *)
Fixpoint contains (c : ascii) (s : string) : bool :=
  match s with
  | String a r => if decide (a = c) then true else contains c r
  | EmptyString => false
  end.

(** [s.replace(c, by)] for a one-character [c] *)
Fixpoint replace (c : ascii) (by_ : string) (s : string) : string :=
  match s with
  | String a r =>
      if decide (a = c) then by_ +:+ replace c by_ r else String a (replace c by_ r)
  | EmptyString => EmptyString
  end.

(** [int(s)] on a string of ASCII digits *)
Definition int_digits (s : string) : Z :=
  fold_left (fun acc c => acc * 10 + (code c - 48)) (list_ascii_of_string s) 0.

(** [str(n)] and the [{n}] of an f-string *)
Definition str_int (n : Z) : string := pretty n.

End PyStr.

(** ** [parse_filename_date] *)

(** The dict returned on success; the empty dict is [None]. *)
Record DateInfo : Type := mk_date_info {
  di_event_date : datetime;
  di_day_of_week : string;
  di_week_number : Z;
  di_year : Z
}.

(** [re.match(r'(\d{2})(\d{2})\s+(\w+)\.pdf', filename, re.IGNORECASE)],
    returning the three groups.  The classes [\s] and [\w] are disjoint and
    [.] is in neither, so the greedy runs are the only way to match and no
    backtracking is involved.  [re.match] anchors at the start only. *)
Definition match_filename (filename : string) : option (string * string * string) :=
  match filename with
  | String a (String b (String c (String d rest))) =>
      if PyStr.is_digit a && PyStr.is_digit b && PyStr.is_digit c && PyStr.is_digit d
      then
        let '(ws, r1) := PyStr.span PyStr.is_space rest in
        let '(w, r2) := PyStr.span PyStr.is_word r1 in
        if negb (bool_decide (ws = EmptyString)) && negb (bool_decide (w = EmptyString))
           && PyStr.startswith_ci ".pdf" r2
        then Some (String a (String b EmptyString), String c (String d EmptyString), w)
        else None
      else None
  | _ => None
  end.

Definition date_info_of (event_date : datetime) (year : Z) : DateInfo :=
  {| di_event_date := event_date;
     di_day_of_week := strftime_A event_date;
     di_week_number := isocalendar_week event_date;
     di_year := year |}.

(** [now] is the value of [datetime.now()].  The third group is
    capitalised into [day_name], which is not used afterwards. *)
Definition parse_filename_date (now : datetime) (filename : string) : option DateInfo :=
  match match_filename filename with
  | Some (g1, g2, _) =>
      let month := PyStr.int_digits g1 in
      let day := PyStr.int_digits g2 in
      let year := dt_year now in
      match datetime_ymd year month day with
      | Some event_date =>
          if 180 <? timedelta_days now event_date then
            let year := year + 1 in
            match datetime_ymd year month day with
            | Some event_date => Some (date_info_of event_date year)
            | None => None      (* ValueError: caught, falls through *)
            end
          else Some (date_info_of event_date year)
      | None => None            (* ValueError: caught, falls through *)
      end
  | None => None
  end.

(** ** The tables of [models.py]

    A row is a record with the columns of its model; a nullable column
    that the handlers leave or set to [None] is an [option].  The setters
    are the attribute assignments of the ORM objects. *)

Definition bytes : Type := string.

(** A page image as returned by the rasteriser (opaque). *)
Definition Image : Type := string.

(** A JSON value, kept as its text (opaque to the handlers). *)
Definition JSON : Type := string.

Module BEO.

Record t : Type := mk {
  id : Z;
  session_id : string;
  filename : string;
  beo_number : option string;
  event_date : option datetime;
  day_of_week : option string;
  week_number : option Z;
  year : option Z;
  order_position : Z;
  status : string;
  file_type : string;
  is_revision : bool;
  parent_beo_id : option Z;
  version_number : Z;
  is_active : bool;
  total_pages : Z;
  created_at : datetime;
  updated_at : datetime
}.

Definition set_id (v : Z) (r : t) : t :=
  {| id := v;
     session_id := session_id r;
     filename := filename r;
     beo_number := beo_number r;
     event_date := event_date r;
     day_of_week := day_of_week r;
     week_number := week_number r;
     year := year r;
     order_position := order_position r;
     status := status r;
     file_type := file_type r;
     is_revision := is_revision r;
     parent_beo_id := parent_beo_id r;
     version_number := version_number r;
     is_active := is_active r;
     total_pages := total_pages r;
     created_at := created_at r;
     updated_at := updated_at r |}.

Definition set_beo_number (v : option string) (r : t) : t :=
  {| id := id r;
     session_id := session_id r;
     filename := filename r;
     beo_number := v;
     event_date := event_date r;
     day_of_week := day_of_week r;
     week_number := week_number r;
     year := year r;
     order_position := order_position r;
     status := status r;
     file_type := file_type r;
     is_revision := is_revision r;
     parent_beo_id := parent_beo_id r;
     version_number := version_number r;
     is_active := is_active r;
     total_pages := total_pages r;
     created_at := created_at r;
     updated_at := updated_at r |}.

Definition set_event_date (v : option datetime) (r : t) : t :=
  {| id := id r;
     session_id := session_id r;
     filename := filename r;
     beo_number := beo_number r;
     event_date := v;
     day_of_week := day_of_week r;
     week_number := week_number r;
     year := year r;
     order_position := order_position r;
     status := status r;
     file_type := file_type r;
     is_revision := is_revision r;
     parent_beo_id := parent_beo_id r;
     version_number := version_number r;
     is_active := is_active r;
     total_pages := total_pages r;
     created_at := created_at r;
     updated_at := updated_at r |}.

Definition set_day_of_week (v : option string) (r : t) : t :=
  {| id := id r;
     session_id := session_id r;
     filename := filename r;
     beo_number := beo_number r;
     event_date := event_date r;
     day_of_week := v;
     week_number := week_number r;
     year := year r;
     order_position := order_position r;
     status := status r;
     file_type := file_type r;
     is_revision := is_revision r;
     parent_beo_id := parent_beo_id r;
     version_number := version_number r;
     is_active := is_active r;
     total_pages := total_pages r;
     created_at := created_at r;
     updated_at := updated_at r |}.

Definition set_week_number (v : option Z) (r : t) : t :=
  {| id := id r;
     session_id := session_id r;
     filename := filename r;
     beo_number := beo_number r;
     event_date := event_date r;
     day_of_week := day_of_week r;
     week_number := v;
     year := year r;
     order_position := order_position r;
     status := status r;
     file_type := file_type r;
     is_revision := is_revision r;
     parent_beo_id := parent_beo_id r;
     version_number := version_number r;
     is_active := is_active r;
     total_pages := total_pages r;
     created_at := created_at r;
     updated_at := updated_at r |}.

Definition set_year (v : option Z) (r : t) : t :=
  {| id := id r;
     session_id := session_id r;
     filename := filename r;
     beo_number := beo_number r;
     event_date := event_date r;
     day_of_week := day_of_week r;
     week_number := week_number r;
     year := v;
     order_position := order_position r;
     status := status r;
     file_type := file_type r;
     is_revision := is_revision r;
     parent_beo_id := parent_beo_id r;
     version_number := version_number r;
     is_active := is_active r;
     total_pages := total_pages r;
     created_at := created_at r;
     updated_at := updated_at r |}.

Definition set_order_position (v : Z) (r : t) : t :=
  {| id := id r;
     session_id := session_id r;
     filename := filename r;
     beo_number := beo_number r;
     event_date := event_date r;
     day_of_week := day_of_week r;
     week_number := week_number r;
     year := year r;
     order_position := v;
     status := status r;
     file_type := file_type r;
     is_revision := is_revision r;
     parent_beo_id := parent_beo_id r;
     version_number := version_number r;
     is_active := is_active r;
     total_pages := total_pages r;
     created_at := created_at r;
     updated_at := updated_at r |}.

Definition set_status (v : string) (r : t) : t :=
  {| id := id r;
     session_id := session_id r;
     filename := filename r;
     beo_number := beo_number r;
     event_date := event_date r;
     day_of_week := day_of_week r;
     week_number := week_number r;
     year := year r;
     order_position := order_position r;
     status := v;
     file_type := file_type r;
     is_revision := is_revision r;
     parent_beo_id := parent_beo_id r;
     version_number := version_number r;
     is_active := is_active r;
     total_pages := total_pages r;
     created_at := created_at r;
     updated_at := updated_at r |}.

Definition set_created_at (v : datetime) (r : t) : t :=
  {| id := id r;
     session_id := session_id r;
     filename := filename r;
     beo_number := beo_number r;
     event_date := event_date r;
     day_of_week := day_of_week r;
     week_number := week_number r;
     year := year r;
     order_position := order_position r;
     status := status r;
     file_type := file_type r;
     is_revision := is_revision r;
     parent_beo_id := parent_beo_id r;
     version_number := version_number r;
     is_active := is_active r;
     total_pages := total_pages r;
     created_at := v;
     updated_at := updated_at r |}.

Definition set_updated_at (v : datetime) (r : t) : t :=
  {| id := id r;
     session_id := session_id r;
     filename := filename r;
     beo_number := beo_number r;
     event_date := event_date r;
     day_of_week := day_of_week r;
     week_number := week_number r;
     year := year r;
     order_position := order_position r;
     status := status r;
     file_type := file_type r;
     is_revision := is_revision r;
     parent_beo_id := parent_beo_id r;
     version_number := version_number r;
     is_active := is_active r;
     total_pages := total_pages r;
     created_at := created_at r;
     updated_at := v |}.

#[global] Instance eq_dec : EqDecision t.
Proof. solve_decision. Defined.

End BEO.

Module BEOPage.

Record t : Type := mk {
  id : Z;
  beo_id : Z;
  page_index : Z;
  original_order : Z;
  thumbnail_path : option string;
  high_res_path : option string;
  created_at : datetime
}.

Definition set_id (v : Z) (r : t) : t :=
  {| id := v;
     beo_id := beo_id r;
     page_index := page_index r;
     original_order := original_order r;
     thumbnail_path := thumbnail_path r;
     high_res_path := high_res_path r;
     created_at := created_at r |}.

Definition set_high_res_path (v : option string) (r : t) : t :=
  {| id := id r;
     beo_id := beo_id r;
     page_index := page_index r;
     original_order := original_order r;
     thumbnail_path := thumbnail_path r;
     high_res_path := v;
     created_at := created_at r |}.

Definition set_created_at (v : datetime) (r : t) : t :=
  {| id := id r;
     beo_id := beo_id r;
     page_index := page_index r;
     original_order := original_order r;
     thumbnail_path := thumbnail_path r;
     high_res_path := high_res_path r;
     created_at := v |}.

#[global] Instance eq_dec : EqDecision t.
Proof. solve_decision. Defined.

End BEOPage.

Module Annotation.

Record t : Type := mk {
  id : Z;
  beo_id : Z;
  page_index : Z;
  canvas_data : JSON;
  created_at : datetime;
  updated_at : datetime
}.

Definition set_id (v : Z) (r : t) : t :=
  {| id := v;
     beo_id := beo_id r;
     page_index := page_index r;
     canvas_data := canvas_data r;
     created_at := created_at r;
     updated_at := updated_at r |}.

Definition set_canvas_data (v : JSON) (r : t) : t :=
  {| id := id r;
     beo_id := beo_id r;
     page_index := page_index r;
     canvas_data := v;
     created_at := created_at r;
     updated_at := updated_at r |}.

Definition set_created_at (v : datetime) (r : t) : t :=
  {| id := id r;
     beo_id := beo_id r;
     page_index := page_index r;
     canvas_data := canvas_data r;
     created_at := v;
     updated_at := updated_at r |}.

Definition set_updated_at (v : datetime) (r : t) : t :=
  {| id := id r;
     beo_id := beo_id r;
     page_index := page_index r;
     canvas_data := canvas_data r;
     created_at := created_at r;
     updated_at := v |}.

#[global] Instance eq_dec : EqDecision t.
Proof. solve_decision. Defined.

End Annotation.

(** ** The database, the storage directories and the session *)

Record DB : Type := mk_db {
  beos : list BEO.t;
  beo_pages : list BEOPage.t;
  annotations : list Annotation.t;
  (* the next value of each table's primary-key sequence *)
  beos_seq : Z;
  beo_pages_seq : Z;
  annotations_seq : Z
}.

Definition empty_db : DB := mk_db [] [] [] 1 1 1.

Inductive Dir : Type := ORIGINALS_DIR | THUMBNAILS_DIR | HIGH_RES_DIR.

Record Files : Type := mk_files {
  originals : gmap string bytes;
  thumbnails : gmap string bytes;
  high_res : gmap string bytes
}.

Definition empty_files : Files := mk_files ∅ ∅ ∅.

(** What persists between requests. *)
Record World : Type := mk_world {
  db : DB;
  files : Files
}.

Definition empty_world : World := mk_world empty_db empty_files.

(** The state of one request: the committed database, the view of the
    request's SQLAlchemy session (committed rows plus this transaction's
    changes) and the disk.  The session is made with [autoflush=False];
    no handler filters a query on a column it has assigned earlier in the
    same request, so the view may take each change at once.  Files are
    written outside the transaction: a rollback leaves them on disk. *)
Record Ctx : Type := mk_ctx {
  committed : DB;
  session : DB;
  disk : Files
}.

Inductive exn : Type :=
| HTTPException (status_code : Z) (detail : string)
| FileNotFoundError (path : string)
| IndexError
| ValueError
| IntegrityError
| LibraryError (msg : string).

(** [str(e)]; for an [HTTPException] the text is that of current
    Starlette, "<status>: <detail>". *)
Definition str_exn (e : exn) : string :=
  match e with
  | HTTPException c d => PyStr.str_int c +:+ ": " +:+ d
  | FileNotFoundError p => "[Errno 2] No such file or directory: '" +:+ p +:+ "'"
  | IndexError => "list index out of range"
  | ValueError => "invalid value"
  | IntegrityError => "duplicate key value violates unique constraint"
  | LibraryError m => m
  end.

Inductive Result (A : Type) : Type :=
| Ok (a : A)
| Raise (e : exn).

Arguments Ok {A} a.
Arguments Raise {A} e.

(** A handler body: it runs on the request state and returns normally or
    raises. *)
Definition M (A : Type) : Type := Ctx -> Result A * Ctx.

Definition ret {A} (a : A) : M A := fun c => (Ok a, c).

Definition raise {A} (e : exn) : M A := fun c => (Raise e, c).

Definition bind {A B} (m : M A) (k : A -> M B) : M B :=
  fun c => match m c with
           | (Ok a, c') => k a c'
           | (Raise e, c') => (Raise e, c')
           end.

(** [try: m  except Exception as e: h e] *)
Definition try_except {A} (m : M A) (h : exn -> M A) : M A :=
  fun c => match m c with
           | (Ok a, c') => (Ok a, c')
           | (Raise e, c') => h e c'
           end.

Declare Scope py_scope.
Delimit Scope py_scope with py.
Notation "x <- m ;; k" := (bind m (fun x => k))
  (at level 100, m at next level, right associativity) : py_scope.
Notation "m ;;; k" := (bind m (fun _ => k))
  (at level 100, right associativity) : py_scope.
Local Open Scope py_scope.

(** A library call that returns or raises. *)
Definition lift {A} (r : Result A) : M A := fun c => (r, c).

Fixpoint for_each {A} (l : list A) (body : A -> M unit) : M unit :=
  match l with
  | [] => ret tt
  | x :: l' => body x ;;; for_each l' body
  end.

(** A loop that threads the local variables [acc] through its body. *)
Fixpoint fold_loop {A B} (l : list A) (acc : B) (body : B -> A -> M B) : M B :=
  match l with
  | [] => ret acc
  | x :: l' => acc' <- body acc x ;; fold_loop l' acc' body
  end.

Fixpoint enumerate_from {A} (k : Z) (l : list A) : list (Z * A) :=
  match l with
  | [] => []
  | x :: l' => (k, x) :: enumerate_from (k + 1) l'
  end.

Definition enumerate {A} (l : list A) : list (Z * A) := enumerate_from 0 l.

Definition len {A} (l : list A) : Z := Z.of_nat (length l).

(** [l[i]] with Python's negative indices *)
Definition py_index {A} (l : list A) (i : Z) : Result A :=
  let j := if i <? 0 then i + len l else i in
  if j <? 0 then Raise IndexError
  else match l !! Z.to_nat j with
       | Some x => Ok x
       | None => Raise IndexError
       end.

(** *** Session primitives *)

Definition get_session : M DB := fun c => (Ok (session c), c).

Definition put_session (d : DB) : M unit :=
  fun c => (Ok tt, mk_ctx (committed c) d (disk c)).

(** [db.query(BEO).filter(p).first()] *)
Definition query_beo_first (p : BEO.t -> bool) : M (option BEO.t) :=
  d <- get_session ;; ret (List.find p (beos d)).

Definition query_page_first (p : BEOPage.t -> bool) : M (option BEOPage.t) :=
  d <- get_session ;; ret (List.find p (beo_pages d)).

Definition query_annotation_first (p : Annotation.t -> bool) : M (option Annotation.t) :=
  d <- get_session ;; ret (List.find p (annotations d)).

(** [db.add(beo); db.flush()]: the INSERT assigns the primary key and the
    column defaults [created_at], [updated_at]; [session_id] is UNIQUE. *)
Definition add_flush_beo (utcnow : datetime) (b : BEO.t) : M BEO.t :=
  d <- get_session ;;
  if existsb (fun o => bool_decide (BEO.session_id o = BEO.session_id b)) (beos d)
  then raise IntegrityError
  else
    let row := BEO.set_id (beos_seq d)
                 (BEO.set_created_at utcnow (BEO.set_updated_at utcnow b)) in
    put_session (mk_db (beos d ++ [row]) (beo_pages d) (annotations d)
                       (beos_seq d + 1) (beo_pages_seq d) (annotations_seq d)) ;;;
    ret row.

(** [db.add(page)]; the row is written at the next flush. *)
Definition add_page (utcnow : datetime) (p : BEOPage.t) : M unit :=
  d <- get_session ;;
  let row := BEOPage.set_id (beo_pages_seq d) (BEOPage.set_created_at utcnow p) in
  put_session (mk_db (beos d) (beo_pages d ++ [row]) (annotations d)
                     (beos_seq d) (beo_pages_seq d + 1) (annotations_seq d)).

Definition add_annotation (utcnow : datetime) (a : Annotation.t) : M unit :=
  d <- get_session ;;
  let row := Annotation.set_id (annotations_seq d)
               (Annotation.set_created_at utcnow (Annotation.set_updated_at utcnow a)) in
  put_session (mk_db (beos d) (beo_pages d) (annotations d ++ [row])
                     (beos_seq d) (beo_pages_seq d) (annotations_seq d + 1)).

(** An attribute assignment on a loaded object: the row with that
    primary key changes in the session. *)
Definition update_beo (key : Z) (f : BEO.t -> BEO.t) : M unit :=
  d <- get_session ;;
  put_session (mk_db (map (fun b => if bool_decide (BEO.id b = key) then f b else b) (beos d))
                     (beo_pages d) (annotations d)
                     (beos_seq d) (beo_pages_seq d) (annotations_seq d)).

Definition update_page (key : Z) (f : BEOPage.t -> BEOPage.t) : M unit :=
  d <- get_session ;;
  put_session (mk_db (beos d)
                     (map (fun p => if bool_decide (BEOPage.id p = key) then f p else p)
                          (beo_pages d))
                     (annotations d)
                     (beos_seq d) (beo_pages_seq d) (annotations_seq d)).

Definition update_annotation (key : Z) (f : Annotation.t -> Annotation.t) : M unit :=
  d <- get_session ;;
  put_session (mk_db (beos d) (beo_pages d)
                     (map (fun a => if bool_decide (Annotation.id a = key) then f a else a)
                          (annotations d))
                     (beos_seq d) (beo_pages_seq d) (annotations_seq d)).

(** [db.query(BEOPage).filter(p).delete()] *)
Definition delete_pages (p : BEOPage.t -> bool) : M unit :=
  d <- get_session ;;
  put_session (mk_db (beos d) (List.filter (fun x => negb (p x)) (beo_pages d))
                     (annotations d)
                     (beos_seq d) (beo_pages_seq d) (annotations_seq d)).

Definition delete_annotations (p : Annotation.t -> bool) : M unit :=
  d <- get_session ;;
  put_session (mk_db (beos d) (beo_pages d)
                     (List.filter (fun x => negb (p x)) (annotations d))
                     (beos_seq d) (beo_pages_seq d) (annotations_seq d)).

(** [db.delete(beo)]; the relationships cascade to its pages and
    annotations. *)
Definition delete_beo_row (key : Z) : M unit :=
  d <- get_session ;;
  put_session (mk_db (List.filter (fun b => negb (bool_decide (BEO.id b = key))) (beos d))
                     (List.filter (fun p => negb (bool_decide (BEOPage.beo_id p = key)))
                                  (beo_pages d))
                     (List.filter (fun a => negb (bool_decide (Annotation.beo_id a = key)))
                                  (annotations d))
                     (beos_seq d) (beo_pages_seq d) (annotations_seq d)).

Definition db_commit : M unit :=
  fun c => (Ok tt, mk_ctx (session c) (session c) (disk c)).

Definition db_rollback : M unit :=
  fun c => (Ok tt, mk_ctx (committed c) (committed c) (disk c)).

(** *** Files

    The three directories exist ([database.py] creates them at import);
    a file is named by its directory and its name. *)

Definition dir_name (d : Dir) : string :=
  match d with
  | ORIGINALS_DIR => "./storage/originals"
  | THUMBNAILS_DIR => "./storage/thumbnails"
  | HIGH_RES_DIR => "./storage/high_res"
  end.

Definition dir_files (d : Dir) (f : Files) : gmap string bytes :=
  match d with
  | ORIGINALS_DIR => originals f
  | THUMBNAILS_DIR => thumbnails f
  | HIGH_RES_DIR => high_res f
  end.

Definition write_file (d : Dir) (name : string) (data : bytes) (f : Files) : Files :=
  match d with
  | ORIGINALS_DIR => mk_files (<[name := data]> (originals f)) (thumbnails f) (high_res f)
  | THUMBNAILS_DIR => mk_files (originals f) (<[name := data]> (thumbnails f)) (high_res f)
  | HIGH_RES_DIR => mk_files (originals f) (thumbnails f) (<[name := data]> (high_res f))
  end.

Definition save_file (file_data : bytes) (directory : Dir) (filename : string) : M string :=
  fun c => (Ok filename,
            mk_ctx (committed c) (session c) (write_file directory filename file_data (disk c))).

(** [os.path.exists(os.path.join(directory, filename))] *)
Definition path_exists (directory : Dir) (filename : string) : M bool :=
  fun c => (Ok (bool_decide (is_Some (dir_files directory (disk c) !! filename))), c).

(** [with open(os.path.join(directory, filename), 'rb') as f: f.read()] *)
Definition read_file (directory : Dir) (filename : string) : M bytes :=
  fun c => match dir_files directory (disk c) !! filename with
           | Some data => (Ok data, c)
           | None => (Raise (FileNotFoundError (dir_name directory +:+ "/" +:+ filename)), c)
           end.

(** *** One request

    [get_db] opens a session for the request and closes it afterwards;
    what was not committed is discarded.  An [HTTPException] becomes the
    response with its status code, any other exception the server's
    plain 500 response. *)
Definition run_request {A} (m : M A) (w : World) : Result A * World :=
  match m (mk_ctx (db w) (db w) (files w)) with
  | (r, c) => (r, mk_world (committed c) (disk c))
  end.

Definition http_status {A} (r : Result A) : Z :=
  match r with
  | Ok _ => 200
  | Raise (HTTPException c _) => c
  | Raise _ => 500
  end.

Definition http_detail {A} (r : Result A) : string :=
  match r with
  | Ok _ => ""
  | Raise (HTTPException _ d) => d
  | Raise _ => "Internal Server Error"
  end.

(** ** The handlers of [main_db.py] *)

(** The library functions the handlers call. *)
Record Env : Type := mk_env {
  (* [convert_from_bytes(pdf_bytes, fmt="jpeg", dpi=dpi)], and with
     [first_page=a, last_page=b] when the range is given *)
  convert_from_bytes : bytes -> Z -> option (Z * Z) -> Result (list Image);
  (* [img.save(buffered, format="JPEG", quality=q); buffered.getvalue()] *)
  img_save : Image -> Z -> Result bytes;
  (* [base64.b64encode(data).decode("utf-8")] *)
  b64encode : bytes -> string;
  (* [datetime.fromisoformat(s)]; [None] stands for [ValueError].  The
     DateTime columns store the wall-clock fields. *)
  fromisoformat : string -> option datetime
}.

(** What a request reads from outside the program: the two clocks and the
    identifiers drawn by [uuid.uuid4()], numbered by the loop iteration
    that draws them. *)
Record Ambient : Type := mk_ambient {
  now : datetime;
  utcnow : datetime;
  uuid4 : nat -> string
}.

Record UploadFile : Type := mk_upload {
  uf_filename : string;
  uf_content : bytes
}.

Record SessionResponse : Type := mk_session_response {
  sr_session_id : string;
  sr_filename : string;
  sr_total_pages : Z;
  sr_pages : list string
}.

Record PageSelection : Type := mk_page_selection {
  ps_session_id : string;
  ps_selected_pages : list Z
}.

Record AnnotationData : Type := mk_annotation_data {
  ad_session_id : string;
  ad_page_index : Z;
  ad_annotation_data : JSON
}.

(** An entry of the parsed [file_data] JSON array. *)
Record FileUploadItem : Type := mk_file_upload_item {
  fi_filename : string;
  fi_event_date : option string;
  fi_file_type : option string
}.

Record BEOMetadata : Type := mk_beo_metadata {
  md_session_id : string;
  md_beo_number : option string;
  md_event_date : option string;
  md_order_position : option Z
}.

Record BEOReorder : Type := mk_beo_reorder {
  ro_session_id : string;
  ro_event_date : string;
  ro_order_position : Z
}.

Record CreateBEOFromPages : Type := mk_create_from_pages {
  cp_parent_session_id : string;
  cp_beo_number : string;
  cp_page_indices : list Z;
  cp_order_position : Z
}.

Record ProcessedPages : Type := mk_processed_pages {
  pp_status : string;
  pp_processed_pages : Z;
  pp_high_res_pages : gmap Z string
}.

Record SelectedPages : Type := mk_selected_pages {
  sp_status : string;
  sp_selected_count : Z;
  sp_message : string
}.

Record MultiResult : Type := mk_multi_result {
  mr_session_id : string;
  mr_filename : string;
  mr_total_pages : Z;
  mr_pages : list string;
  mr_event_date : option datetime;
  mr_file_type : string
}.

(** [BEO(...)] with the keyword arguments the handlers pass; the other
    columns take their defaults. *)
Definition new_BEO (session_id filename : string) (beo_number : option string)
    (total_pages : Z) (status file_type : string)
    (event_date : option datetime) (day_of_week : option string)
    (week_number year : option Z) (order_position : Z) : BEO.t :=
  {| BEO.id := 0; BEO.session_id := session_id; BEO.filename := filename;
     BEO.beo_number := beo_number;
     BEO.event_date := event_date; BEO.day_of_week := day_of_week;
     BEO.week_number := week_number; BEO.year := year;
     BEO.order_position := order_position;
     BEO.status := status; BEO.file_type := file_type;
     BEO.is_revision := false; BEO.parent_beo_id := None;
     BEO.version_number := 1; BEO.is_active := true;
     BEO.total_pages := total_pages;
     BEO.created_at := mk_datetime 1 1 1 0 0 0 0;
     BEO.updated_at := mk_datetime 1 1 1 0 0 0 0 |}.

Definition new_BEOPage (beo_id page_index original_order : Z)
    (thumbnail_path high_res_path : option string) : BEOPage.t :=
  {| BEOPage.id := 0; BEOPage.beo_id := beo_id; BEOPage.page_index := page_index;
     BEOPage.original_order := original_order;
     BEOPage.thumbnail_path := thumbnail_path; BEOPage.high_res_path := high_res_path;
     BEOPage.created_at := mk_datetime 1 1 1 0 0 0 0 |}.

Definition new_Annotation (beo_id page_index : Z) (canvas_data : JSON) : Annotation.t :=
  {| Annotation.id := 0; Annotation.beo_id := beo_id;
     Annotation.page_index := page_index; Annotation.canvas_data := canvas_data;
     Annotation.created_at := mk_datetime 1 1 1 0 0 0 0;
     Annotation.updated_at := mk_datetime 1 1 1 0 0 0 0 |}.

Definition by_session_id (sid : string) (b : BEO.t) : bool :=
  bool_decide (BEO.session_id b = sid).

(** The body of the thumbnail loop shared by the two upload handlers. *)
Definition thumbnail_step (E : Env) (a : Ambient) (session_id : string) (beo : BEO.t)
    (base64_thumbnails : list string) (item : Z * Image) : M (list string) :=
  let '(idx, img) := item in
  let thumbnail_filename := session_id +:+ "_thumb_" +:+ PyStr.str_int idx +:+ ".jpg" in
  buffered <- lift (img_save E img 60) ;;
  save_file buffered THUMBNAILS_DIR thumbnail_filename ;;;
  add_page (utcnow a)
    (new_BEOPage (BEO.id beo) idx idx (Some thumbnail_filename) None) ;;;
  ret (base64_thumbnails ++ [b64encode E buffered]).

(** POST /api/upload-pdf *)
Definition upload_pdf (E : Env) (a : Ambient) (file : UploadFile) (file_type : string)
    : M SessionResponse :=
  try_except
    ((if negb (PyStr.endswith (uf_filename file) ".pdf")
      then raise (HTTPException 400 "File must be a PDF") else ret tt) ;;;
     let pdf_bytes := uf_content file in
     let session_id := uuid4 a 0%nat in
     let original_filename := session_id +:+ ".pdf" in
     save_file pdf_bytes ORIGINALS_DIR original_filename ;;;
     images <- lift (convert_from_bytes E pdf_bytes 75 None) ;;
     let date_info := parse_filename_date (now a) (uf_filename file) in
     beo <- add_flush_beo (utcnow a)
              (new_BEO session_id (uf_filename file) None (len images) "new" file_type
                 (di_event_date <$> date_info) (di_day_of_week <$> date_info)
                 (di_week_number <$> date_info) (di_year <$> date_info) 0) ;;
     base64_thumbnails <-
       fold_loop (enumerate images) [] (thumbnail_step E a session_id beo) ;;
     db_commit ;;;
     ret (mk_session_response session_id (uf_filename file) (len images) base64_thumbnails))
    (fun e =>
       db_rollback ;;;
       raise (HTTPException 500 ("PDF processing failed: " +:+ str_exn e))).

(** [{item['filename']: item for item in file_info_list}] *)
Definition file_info_map (file_info_list : list FileUploadItem) : gmap string FileUploadItem :=
  fold_left (fun m item => <[fi_filename item := item]> m) file_info_list ∅.

(** The date block of the multi-file upload: the four values it leaves in
    [event_date], [day_of_week], [week_number], [year]. *)
Definition multi_event_fields (E : Env) (event_date_str : option string)
    : option datetime * option string * option Z * option Z :=
  match event_date_str with
  | Some s =>
      if bool_decide (s = EmptyString) then (None, None, None, None)
      else
        let s := if negb (PyStr.contains "T"%char s) then s +:+ "T00:00:00" else s in
        match fromisoformat E (PyStr.replace "Z"%char "+00:00" s) with
        | Some event_date =>
            (Some event_date, Some (strftime_A event_date),
             Some (isocalendar_week event_date), Some (dt_year event_date))
        | None => (None, None, None, None)
        end
  | None => (None, None, None, None)
  end.

Definition upload_multiple_step (E : Env) (a : Ambient)
    (info : gmap string FileUploadItem)
    (results : list MultiResult) (item : Z * UploadFile) : M (list MultiResult) :=
  let '(k, file) := item in
  if negb (PyStr.endswith (uf_filename file) ".pdf") then ret results
  else
    let file_info := info !! uf_filename file in
    let event_date_str := file_info ≫= fi_event_date in
    let file_type := default "daily" (file_info ≫= fi_file_type) in
    let '(event_date, day_of_week, week_number, year) := multi_event_fields E event_date_str in
    let pdf_bytes := uf_content file in
    let session_id := uuid4 a (Z.to_nat k) in
    let original_filename := session_id +:+ ".pdf" in
    save_file pdf_bytes ORIGINALS_DIR original_filename ;;;
    images <- lift (convert_from_bytes E pdf_bytes 75 None) ;;
    beo <- add_flush_beo (utcnow a)
             (new_BEO session_id (uf_filename file) None (len images) "new" file_type
                event_date day_of_week week_number year 0) ;;
    base64_thumbnails <-
      fold_loop (enumerate images) [] (thumbnail_step E a session_id beo) ;;
    ret (results ++ [mk_multi_result session_id (uf_filename file) (len images)
                       base64_thumbnails event_date file_type]).

(** POST /api/upload-multiple-pdfs; [file_info_list] is the decoded
    [file_data] (the empty list when the form field is absent). *)
Definition upload_multiple_pdfs (E : Env) (a : Ambient) (upload_files : list UploadFile)
    (file_info_list : list FileUploadItem) : M (list MultiResult * Z) :=
  try_except
    (let info := file_info_map file_info_list in
     results <- fold_loop (enumerate upload_files) [] (upload_multiple_step E a info) ;;
     db_commit ;;;
     ret (results, len results))
    (fun e =>
       db_rollback ;;;
       raise (HTTPException 500 ("Multi-file upload failed: " +:+ str_exn e))).

(** The page loop of [process_all_pages]. *)
Definition all_pages_step (E : Env) (a : Ambient) (pdf_bytes : bytes)
    (new_session_id : string) (new_beo : BEO.t) (item : Z * Image) : M unit :=
  let '(idx, img) := item in
  let highres_filename :=
    new_session_id +:+ "_highres_" +:+ PyStr.str_int idx +:+ ".jpg" in
  buffered <- lift (img_save E img 95) ;;
  save_file buffered HIGH_RES_DIR highres_filename ;;;
  thumbs <- lift (convert_from_bytes E pdf_bytes 75 (Some (idx + 1, idx + 1))) ;;
  thumb_img <- lift (py_index thumbs 0) ;;
  let thumbnail_filename :=
    new_session_id +:+ "_thumb_" +:+ PyStr.str_int idx +:+ ".jpg" in
  thumb_buffered <- lift (img_save E thumb_img 60) ;;
  save_file thumb_buffered THUMBNAILS_DIR thumbnail_filename ;;;
  add_page (utcnow a)
    (new_BEOPage (BEO.id new_beo) idx idx (Some thumbnail_filename) (Some highres_filename)).

Definition process_all_step (E : Env) (a : Ambient)
    (processed_beos : list (string * string * Z * option datetime))
    (item : Z * string) : M (list (string * string * Z * option datetime)) :=
  let '(k, session_id) := item in
  upload_beo <- query_beo_first (by_session_id session_id) ;;
  match upload_beo with
  | None => ret processed_beos
  | Some upload_beo =>
      present <- path_exists ORIGINALS_DIR (session_id +:+ ".pdf") ;;
      if negb present then ret processed_beos
      else
        pdf_bytes <- read_file ORIGINALS_DIR (session_id +:+ ".pdf") ;;
        images <- lift (convert_from_bytes E pdf_bytes 300 None) ;;
        let new_session_id := uuid4 a (Z.to_nat k) in
        let beo_number := "BEO 1" in
        new_beo <- add_flush_beo (utcnow a)
                     (new_BEO new_session_id (BEO.filename upload_beo) (Some beo_number)
                        (len images) "ready_for_annotation" (BEO.file_type upload_beo)
                        (BEO.event_date upload_beo) (BEO.day_of_week upload_beo)
                        (BEO.week_number upload_beo) (BEO.year upload_beo) 0) ;;
        for_each (enumerate images) (all_pages_step E a pdf_bytes new_session_id new_beo) ;;;
        ret (processed_beos ++
             [(new_session_id, BEO.filename upload_beo, len images,
               BEO.event_date upload_beo)])
  end.

(** POST /api/process-all-pages *)
Definition process_all_pages (E : Env) (a : Ambient) (session_ids : list string)
    : M (Z * list (string * string * Z * option datetime)) :=
  try_except
    (processed_beos <- fold_loop (enumerate session_ids) [] (process_all_step E a) ;;
     db_commit ;;;
     ret (len processed_beos, processed_beos))
    (fun e =>
       db_rollback ;;;
       raise (HTTPException 500 ("Processing failed: " +:+ str_exn e))).

(** POST /api/select-pages *)
Definition select_pages (a : Ambient) (selection : PageSelection) : M SelectedPages :=
  beo <- query_beo_first (by_session_id (ps_session_id selection)) ;;
  match beo with
  | None => raise (HTTPException 404 "Session not found")
  | Some beo =>
      update_beo (BEO.id beo) (BEO.set_status "selected") ;;;
      update_beo (BEO.id beo) (BEO.set_updated_at (utcnow a)) ;;;
      db_commit ;;;
      ret (mk_selected_pages "success" (len (ps_selected_pages selection))
             "Ready for high-res processing")
  end.

Definition selected_page_step (E : Env) (selection : PageSelection) (beo : BEO.t)
    (images : list Image) (high_res_pages : gmap Z string) (page_idx : Z)
    : M (gmap Z string) :=
  if page_idx <? len images then
    img <- lift (py_index images page_idx) ;;
    let highres_filename :=
      ps_session_id selection +:+ "_highres_" +:+ PyStr.str_int page_idx +:+ ".jpg" in
    buffered <- lift (img_save E img 95) ;;
    save_file buffered HIGH_RES_DIR highres_filename ;;;
    page <- query_page_first
              (fun p => bool_decide (BEOPage.beo_id p = BEO.id beo)
                        && bool_decide (BEOPage.page_index p = page_idx)) ;;
    match page with
    | Some page => update_page (BEOPage.id page) (BEOPage.set_high_res_path (Some highres_filename))
    | None => ret tt
    end ;;;
    ret (<[page_idx := b64encode E buffered]> high_res_pages)
  else ret high_res_pages.

(** POST /api/process-selected-pages *)
Definition process_selected_pages (E : Env) (a : Ambient) (selection : PageSelection)
    : M ProcessedPages :=
  beo <- query_beo_first (by_session_id (ps_session_id selection)) ;;
  match beo with
  | None => raise (HTTPException 404 "Session not found")
  | Some beo =>
      pdf_bytes <- read_file ORIGINALS_DIR (ps_session_id selection +:+ ".pdf") ;;
      images <- lift (convert_from_bytes E pdf_bytes 300 None) ;;
      high_res_pages <-
        fold_loop (ps_selected_pages selection) ∅ (selected_page_step E selection beo images) ;;
      update_beo (BEO.id beo) (BEO.set_status "ready_for_annotation") ;;;
      update_beo (BEO.id beo) (BEO.set_updated_at (utcnow a)) ;;;
      db_commit ;;;
      ret (mk_processed_pages "success" (len (ps_selected_pages selection)) high_res_pages)
  end.

(** POST /api/save-annotation *)
Definition save_annotation (a : Ambient) (annotation : AnnotationData) : M string :=
  beo <- query_beo_first (by_session_id (ad_session_id annotation)) ;;
  match beo with
  | None => raise (HTTPException 404 "Session not found")
  | Some beo =>
      existing <- query_annotation_first
                    (fun x => bool_decide (Annotation.beo_id x = BEO.id beo)
                              && bool_decide (Annotation.page_index x = ad_page_index annotation)) ;;
      match existing with
      | Some existing =>
          update_annotation (Annotation.id existing)
            (Annotation.set_canvas_data (ad_annotation_data annotation)) ;;;
          update_annotation (Annotation.id existing) (Annotation.set_updated_at (utcnow a))
      | None =>
          add_annotation (utcnow a)
            (new_Annotation (BEO.id beo) (ad_page_index annotation)
               (ad_annotation_data annotation))
      end ;;;
      update_beo (BEO.id beo) (BEO.set_status "annotated") ;;;
      update_beo (BEO.id beo) (BEO.set_updated_at (utcnow a)) ;;;
      db_commit ;;;
      ret "success"
  end.

Definition create_page_step (E : Env) (a : Ambient) (pdf_bytes : bytes)
    (new_session_id : string) (new_beo : BEO.t) (images : list Image)
    (item : Z * Z) : M unit :=
  let '(new_idx, original_idx) := item in
  if original_idx <? len images then
    img <- lift (py_index images original_idx) ;;
    let highres_filename :=
      new_session_id +:+ "_highres_" +:+ PyStr.str_int new_idx +:+ ".jpg" in
    buffered <- lift (img_save E img 95) ;;
    save_file buffered HIGH_RES_DIR highres_filename ;;;
    thumbs <- lift (convert_from_bytes E pdf_bytes 75
                      (Some (original_idx + 1, original_idx + 1))) ;;
    thumb_img <- lift (py_index thumbs 0) ;;
    let thumbnail_filename :=
      new_session_id +:+ "_thumb_" +:+ PyStr.str_int new_idx +:+ ".jpg" in
    thumb_buffered <- lift (img_save E thumb_img 60) ;;
    save_file thumb_buffered THUMBNAILS_DIR thumbnail_filename ;;;
    add_page (utcnow a)
      (new_BEOPage (BEO.id new_beo) new_idx original_idx
         (Some thumbnail_filename) (Some highres_filename))
  else ret tt.

(** POST /api/beos/create-from-pages *)
Definition create_beo_from_pages (E : Env) (a : Ambient) (data : CreateBEOFromPages)
    : M (string * string) :=
  parent_beo <- query_beo_first (by_session_id (cp_parent_session_id data)) ;;
  match parent_beo with
  | None => raise (HTTPException 404 "Parent session not found")
  | Some parent_beo =>
      let new_session_id := uuid4 a 0%nat in
      pdf_bytes <- read_file ORIGINALS_DIR (cp_parent_session_id data +:+ ".pdf") ;;
      images <- lift (convert_from_bytes E pdf_bytes 300 None) ;;
      new_beo <- add_flush_beo (utcnow a)
                   (new_BEO new_session_id (BEO.filename parent_beo)
                      (Some (cp_beo_number data)) (len (cp_page_indices data))
                      "ready_for_annotation" (BEO.file_type parent_beo)
                      (BEO.event_date parent_beo) (BEO.day_of_week parent_beo)
                      (BEO.week_number parent_beo) (BEO.year parent_beo)
                      (cp_order_position data)) ;;
      for_each (enumerate (cp_page_indices data))
        (create_page_step E a pdf_bytes new_session_id new_beo images) ;;;
      db_commit ;;;
      ret (new_session_id, cp_beo_number data)
  end.

(** PATCH /api/beos/metadata *)
Definition update_beo_metadata (E : Env) (a : Ambient) (metadata : BEOMetadata) : M string :=
  beo <- query_beo_first (by_session_id (md_session_id metadata)) ;;
  match beo with
  | None => raise (HTTPException 404 "BEO not found")
  | Some beo =>
      match md_beo_number metadata with
      | Some n => update_beo (BEO.id beo) (BEO.set_beo_number (Some n))
      | None => ret tt
      end ;;;
      match md_event_date metadata with
      | Some s =>
          match fromisoformat E s with
          | Some event_dt =>
              update_beo (BEO.id beo) (BEO.set_event_date (Some event_dt)) ;;;
              update_beo (BEO.id beo) (BEO.set_day_of_week (Some (strftime_A event_dt))) ;;;
              update_beo (BEO.id beo) (BEO.set_week_number (Some (isocalendar_week event_dt))) ;;;
              update_beo (BEO.id beo) (BEO.set_year (Some (dt_year event_dt)))
          | None => raise ValueError
          end
      | None => ret tt
      end ;;;
      match md_order_position metadata with
      | Some p => update_beo (BEO.id beo) (BEO.set_order_position p)
      | None => ret tt
      end ;;;
      update_beo (BEO.id beo) (BEO.set_updated_at (utcnow a)) ;;;
      db_commit ;;;
      ret "success"
  end.

(** [ORDER BY order_position] *)
Definition position_le (x y : BEO.t) : Prop :=
  BEO.order_position x <= BEO.order_position y.

#[global] Instance position_le_dec (x y : BEO.t) : Decision (position_le x y) :=
  Z_le_dec (BEO.order_position x) (BEO.order_position y).

Definition order_by_position (l : list BEO.t) : list BEO.t :=
  merge_sort position_le l.

(** [other_beo.order_position = v], the only assignment to that row: the
    UPDATE is emitted when the value changes, and then the [onupdate]
    default of the column refreshes [updated_at]. *)
Definition reposition (u : datetime) (v : Z) (b : BEO.t) : BEO.t :=
  if bool_decide (BEO.order_position b = v) then b
  else BEO.set_updated_at u (BEO.set_order_position v b).

Definition reorder_other_step (a : Ambient) (reorder : BEOReorder) (item : Z * BEO.t)
    : M unit :=
  let '(idx, other_beo) := item in
  if ro_order_position reorder <=? idx
  then update_beo (BEO.id other_beo) (reposition (utcnow a) (idx + 1))
  else update_beo (BEO.id other_beo) (reposition (utcnow a) idx).

(** The query of [reorder_beo] for the other documents of the day.  The
    session is created with [autoflush=False], so the query reads the
    rows as they were before the assignments above it; the document
    being moved is excluded by the filter either way. *)
Definition same_day_query (reorder : BEOReorder) (new_date : datetime) (d : DB)
    : list BEO.t :=
  order_by_position
    (List.filter
       (fun b => bool_decide (BEO.event_date b = Some new_date)
                 && negb (bool_decide (BEO.session_id b = ro_session_id reorder))
                 && BEO.is_active b)
       (beos d)).

(** POST /api/beos/reorder *)
Definition reorder_beo (E : Env) (a : Ambient) (reorder : BEOReorder) : M string :=
  beo <- query_beo_first (by_session_id (ro_session_id reorder)) ;;
  match beo with
  | None => raise (HTTPException 404 "BEO not found")
  | Some beo =>
      match fromisoformat E (ro_event_date reorder) with
      | None => raise ValueError
      | Some new_date =>
          update_beo (BEO.id beo) (BEO.set_event_date (Some new_date)) ;;;
          update_beo (BEO.id beo) (BEO.set_day_of_week (Some (strftime_A new_date))) ;;;
          update_beo (BEO.id beo) (BEO.set_week_number (Some (isocalendar_week new_date))) ;;;
          update_beo (BEO.id beo) (BEO.set_year (Some (dt_year new_date))) ;;;
          update_beo (BEO.id beo) (BEO.set_order_position (ro_order_position reorder)) ;;;
          update_beo (BEO.id beo) (BEO.set_updated_at (utcnow a)) ;;;
          d <- (fun c => (Ok (committed c), c)) ;;
          let same_day_beos := same_day_query reorder new_date d in
          for_each (enumerate same_day_beos) (reorder_other_step a reorder) ;;;
          db_commit ;;;
          ret "success"
      end
  end.

(** DELETE /api/beos/{session_id} *)
Definition delete_beo (session_id : string) : M string :=
  beo <- query_beo_first (by_session_id session_id) ;;
  match beo with
  | None => raise (HTTPException 404 "BEO not found")
  | Some beo =>
      delete_pages (fun p => bool_decide (BEOPage.beo_id p = BEO.id beo)) ;;;
      delete_annotations (fun x => bool_decide (Annotation.beo_id x = BEO.id beo)) ;;;
      delete_beo_row (BEO.id beo) ;;;
      db_commit ;;;
      ret "success"
  end.

(** ** The service as a transition system *)

Inductive Request : Type :=
| UploadPdf (file : UploadFile) (file_type : string)
| UploadMultiplePdfs (upload_files : list UploadFile) (file_info_list : list FileUploadItem)
| ProcessAllPages (session_ids : list string)
| SelectPages (selection : PageSelection)
| ProcessSelectedPages (selection : PageSelection)
| SaveAnnotation (annotation : AnnotationData)
| CreateBeoFromPages (data : CreateBEOFromPages)
| UpdateBeoMetadata (metadata : BEOMetadata)
| ReorderBeo (reorder : BEOReorder)
| DeleteBeo (session_id : string).

(** The world after a request has been served (its response dropped). *)
Definition step (E : Env) (a : Ambient) (req : Request) (w : World) : World :=
  match req with
  | UploadPdf file file_type => snd (run_request (upload_pdf E a file file_type) w)
  | UploadMultiplePdfs fs infos => snd (run_request (upload_multiple_pdfs E a fs infos) w)
  | ProcessAllPages ids => snd (run_request (process_all_pages E a ids) w)
  | SelectPages sel => snd (run_request (select_pages a sel) w)
  | ProcessSelectedPages sel => snd (run_request (process_selected_pages E a sel) w)
  | SaveAnnotation ann => snd (run_request (save_annotation a ann) w)
  | CreateBeoFromPages data => snd (run_request (create_beo_from_pages E a data) w)
  | UpdateBeoMetadata md => snd (run_request (update_beo_metadata E a md) w)
  | ReorderBeo ro => snd (run_request (reorder_beo E a ro) w)
  | DeleteBeo sid => snd (run_request (delete_beo sid) w)
  end.

(** The worlds the service can be in: it starts with empty tables and
    empty directories and serves requests one after the other. *)
Inductive reachable (E : Env) : World -> Prop :=
| reachable_init : reachable E empty_world
| reachable_step (a : Ambient) (req : Request) (w : World) :
    reachable E w -> reachable E (step E a req w).

(** ** Properties of the tables *)

(** The three derived columns agree with [event_date]. *)
Definition derived_consistent (b : BEO.t) : Prop :=
  BEO.day_of_week b = strftime_A <$> BEO.event_date b
  /\ BEO.week_number b = isocalendar_week <$> BEO.event_date b
  /\ BEO.year b = dt_year <$> BEO.event_date b.

Definition annotation_key (x : Annotation.t) : Z * Z :=
  (Annotation.beo_id x, Annotation.page_index x).

Record db_inv (d : DB) : Prop := mk_db_inv {
  inv_beo_ids_below : Forall (fun b => BEO.id b < beos_seq d) (beos d);
  inv_beo_ids : NoDup (map BEO.id (beos d));
  inv_session_ids : NoDup (map BEO.session_id (beos d));
  inv_annotation_keys : NoDup (map annotation_key (annotations d));
  inv_derived : Forall derived_consistent (beos d);
  inv_active : Forall (fun b => BEO.is_active b = true) (beos d)
}.

(** The rows of one document. *)
Definition pages_of (d : DB) (beo_id : Z) : list BEOPage.t :=
  List.filter (fun p => bool_decide (BEOPage.beo_id p = beo_id)) (beo_pages d).

Definition annotations_of (d : DB) (beo_id page_index : Z) : list Annotation.t :=
  List.filter (fun x => bool_decide (Annotation.beo_id x = beo_id)
                        && bool_decide (Annotation.page_index x = page_index))
              (annotations d).

(** [page_index] runs over [0 .. total_pages - 1], each value once. *)
Definition pages_dense (d : DB) (b : BEO.t) : Prop :=
  Permutation (map BEOPage.page_index (pages_of d (BEO.id b)))
              (seqZ 0 (BEO.total_pages b)).

(** The active documents of one day and their positions. *)
Definition on_day (t : datetime) (d : DB) : list BEO.t :=
  List.filter (fun b => bool_decide (BEO.event_date b = Some t) && BEO.is_active b) (beos d).

Definition positions_dense (t : datetime) (d : DB) : Prop :=
  Permutation (map BEO.order_position (on_day t d)) (seqZ 0 (len (on_day t d))).

(** Hoare triples for handler bodies: from a state in [P] the body ends
    in [Q] when it returns and in [R] when it raises. *)
Definition hoare {A} (P : Ctx -> Prop) (m : M A) (Q : A -> Ctx -> Prop)
    (R : Ctx -> Prop) : Prop :=
  forall c, P c ->
    match m c with
    | (Ok a, c') => Q a c'
    | (Raise _, c') => R c'
    end.

(** Both the committed tables and the session's view are well formed. *)
Definition ctx_inv (c : Ctx) : Prop := db_inv (committed c) /\ db_inv (session c).

(** An attribute assignment that keeps the keys and the date columns
    together. *)
Definition beo_update_ok (f : BEO.t -> BEO.t) : Prop :=
  forall b, BEO.id (f b) = BEO.id b
            /\ BEO.session_id (f b) = BEO.session_id b
            /\ BEO.is_active (f b) = BEO.is_active b
            /\ (derived_consistent b -> derived_consistent (f b)).

(** The four assignments of a date, taken together. *)
Definition set_event (t : datetime) (b : BEO.t) : BEO.t :=
  BEO.set_year (Some (dt_year t))
    (BEO.set_week_number (Some (isocalendar_week t))
       (BEO.set_day_of_week (Some (strftime_A t))
          (BEO.set_event_date (Some t) b))).

(** ** What [reorder_beo] does to the [beos] table *)

(** The position given to the document of rank [idx] among the others. *)
Definition shifted (p idx : Z) : Z := if p <=? idx then idx + 1 else idx.

(** The effect of the renumbering loop on the table. *)
Definition renumber (u : datetime) (p : Z) (items : list (Z * BEO.t)) (l : list BEO.t)
    : list BEO.t :=
  fold_left
    (fun acc item =>
       map (fun b => if bool_decide (BEO.id b = BEO.id (snd item))
                     then reposition u (shifted p (fst item)) b else b) acc)
    items l.

(** The assignments to the document being moved. *)
Definition moved (t : datetime) (p : Z) (u : datetime) (b : BEO.t) : BEO.t :=
  BEO.set_updated_at u (BEO.set_order_position p (set_event t b)).

Definition with_beos (l : list BEO.t) (d : DB) : DB :=
  mk_db l (beo_pages d) (annotations d) (beos_seq d) (beo_pages_seq d) (annotations_seq d).

(** The row [b] after the renumbering loop. *)
Definition renumbered (u : datetime) (p : Z) (items : list (Z * BEO.t)) (b : BEO.t)
    : BEO.t :=
  match List.find (fun item => bool_decide (BEO.id (snd item) = BEO.id b)) items with
  | Some item => reposition u (shifted p (fst item)) b
  | None => b
  end.

(** The filter of [same_day_query]. *)
Definition is_other (sid : string) (t : datetime) (b : BEO.t) : bool :=
  bool_decide (BEO.event_date b = Some t)
  && negb (bool_decide (BEO.session_id b = sid))
  && BEO.is_active b.

Definition is_on_day (t : datetime) (b : BEO.t) : bool :=
  bool_decide (BEO.event_date b = Some t) && BEO.is_active b.

(** The table after a successful [reorder_beo], row by row. *)
Definition placed (a : Ambient) (ro : BEOReorder) (t : datetime) (d : BEO.t) (w : World)
    (b : BEO.t) : BEO.t :=
  renumbered (utcnow a) (ro_order_position ro) (enumerate (same_day_query ro t (db w)))
    (if bool_decide (BEO.id b = BEO.id d)
     then moved t (ro_order_position ro) (utcnow a) b else b).

(** ** A small concrete environment, used to run the handlers

    A "PDF" is a string with one character per page; the rasteriser
    returns the pages as one-character images and clips a page range the
    way pdf2image does.  The empty string is a malformed document. *)

Definition demo_pages (pdf : bytes) : list Image :=
  map (fun c => String c EmptyString) (list_ascii_of_string pdf).

Definition demo_convert (pdf : bytes) (dpi : Z) (range : option (Z * Z))
    : Result (list Image) :=
  if bool_decide (pdf = EmptyString) then Raise (LibraryError "Unable to get page count.")
  else
    match range with
    | None => Ok (demo_pages pdf)
    | Some (first_page, last_page) =>
        let n := len (demo_pages pdf) in
        let first_page := if first_page <? 1 then 1 else first_page in
        let last_page := if n <? last_page then n else last_page in
        if last_page <? first_page then Ok []
        else Ok (firstn (Z.to_nat (last_page - first_page + 1))
                   (skipn (Z.to_nat (first_page - 1)) (demo_pages pdf)))
    end.

(** Accepts [YYYY-MM-DD], optionally followed by [T00:00:00]. *)
Definition demo_fromisoformat (s : string) : option datetime :=
  match s with
  | String y1 (String y2 (String y3 (String y4 (String sep1 (String m1 (String m2
      (String sep2 (String d1 (String d2 rest))))))))) =>
      if forallb PyStr.is_digit [y1; y2; y3; y4; m1; m2; d1; d2]
         && bool_decide (sep1 = "-"%char) && bool_decide (sep2 = "-"%char)
         && (bool_decide (rest = EmptyString) || bool_decide (rest = "T00:00:00"))
      then datetime_ymd
             (PyStr.int_digits (String y1 (String y2 (String y3 (String y4 EmptyString)))))
             (PyStr.int_digits (String m1 (String m2 EmptyString)))
             (PyStr.int_digits (String d1 (String d2 EmptyString)))
      else None
  | _ => None
  end.

Definition demo_env : Env :=
  mk_env demo_convert (fun img _ => Ok img) (fun data => data) demo_fromisoformat.

(** The [k]-th request is served on 3 November 2025 and draws the
    identifiers [doc<k>-0], [doc<k>-1], ... *)
Definition demo_ambient (k : Z) : Ambient :=
  mk_ambient (mk_datetime 2025 11 3 10 0 0 0) (mk_datetime 2025 11 3 18 0 0 0)
    (fun i => "doc" +:+ pretty k +:+ "-" +:+ pretty i).

Definition oct28 : datetime := mk_datetime 2025 10 28 0 0 0 0.

(** Two documents on 28 October at positions 0 and 1, and a third
    document without a date. *)
Definition day_world_1 : World :=
  step demo_env (demo_ambient 1) (UploadPdf (mk_upload "1028 Tuesday.pdf" "ab") "daily")
    empty_world.

Definition day_world_2 : World :=
  step demo_env (demo_ambient 2) (UploadPdf (mk_upload "1028 Tuesday.pdf" "c") "daily")
    day_world_1.

Definition day_world_3 : World :=
  step demo_env (demo_ambient 3) (ReorderBeo (mk_beo_reorder "doc2-0" "2025-10-28" 1))
    day_world_2.

Definition day_world : World :=
  step demo_env (demo_ambient 4) (UploadPdf (mk_upload "menu.pdf" "d") "daily")
    day_world_3.

(** Two documents on 28 October, both at the default position 0, and a
    third document without a date. *)
Definition tie_world : World :=
  step demo_env (demo_ambient 4) (UploadPdf (mk_upload "menu.pdf" "d") "daily")
    day_world_2.

Definition place_doc4 (p : Z) : BEOReorder := mk_beo_reorder "doc4-0" "2025-10-28" p.

(** ** What the upload loop adds to [beo_pages] *)

(** The rows created for [images], the first with page index [k] and
    primary key [seq0]. *)
Fixpoint thumb_rows (a : Ambient) (session_id : string) (beo_id : Z) (seq0 k : Z)
    (images : list Image) : list BEOPage.t :=
  match images with
  | [] => []
  | _ :: rest =>
      BEOPage.set_id seq0
        (BEOPage.set_created_at (utcnow a)
           (new_BEOPage beo_id k k
              (Some (session_id +:+ "_thumb_" +:+ PyStr.str_int k +:+ ".jpg")) None))
      :: thumb_rows a session_id beo_id (seq0 + 1) (k + 1) rest
  end.

Definition add_pages (rows : list BEOPage.t) (d : DB) : DB :=
  mk_db (beos d) (beo_pages d ++ rows) (annotations d)
        (beos_seq d) (beo_pages_seq d + len rows) (annotations_seq d).

Definition add_beo (row : BEO.t) (d : DB) : DB :=
  mk_db (beos d ++ [row]) (beo_pages d) (annotations d)
        (beos_seq d + 1) (beo_pages_seq d) (annotations_seq d).

(** The row that [upload_pdf] inserts for a file with [n] pages. *)
Definition uploaded_beo (a : Ambient) (file : UploadFile) (file_type : string) (n : Z)
    (d : DB) : BEO.t :=
  let date_info := parse_filename_date (now a) (uf_filename file) in
  BEO.set_id (beos_seq d)
    (BEO.set_created_at (utcnow a)
       (BEO.set_updated_at (utcnow a)
          (new_BEO (uuid4 a 0%nat) (uf_filename file) None n "new" file_type
             (di_event_date <$> date_info) (di_day_of_week <$> date_info)
             (di_week_number <$> date_info) (di_year <$> date_info) 0))).

(** A split of the two-page document [doc1-0] that names page 5. *)
Definition split_request : CreateBEOFromPages :=
  mk_create_from_pages "doc1-0" "1234567" [0; 5; 1] 0.

Definition split_world : World :=
  step demo_env (demo_ambient 2) (CreateBeoFromPages split_request) day_world_1.

(** The assignments of [select_pages] to the document. *)
Definition mark_selected (u : datetime) (b : BEO.t) : BEO.t :=
  BEO.set_updated_at u (BEO.set_status "selected" b).

(** [f] applied to the rows with primary key [key]. *)
Definition update_rows (key : Z) (f : BEO.t -> BEO.t) (l : list BEO.t) : list BEO.t :=
  map (fun b => if bool_decide (BEO.id b = key) then f b else b) l.

(** ** What [save_annotation] does to the tables *)

(** The filter of the annotation query. *)
Definition ann_match (beo_id page_index : Z) (x : Annotation.t) : bool :=
  bool_decide (Annotation.beo_id x = beo_id)
  && bool_decide (Annotation.page_index x = page_index).

Definition mark_annotated (u : datetime) (b : BEO.t) : BEO.t :=
  BEO.set_updated_at u (BEO.set_status "annotated" b).

(** The assignments to an existing annotation. *)
Definition overwrite (u : datetime) (payload : JSON) (x : Annotation.t) : Annotation.t :=
  Annotation.set_updated_at u (Annotation.set_canvas_data payload x).

(** The row inserted when the page has no annotation yet. *)
Definition inserted_annotation (u : datetime) (beo_id page_index : Z) (payload : JSON)
    (d : DB) : Annotation.t :=
  Annotation.set_id (annotations_seq d)
    (Annotation.set_created_at u
       (Annotation.set_updated_at u (new_Annotation beo_id page_index payload))).

(** The database after a successful [save_annotation] on document [beo]. *)
Definition saved (a : Ambient) (annotation : AnnotationData) (beo : BEO.t) (d : DB) : DB :=
  let i := ad_page_index annotation in
  let payload := ad_annotation_data annotation in
  match List.find (ann_match (BEO.id beo) i) (annotations d) with
  | Some existing =>
      mk_db (update_rows (BEO.id beo) (mark_annotated (utcnow a)) (beos d))
        (beo_pages d)
        (map (fun x => if bool_decide (Annotation.id x = Annotation.id existing)
                       then overwrite (utcnow a) payload x else x)
             (annotations d))
        (beos_seq d) (beo_pages_seq d) (annotations_seq d)
  | None =>
      mk_db (update_rows (BEO.id beo) (mark_annotated (utcnow a)) (beos d))
        (beo_pages d)
        (annotations d ++ [inserted_annotation (utcnow a) (BEO.id beo) i payload d])
        (beos_seq d) (beo_pages_seq d) (annotations_seq d + 1)
  end.

Definition demo_annotation : AnnotationData :=
  mk_annotation_data "doc1-0" 0 "{objects: []}".

(** ** The shape of the filenames that carry a date *)

Fixpoint all_chars (p : ascii -> bool) (s : string) : bool :=
  match s with
  | String c r => p c && all_chars p r
  | EmptyString => true
  end.

Fixpoint lower_string (s : string) : string :=
  match s with
  | String c r => String (PyStr.lower c) (lower_string r)
  | EmptyString => EmptyString
  end.

Definition digit_value (c : ascii) : Z := PyStr.code c - 48.

(** The filenames accepted by the pattern of [parse_filename_date]: two
    digits, two digits, a run of whitespace, a run of word characters,
    [.pdf] in any letter case, then anything. *)
Definition date_filename (filename : string) (month day : Z) : Prop :=
  exists (m1 m2 d1 d2 : ascii) (ws word ext rest : string),
    filename = String m1 (String m2 (String d1 (String d2 (ws +:+ word +:+ ext +:+ rest))))
    /\ PyStr.is_digit m1 = true /\ PyStr.is_digit m2 = true
    /\ PyStr.is_digit d1 = true /\ PyStr.is_digit d2 = true
    /\ ws <> EmptyString /\ all_chars PyStr.is_space ws = true
    /\ word <> EmptyString /\ all_chars PyStr.is_word word = true
    /\ lower_string ext = ".pdf"
    /\ month = 10 * digit_value m1 + digit_value m2
    /\ day = 10 * digit_value d1 + digit_value d2.

(** The pattern as the specification words it: two-digit month,
    two-digit day, whitespace, a weekday name, [.pdf]. *)
Definition claimed_pattern (filename : string) : bool :=
  match filename with
  | String m1 (String m2 (String d1 (String d2 r))) =>
      PyStr.is_digit m1 && PyStr.is_digit m2 && PyStr.is_digit d1 && PyStr.is_digit d2
      && let '(ws, r1) := PyStr.span PyStr.is_space r in
         negb (bool_decide (ws = EmptyString))
         && existsb (fun name => bool_decide (r1 = name +:+ ".pdf")) day_names
  | _ => false
  end.

(** The answer the specification gives for a filename of that shape. *)
Definition resolved_date (now : datetime) (month day : Z) : option DateInfo :=
  match datetime_ymd (dt_year now) month day with
  | None => None
  | Some this_year =>
      if 180 <? toordinal now - toordinal this_year
      then (fun next_year => date_info_of next_year (dt_year now + 1))
             <$> datetime_ymd (dt_year now + 1) month day
      else Some (date_info_of this_year (dt_year now))
  end.

Definition is_ok {A} (r : Result A) : bool :=
  match r with Ok _ => true | Raise _ => false end.

(** When [upload_pdf] returns normally: the extension is [.pdf], the
    rasteriser and the JPEG encoder succeed and the fresh identifier is
    not taken. *)
Definition upload_succeeds (E : Env) (a : Ambient) (file : UploadFile) (w : World) : bool :=
  PyStr.endswith (uf_filename file) ".pdf"
  && match convert_from_bytes E (uf_content file) 75 None with
     | Ok images =>
         negb (existsb (fun o => bool_decide (BEO.session_id o = uuid4 a 0%nat))
                 (beos (db w)))
         && forallb (fun img => is_ok (img_save E img 60)) images
     | Raise _ => false
     end.

(** The columns of a page row that promotion does not touch. *)
Definition page_place (p : BEOPage.t) : Z * Z * Z * Z :=
  (BEOPage.id p, BEOPage.beo_id p, BEOPage.page_index p, BEOPage.original_order p).

(** The page placement and the page counts recorded in a database. *)
Definition page_layout (d : DB) : list (Z * Z * Z * Z) * list (Z * Z) :=
  (map page_place (beo_pages d), map (fun b => (BEO.id b, BEO.total_pages b)) (beos d)).

(** ** Date arithmetic and rendering ([datetime] module, continued) *)

Module DateArith.

Definition MAXORDINAL : Z := 3652059.

Definition DI400Y : Z := 146097.
Definition DI100Y : Z := 36524.
Definition DI4Y : Z := 1461.

(** The tables [_DAYS_IN_MONTH] and [_DAYS_BEFORE_MONTH] (index 0 is a
    placeholder). *)
Definition DAYS_IN_MONTH : list Z := [-1; 31; 28; 31; 30; 31; 30; 31; 31; 30; 31; 30; 31].

Definition DAYS_BEFORE_MONTH : list Z :=
  [-1; 0; 31; 59; 90; 120; 151; 181; 212; 243; 273; 304; 334].

Definition table (l : list Z) (i : Z) : Z := nth (Z.to_nat i) l 0.

Definition b2z (b : bool) : Z := if b then 1 else 0.

(** [_ord2ymd(n)]: the date of ordinal [n], 1 January of year 1 being
    day 1. *)
Definition ord2ymd (n : Z) : Z * Z * Z :=
  let n := n - 1 in
  let n400 := n / DI400Y in
  let n := n mod DI400Y in
  let year := n400 * 400 + 1 in
  let n100 := n / DI100Y in
  let n := n mod DI100Y in
  let n4 := n / DI4Y in
  let n := n mod DI4Y in
  let n1 := n / 365 in
  let n := n mod 365 in
  let year := year + n100 * 100 + n4 * 4 + n1 in
  if (n1 =? 4) || (n100 =? 4) then (year - 1, 12, 31)
  else
    let leapyear := (n1 =? 3) && (negb (n4 =? 24) || (n100 =? 3)) in
    let month := Z.shiftr (n + 50) 5 in
    let preceding := table DAYS_BEFORE_MONTH month + b2z ((2 <? month) && leapyear) in
    if n <? preceding then
      let month := month - 1 in
      let preceding :=
        preceding - (table DAYS_IN_MONTH month + b2z ((month =? 2) && leapyear)) in
      (year, month, n - preceding + 1)
    else (year, month, n - preceding + 1).

(** The last steps of [_ord2ymd]: month and day of the [n]-th day
    (counted from 0) of a year. *)
Definition month_day (leapyear : bool) (n : Z) : Z * Z :=
  let month := Z.shiftr (n + 50) 5 in
  let preceding := table DAYS_BEFORE_MONTH month + b2z ((2 <? month) && leapyear) in
  if n <? preceding then
    let month := month - 1 in
    let preceding :=
      preceding - (table DAYS_IN_MONTH month + b2z ((month =? 2) && leapyear)) in
    (month, n - preceding + 1)
  else (month, n - preceding + 1).

(** [_days_before_month] and [_days_in_month] as functions of the leap
    flag. *)
Definition before_month (leapyear : bool) (month : Z) : Z :=
  table DAYS_BEFORE_MONTH month + b2z ((2 <? month) && leapyear).

Definition month_length (leapyear : bool) (month : Z) : Z :=
  if month =? 2 then (if leapyear then 29 else 28)
  else if (month =? 4) || (month =? 6) || (month =? 9) || (month =? 11)
       then 30 else 31.

Fixpoint before_month_aux (leapyear : bool) (k : nat) : Z :=
  match k with
  | O => 0
  | S k' => before_month_aux leapyear k' + month_length leapyear (Z.of_nat k)
  end.

(** [t + timedelta(days=days)]; the time of day is kept. *)
Definition add_days (t : datetime) (days : Z) : Result datetime :=
  let o := toordinal t + days in
  if (0 <? o) && (o <=? MAXORDINAL) then
    let '(y, m, d) := ord2ymd o in
    Ok (mk_datetime y m d (dt_hour t) (dt_minute t) (dt_second t) (dt_microsecond t))
  else Raise (LibraryError "OverflowError: date value out of range").

(** [timedelta(weeks=weeks)], as its number of days. *)
Definition timedelta_weeks (weeks : Z) : Result Z :=
  let days := 7 * weeks in
  if 999999999 <? Z.abs days
  then Raise (LibraryError "OverflowError: days must have magnitude <= 999999999")
  else Ok days.

(** ["%0<width>d" % n] for a non-negative [n] *)
Definition zero_pad (width : nat) (n : Z) : string :=
  let s := PyStr.str_int n in
  String.concat EmptyString (repeat "0" (width - String.length s)) +:+ s.

(** [t.isoformat()] of a naive [datetime] *)
Definition isoformat (t : datetime) : string :=
  zero_pad 4 (dt_year t) +:+ "-" +:+ zero_pad 2 (dt_month t) +:+ "-"
  +:+ zero_pad 2 (dt_day t) +:+ "T"
  +:+ zero_pad 2 (dt_hour t) +:+ ":" +:+ zero_pad 2 (dt_minute t) +:+ ":"
  +:+ zero_pad 2 (dt_second t)
  +:+ (if dt_microsecond t =? 0 then EmptyString
       else "." +:+ zero_pad 6 (dt_microsecond t)).

(** [d.isocalendar()[0]]: the ISO year, which differs from the calendar
    year for the days of week 52/53 in early January and of week 1 in late
    December. *)
Definition isocalendar_year (d : datetime) : Z :=
  let year := dt_year d in
  let today := toordinal d in
  let week := (today - isoweek1monday year) / 7 in
  if week <? 0 then year - 1
  else if (52 <=? week) && (isoweek1monday (year + 1) <=? today) then year + 1
  else year.

(** The date fields of a value built by the [datetime] constructor. *)
Definition valid_date (d : datetime) : Prop :=
  1 <= dt_month d <= 12 /\ 1 <= dt_day d <= days_in_month (dt_year d) (dt_month d).

(** Microseconds since midnight. *)
Definition time_of_day (d : datetime) : Z :=
  ((dt_hour d * 60 + dt_minute d) * 60 + dt_second d) * 1000000 + dt_microsecond d.

End DateArith.

Import DateArith.

(** ** The read-only handlers of [main_db.py] *)

(** The truth value of an optional string: [None] and the empty string
    are false. *)
Definition truthy (o : option string) : bool :=
  match o with
  | Some s => negb (bool_decide (s = EmptyString))
  | None => false
  end.

(** [s[:n]] *)
Fixpoint str_prefix (n : nat) (s : string) : string :=
  match n, s with
  | S n', String c r => String c (str_prefix n' r)
  | _, _ => EmptyString
  end.

Definition load_file_as_base64 (E : Env) (directory : Dir) (filename : string) : M string :=
  data <- read_file directory filename ;;
  ret (b64encode E data).

(** [ORDER BY page_index] *)
Definition page_index_le (x y : BEOPage.t) : Prop :=
  BEOPage.page_index x <= BEOPage.page_index y.

#[global] Instance page_index_le_dec (x y : BEOPage.t) : Decision (page_index_le x y) :=
  Z_le_dec (BEOPage.page_index x) (BEOPage.page_index y).

(** [ORDER BY created_at DESC] *)
Definition created_ge (x y : BEO.t) : Prop :=
  to_microseconds (BEO.created_at y) <= to_microseconds (BEO.created_at x).

#[global] Instance created_ge_dec (x y : BEO.t) : Decision (created_ge x y) :=
  Z_le_dec (to_microseconds (BEO.created_at y)) (to_microseconds (BEO.created_at x)).

(** The instant of a nullable DateTime column, for sorting. *)
Definition event_instant (b : BEO.t) : Z :=
  match BEO.event_date b with
  | Some t => to_microseconds t
  | None => 0
  end.

(** [ORDER BY event_date, order_position] (on rows with a date) *)
Definition event_position_le (x y : BEO.t) : Prop :=
  event_instant x < event_instant y
  \/ (event_instant x = event_instant y /\ BEO.order_position x <= BEO.order_position y).

#[global] Instance event_position_le_dec (x y : BEO.t) : Decision (event_position_le x y).
Proof. unfold event_position_le. apply _. Defined.

(** [db.query(BEO).order_by(...).all()] and the same with a filter; the
    sort is the stable merge sort used for [ORDER BY order_position]. *)
Definition query_beos_all_ordered (R : relation BEO.t) `{forall x y, Decision (R x y)}
    : M (list BEO.t) :=
  d <- get_session ;; ret (merge_sort R (beos d)).

Definition query_beos_ordered (R : relation BEO.t) `{forall x y, Decision (R x y)}
    (p : BEO.t -> bool) : M (list BEO.t) :=
  d <- get_session ;; ret (merge_sort R (List.filter p (beos d))).

(** [db.query(BEOPage).filter(p).order_by(BEOPage.page_index).all()] *)
Definition query_pages_ordered (p : BEOPage.t -> bool) : M (list BEOPage.t) :=
  d <- get_session ;; ret (merge_sort page_index_le (List.filter p (beo_pages d))).

(** [db.query(Annotation).filter(p).all()], in table order *)
Definition query_annotations_all (p : Annotation.t -> bool) : M (list Annotation.t) :=
  d <- get_session ;; ret (List.filter p (annotations d)).

(** [db.query(Annotation).filter(p).count()] *)
Definition query_annotations_count (p : Annotation.t -> bool) : M Z :=
  d <- get_session ;; ret (len (List.filter p (annotations d))).

(** The dict [{ann.page_index: ann.canvas_data for ann in annotations}]:
    a later row replaces an earlier one with the same page index. *)
Definition annotations_dict (l : list Annotation.t) : gmap Z JSON :=
  fold_left (fun m ann => <[Annotation.page_index ann := Annotation.canvas_data ann]> m) l ∅.

Record SessionData : Type := mk_session_data {
  sd_session_id : string;
  sd_filename : string;
  sd_total_pages : Z;
  sd_status : string;
  sd_annotations : gmap Z JSON;
  sd_created_at : string;
  sd_updated_at : string
}.

Record BeoPages : Type := mk_beo_pages {
  bp_session_id : string;
  bp_beo_number : option string;
  bp_filename : string;
  bp_total_pages : Z;
  bp_high_res_pages : gmap Z string
}.

Record PageData : Type := mk_page_data {
  pd_page_number : Z;
  pd_image : string;
  pd_annotations : JSON
}.

Record BeoSummary : Type := mk_beo_summary {
  bs_session_id : string;
  bs_filename : string;
  bs_total_pages : Z;
  bs_status : string;
  bs_created_at : string
}.

(** An entry of the week and day listings. *)
Record BeoCard : Type := mk_beo_card {
  bc_session_id : string;
  bc_filename : string;
  bc_beo_number : string;
  bc_event_date : option string;
  bc_order_position : Z;
  bc_status : string;
  bc_total_pages : Z;
  bc_annotation_count : Z;
  bc_thumbnail : option string;
  bc_created_at : string
}.

Record WeekBeos : Type := mk_week_beos {
  wb_year : Z;
  wb_week_number : Z;
  wb_week_start : string;
  wb_week_end : string;
  wb_days : gmap string (list BeoCard)
}.

(** The block that the week and the day listing share: the first page's
    thumbnail, the number of annotations and the entry itself. *)
Definition beo_card (E : Env) (beo : BEO.t) : M BeoCard :=
  first_page <- query_page_first
                  (fun p => bool_decide (BEOPage.beo_id p = BEO.id beo)
                            && bool_decide (BEOPage.page_index p = 0)) ;;
  thumbnail_base64 <-
    match first_page with
    | Some first_page =>
        match BEOPage.thumbnail_path first_page with
        | Some path =>
            if bool_decide (path = EmptyString) then ret None
            else s <- load_file_as_base64 E THUMBNAILS_DIR path ;; ret (Some s)
        | None => ret None
        end
    | None => ret None
    end ;;
  annotation_count <- query_annotations_count
                        (fun x => bool_decide (Annotation.beo_id x = BEO.id beo)) ;;
  ret (mk_beo_card (BEO.session_id beo) (BEO.filename beo)
         (if truthy (BEO.beo_number beo) then default EmptyString (BEO.beo_number beo)
          else str_prefix 7 (BEO.session_id beo))
         (isoformat <$> BEO.event_date beo)
         (BEO.order_position beo) (BEO.status beo) (BEO.total_pages beo)
         annotation_count thumbnail_base64 (isoformat (BEO.created_at beo))).

(** The filter of the week listing. *)
Definition in_week (week_start week_end : datetime) (b : BEO.t) : bool :=
  match BEO.event_date b with
  | Some t =>
      (to_microseconds week_start <=? to_microseconds t)
      && (to_microseconds t <=? to_microseconds week_end)
      && BEO.is_active b
  | None => false
  end.

(** The filter of the day listing: from midnight up to, but excluding,
    the last microsecond of the day. *)
Definition in_day (lo hi : datetime) (b : BEO.t) : bool :=
  match BEO.event_date b with
  | Some t =>
      (to_microseconds lo <=? to_microseconds t)
      && (to_microseconds t <? to_microseconds hi)
      && BEO.is_active b
  | None => false
  end.

Definition empty_days : gmap string (list BeoCard) :=
  list_to_map (map (fun name => (name, [])) day_names).

Definition week_step (E : Env) (days : gmap string (list BeoCard)) (beo : BEO.t)
    : M (gmap string (list BeoCard)) :=
  if bool_decide (is_Some (BEO.event_date beo)) && truthy (BEO.day_of_week beo) then
    beo_data <- beo_card E beo ;;
    let day_of_week := default EmptyString (BEO.day_of_week beo) in
    match days !! day_of_week with
    | Some l => ret (<[day_of_week := l ++ [beo_data]]> days)
    | None => ret days
    end
  else ret days.

(** [jan_4 - timedelta(days=jan_4.weekday()) + timedelta(weeks=week_number - 1)]
    and the day six days later. *)
Definition week_bounds (year week_number : Z) : Result (datetime * datetime) :=
  match datetime_ymd year 1 4 with
  | None => Raise ValueError
  | Some jan_4 =>
      match add_days jan_4 (- weekday jan_4) with
      | Raise e => Raise e
      | Ok monday =>
          match timedelta_weeks (week_number - 1) with
          | Raise e => Raise e
          | Ok days =>
              match add_days monday days with
              | Raise e => Raise e
              | Ok week_start =>
                  match add_days week_start 6 with
                  | Raise e => Raise e
                  | Ok week_end => Ok (week_start, week_end)
                  end
              end
          end
      end
  end.

Module Routes.

(** GET /api *)
Definition api_root : M (string * string) :=
  ret ("Catering Workflow API - Database Edition", "running").

(** GET /api/session/{session_id} *)
Definition get_session (session_id : string) : M SessionData :=
  beo <- query_beo_first (by_session_id session_id) ;;
  match beo with
  | None => raise (HTTPException 404 "Session not found")
  | Some beo =>
      anns <- query_annotations_all
                (fun x => bool_decide (Annotation.beo_id x = BEO.id beo)) ;;
      pages <- query_pages_ordered
                 (fun p => bool_decide (BEOPage.beo_id p = BEO.id beo)) ;;
      ret (mk_session_data (BEO.session_id beo) (BEO.filename beo) (BEO.total_pages beo)
             (BEO.status beo) (annotations_dict anns)
             (isoformat (BEO.created_at beo)) (isoformat (BEO.updated_at beo)))
  end.

Definition high_res_urls (pages : list BEOPage.t) : gmap Z string :=
  fold_left
    (fun m page =>
       if truthy (BEOPage.high_res_path page)
       then <[BEOPage.page_index page :=
                "/storage/high_res/" +:+ default EmptyString (BEOPage.high_res_path page)]> m
       else m)
    pages ∅.

(** GET /api/beos/{session_id}/pages *)
Definition get_beo_pages (session_id : string) : M BeoPages :=
  beo <- query_beo_first (by_session_id session_id) ;;
  match beo with
  | None => raise (HTTPException 404 "BEO not found")
  | Some beo =>
      pages <- query_pages_ordered
                 (fun p => bool_decide (BEOPage.beo_id p = BEO.id beo)) ;;
      ret (mk_beo_pages (BEO.session_id beo) (BEO.beo_number beo) (BEO.filename beo)
             (BEO.total_pages beo) (high_res_urls pages))
  end.

Definition export_page (E : Env) (dict : gmap Z JSON) (acc : list PageData)
    (page : BEOPage.t) : M (list PageData) :=
  image_base64 <-
    (if truthy (BEOPage.high_res_path page)
     then load_file_as_base64 E HIGH_RES_DIR
            (default EmptyString (BEOPage.high_res_path page))
     else match BEOPage.thumbnail_path page with
          | Some path => load_file_as_base64 E THUMBNAILS_DIR path
          | None => raise (LibraryError "TypeError: expected str, not NoneType")
          end) ;;
  ret (acc ++ [mk_page_data (BEOPage.page_index page + 1) image_base64
                 (default "{}" (dict !! BEOPage.page_index page))]).

(** GET /api/export/{session_id} *)
Definition export_session (E : Env) (session_id : string) : M (string * list PageData) :=
  beo <- query_beo_first (by_session_id session_id) ;;
  match beo with
  | None => raise (HTTPException 404 "Session not found")
  | Some beo =>
      pages <- query_pages_ordered
                 (fun p => bool_decide (BEOPage.beo_id p = BEO.id beo)) ;;
      anns <- query_annotations_all
                (fun x => bool_decide (Annotation.beo_id x = BEO.id beo)) ;;
      let dict := annotations_dict anns in
      export_pages <- fold_loop pages [] (export_page E dict) ;;
      ret (BEO.filename beo, export_pages)
  end.

(** GET /api/beos *)
Definition list_beos : M (Z * list BeoSummary) :=
  rows <- query_beos_all_ordered created_ge ;;
  ret (len rows,
       map (fun beo => mk_beo_summary (BEO.session_id beo) (BEO.filename beo)
                         (BEO.total_pages beo) (BEO.status beo)
                         (isoformat (BEO.created_at beo)))
           rows).

(** GET /api/beos/week/{year}/{week_number} *)
Definition get_week_beos (E : Env) (year week_number : Z) : M WeekBeos :=
  bounds <- lift (week_bounds year week_number) ;;
  let '(week_start, week_end) := bounds in
  rows <- query_beos_ordered event_position_le (in_week week_start week_end) ;;
  days <- fold_loop rows empty_days (week_step E) ;;
  ret (mk_week_beos year week_number (isoformat week_start) (isoformat week_end) days).

Definition day_step (E : Env) (beo_list : list BeoCard) (beo : BEO.t) : M (list BeoCard) :=
  beo_data <- beo_card E beo ;;
  ret (beo_list ++ [beo_data]).

(** GET /api/beos/day/{date} *)
Definition get_day_beos (E : Env) (date : string) : M (string * list BeoCard) :=
  match fromisoformat E date with
  | None => raise (HTTPException 400 "Invalid date format. Use YYYY-MM-DD")
  | Some parsed =>
      let lo := mk_datetime (dt_year parsed) (dt_month parsed) (dt_day parsed) 0 0 0 0 in
      let hi := mk_datetime (dt_year parsed) (dt_month parsed) (dt_day parsed)
                  23 59 59 999999 in
      rows <- query_beos_ordered position_le (in_day lo hi) ;;
      beo_list <- fold_loop rows [] (day_step E) ;;
      ret (date, beo_list)
  end.

End Routes.

(** The status code with which a request is answered. *)
Definition respond (E : Env) (a : Ambient) (req : Request) (w : World) : Z :=
  match req with
  | UploadPdf file file_type => http_status (fst (run_request (upload_pdf E a file file_type) w))
  | UploadMultiplePdfs fs infos =>
      http_status (fst (run_request (upload_multiple_pdfs E a fs infos) w))
  | ProcessAllPages ids => http_status (fst (run_request (process_all_pages E a ids) w))
  | SelectPages sel => http_status (fst (run_request (select_pages a sel) w))
  | ProcessSelectedPages sel =>
      http_status (fst (run_request (process_selected_pages E a sel) w))
  | SaveAnnotation ann => http_status (fst (run_request (save_annotation a ann) w))
  | CreateBeoFromPages data =>
      http_status (fst (run_request (create_beo_from_pages E a data) w))
  | UpdateBeoMetadata md => http_status (fst (run_request (update_beo_metadata E a md) w))
  | ReorderBeo ro => http_status (fst (run_request (reorder_beo E a ro) w))
  | DeleteBeo sid => http_status (fst (run_request (delete_beo sid) w))
  end.

(** ** Well-formedness of the page and annotation rows *)

(** A file of that name is in the directory. *)
Definition stored (dir : Dir) (name : string) (f : Files) : Prop :=
  is_Some (dir_files dir f !! name).

(** Every file of [f] is still there in [g] (possibly rewritten). *)
Definition files_kept (f g : Files) : Prop :=
  forall dir name, stored dir name f -> stored dir name g.

Definition page_key (p : BEOPage.t) : Z * Z := (BEOPage.beo_id p, BEOPage.page_index p).

Definition beo_ids (d : DB) : list Z := map BEO.id (beos d).

(** Keys and references: primary keys are unique and below their
    sequence, every page and annotation belongs to a document of the
    table, a document has at most one page per index and each index lies
    in [0 .. total_pages - 1]. *)
Record rows_inv (d : DB) : Prop := mk_rows_inv {
  ri_beo_below : Forall (fun b => BEO.id b < beos_seq d) (beos d);
  ri_page_owner : Forall (fun p => In (BEOPage.beo_id p) (beo_ids d)) (beo_pages d);
  ri_annotation_owner :
    Forall (fun x => In (Annotation.beo_id x) (beo_ids d)) (annotations d);
  ri_page_below : Forall (fun p => BEOPage.id p < beo_pages_seq d) (beo_pages d);
  ri_page_ids : NoDup (map BEOPage.id (beo_pages d));
  ri_page_keys : NoDup (map page_key (beo_pages d));
  ri_page_range :
    Forall (fun p => 0 <= BEOPage.page_index p
                     /\ forall b, In b (beos d) -> BEO.id b = BEOPage.beo_id p ->
                                  BEOPage.page_index p < BEO.total_pages b)
           (beo_pages d);
  ri_annotation_below :
    Forall (fun x => Annotation.id x < annotations_seq d) (annotations d);
  ri_annotation_ids : NoDup (map Annotation.id (annotations d));
  ri_total_pages : Forall (fun b => 0 <= BEO.total_pages b) (beos d)
}.

(** The paths recorded on the page rows name stored files. *)
Record paths_inv (d : DB) (f : Files) : Prop := mk_paths_inv {
  pi_thumbnail :
    Forall (fun p => exists n, BEOPage.thumbnail_path p = Some n
                               /\ stored THUMBNAILS_DIR n f)
           (beo_pages d);
  pi_high_res :
    Forall (fun p => forall h, BEOPage.high_res_path p = Some h -> stored HIGH_RES_DIR h f)
           (beo_pages d)
}.

Definition good (d : DB) (f : Files) : Prop := rows_inv d /\ paths_inv d f.

Definition ctx_good (c : Ctx) : Prop :=
  good (committed c) (disk c) /\ good (session c) (disk c).

(** The state inside a loop that creates the pages of the new document
    [beo_id], about to create page [k] of [n]. *)
Definition filling (beo_id n k : Z) (c : Ctx) : Prop :=
  ctx_good c
  /\ In beo_id (beo_ids (session c))
  /\ (forall b, In b (beos (session c)) -> BEO.id b = beo_id -> n <= BEO.total_pages b)
  /\ Forall (fun p => BEOPage.beo_id p = beo_id -> BEOPage.page_index p < k)
            (beo_pages (session c))
  /\ 0 <= k.

(** ** What the single-document requests change *)

(** The assignments of [update_beo_metadata] to the document: each
    field that the request carries, then [updated_at]. *)
Definition patched (E : Env) (a : Ambient) (md : BEOMetadata) (b : BEO.t) : BEO.t :=
  let b1 := match md_beo_number md with
            | Some n => BEO.set_beo_number (Some n) b
            | None => b
            end in
  let b2 := match md_event_date md ≫= fromisoformat E with
            | Some t => set_event t b1
            | None => b1
            end in
  let b3 := match md_order_position md with
            | Some p => BEO.set_order_position p b2
            | None => b2
            end in
  BEO.set_updated_at (utcnow a) b3.

(** The date of a metadata update parses (or none is given). *)
Definition date_given_ok (E : Env) (md : BEOMetadata) : bool :=
  match md_event_date md with
  | Some s => bool_decide (is_Some (fromisoformat E s))
  | None => true
  end.

(** The tables without the document [beo]. *)
Definition without (beo : BEO.t) (d : DB) : DB :=
  mk_db (List.filter (fun b => negb (bool_decide (BEO.id b = BEO.id beo))) (beos d))
        (List.filter (fun p => negb (bool_decide (BEOPage.beo_id p = BEO.id beo)))
           (beo_pages d))
        (List.filter (fun x => negb (bool_decide (Annotation.beo_id x = BEO.id beo)))
           (annotations d))
        (beos_seq d) (beo_pages_seq d) (annotations_seq d).

(** The document a request addresses, for the requests that address
    exactly one. *)
Definition target (req : Request) : option string :=
  match req with
  | SelectPages sel => Some (ps_session_id sel)
  | ProcessSelectedPages sel => Some (ps_session_id sel)
  | SaveAnnotation ann => Some (ad_session_id ann)
  | UpdateBeoMetadata md => Some (md_session_id md)
  | DeleteBeo sid => Some sid
  | _ => None
  end.

(** The rows of the three tables that belong to documents other than
    [sid]; [key] is the primary key of [sid] when it exists. *)
Definition other_beos (sid : string) (d : DB) : list BEO.t :=
  List.filter (fun b => negb (by_session_id sid b)) (beos d).

Definition other_pages (key : Z) (d : DB) : list BEOPage.t :=
  List.filter (fun p => negb (bool_decide (BEOPage.beo_id p = key))) (beo_pages d).

Definition other_annotations (key : Z) (d : DB) : list Annotation.t :=
  List.filter (fun x => negb (bool_decide (Annotation.beo_id x = key))) (annotations d).

(** The assignments of [process_selected_pages] to the document. *)
Definition mark_ready (u : datetime) (b : BEO.t) : BEO.t :=
  BEO.set_updated_at u (BEO.set_status "ready_for_annotation" b).

(** ** What the creating requests add *)

(** [d] is [d0] with rows appended: new documents, all satisfying [ok],
    and new pages, all belonging to the new documents; no existing row is
    changed and the annotations are the same. *)
Definition grown (ok : BEO.t -> Prop) (d0 d : DB) : Prop :=
  annotations d = annotations d0
  /\ exists nb np,
       beos d = beos d0 ++ nb
       /\ beo_pages d = beo_pages d0 ++ np
       /\ Forall ok nb
       /\ Forall (fun p => In (BEOPage.beo_id p) (map BEO.id nb)) np.

(** The same, inside a loop that creates the pages of the new document
    with primary key [k]. *)
Definition growing (ok : BEO.t -> Prop) (d0 : DB) (k : Z) (d : DB) : Prop :=
  annotations d = annotations d0
  /\ exists nb np,
       beos d = beos d0 ++ nb
       /\ beo_pages d = beo_pages d0 ++ np
       /\ Forall ok nb
       /\ Forall (fun p => In (BEOPage.beo_id p) (map BEO.id nb)) np
       /\ In k (map BEO.id nb).

(** The documents made by each creating request. *)
Definition uploaded_ok (b : BEO.t) : Prop :=
  BEO.status b = "new" /\ BEO.beo_number b = None /\ BEO.order_position b = 0
  /\ PyStr.endswith (BEO.filename b) ".pdf" = true.

Definition processed_ok (b : BEO.t) : Prop :=
  BEO.status b = "ready_for_annotation" /\ BEO.beo_number b = Some "BEO 1"
  /\ BEO.order_position b = 0.

Definition split_ok (data : CreateBEOFromPages) (b : BEO.t) : Prop :=
  BEO.status b = "ready_for_annotation" /\ BEO.beo_number b = Some (cp_beo_number data)
  /\ BEO.order_position b = cp_order_position data
  /\ BEO.total_pages b = len (cp_page_indices data).

(** ** What the read-only handlers return *)

(** The annotations of one document as the dict of the responses. *)
Definition doc_annotations (d : DB) (beo_id : Z) : gmap Z JSON :=
  annotations_dict
    (List.filter (fun x => bool_decide (Annotation.beo_id x = beo_id)) (annotations d)).

(** The file that the export reads for a page: the high-resolution image
    when the row records one, the thumbnail otherwise. *)
Definition page_image_file (f : Files) (p : BEOPage.t) : option bytes :=
  if truthy (BEOPage.high_res_path p)
  then high_res f !! default EmptyString (BEOPage.high_res_path p)
  else BEOPage.thumbnail_path p ≫= fun n => thumbnails f !! n.

Definition exported_page (E : Env) (f : Files) (dict : gmap Z JSON) (p : BEOPage.t)
    : PageData :=
  mk_page_data (BEOPage.page_index p + 1)
    (b64encode E (default EmptyString (page_image_file f p)))
    (default "{}" (dict !! BEOPage.page_index p)).

(** The entry of the listings for a document whose first thumbnail, if
    any is recorded, is on disk. *)
Definition card_of (E : Env) (d : DB) (f : Files) (beo : BEO.t) : BeoCard :=
  let first_page :=
    List.find (fun p => bool_decide (BEOPage.beo_id p = BEO.id beo)
                        && bool_decide (BEOPage.page_index p = 0))
              (beo_pages d) in
  let path := first_page ≫= BEOPage.thumbnail_path in
  mk_beo_card (BEO.session_id beo) (BEO.filename beo)
    (if truthy (BEO.beo_number beo) then default EmptyString (BEO.beo_number beo)
     else str_prefix 7 (BEO.session_id beo))
    (isoformat <$> BEO.event_date beo)
    (BEO.order_position beo) (BEO.status beo) (BEO.total_pages beo)
    (len (List.filter (fun x => bool_decide (Annotation.beo_id x = BEO.id beo))
            (annotations d)))
    (if truthy path
     then Some (b64encode E
                  (default EmptyString (thumbnails f !! default EmptyString path)))
     else None)
    (isoformat (BEO.created_at beo)).

(** The bounds of the day listing for a parsed date. *)
Definition day_start (parsed : datetime) : datetime :=
  mk_datetime (dt_year parsed) (dt_month parsed) (dt_day parsed) 0 0 0 0.

Definition day_end (parsed : datetime) : datetime :=
  mk_datetime (dt_year parsed) (dt_month parsed) (dt_day parsed) 23 59 59 999999.

(** The documents of the week listing that go under [name]. *)
Definition listed_under (name : string) (b : BEO.t) : bool :=
  bool_decide (is_Some (BEO.event_date b)) && truthy (BEO.day_of_week b)
  && bool_decide (BEO.day_of_week b = Some name).

(** The URL under which [get_beo_pages] lists a page, if it lists it. *)
Definition high_res_url (p : BEOPage.t) : option string :=
  if truthy (BEOPage.high_res_path p)
  then Some ("/storage/high_res/" +:+ default EmptyString (BEOPage.high_res_path p))
  else None.

(** The page row of document [beo_id] at index [i]. *)
Definition page_at (d : DB) (beo_id i : Z) : option BEOPage.t :=
  List.find (fun p => bool_decide (BEOPage.beo_id p = beo_id)
                      && bool_decide (BEOPage.page_index p = i))
            (beo_pages d).

(** The state inside the loop of [process_selected_pages] on the
    document with primary key [k]. *)
Definition promoting (d0 : DB) (k : Z) (c : Ctx) : Prop :=
  committed c = d0
  /\ beos (session c) = beos d0
  /\ annotations (session c) = annotations d0
  /\ NoDup (map BEOPage.id (beo_pages (session c)))
  /\ other_pages k (session c) = other_pages k d0.

(** The step of a loop that fills a dict from rows: the row's value, when
    it has one, is stored under the row's key. *)
Definition put_row {X V : Type} (key : X -> Z) (val : X -> option V)
    (m : gmap Z V) (x : X) : gmap Z V :=
  match val x with
  | Some v => <[key x := v]> m
  | None => m
  end.

(** * Verification *)

Example oct28_2025_tuesday :
  (strftime_A <$> datetime_ymd 2025 10 28) = Some "Tuesday"
  /\ (isocalendar_week <$> datetime_ymd 2025 10 28) = Some 44
  /\ (toordinal <$> datetime_ymd 2025 10 28) = Some 739552.
Proof. repeat split; reflexivity. Qed.

Section Hoare.

Context {A B : Type}.

Lemma hoare_ret (P : Ctx -> Prop) (a : A) (Q : A -> Ctx -> Prop) R :
  (forall c, P c -> Q a c) -> hoare P (ret a) Q R.
Proof. intros H c Hc. simpl. auto. Qed.

Lemma hoare_raise (P : Ctx -> Prop) (e : exn) (Q : A -> Ctx -> Prop) (R : Ctx -> Prop) :
  (forall c, P c -> R c) -> hoare P (raise e) Q R.
Proof. intros H c Hc. simpl. auto. Qed.

Lemma hoare_lift (P : Ctx -> Prop) (r : Result A) (Q : A -> Ctx -> Prop) (R : Ctx -> Prop) :
  (forall c, P c -> R c) -> (forall a c, r = Ok a -> P c -> Q a c) -> hoare P (lift r) Q R.
Proof. intros HR HQ c Hc. unfold lift. destruct r; auto. Qed.

Lemma hoare_bind (P : Ctx -> Prop) (m : M A) (k : A -> M B)
    (Q1 : A -> Ctx -> Prop) (Q : B -> Ctx -> Prop) (R : Ctx -> Prop) :
  hoare P m Q1 R -> (forall a, hoare (Q1 a) (k a) Q R) -> hoare P (bind m k) Q R.
Proof.
  intros Hm Hk c Hc. unfold bind. specialize (Hm c Hc).
  destruct (m c) as [[a|e] c']; [apply (Hk a c' Hm) | exact Hm].
Qed.

Lemma hoare_try (P : Ctx -> Prop) (m : M A) (h : exn -> M A)
    (Q : A -> Ctx -> Prop) (R1 R : Ctx -> Prop) :
  hoare P m Q R1 -> (forall e, hoare R1 (h e) Q R) -> hoare P (try_except m h) Q R.
Proof.
  intros Hm Hh c Hc. unfold try_except. specialize (Hm c Hc).
  destruct (m c) as [[a|e] c']; [exact Hm | apply (Hh e c' Hm)].
Qed.

Lemma hoare_conseq (P P' : Ctx -> Prop) (m : M A) (Q Q' : A -> Ctx -> Prop)
    (R R' : Ctx -> Prop) :
  hoare P' m Q' R' -> (forall c, P c -> P' c) -> (forall a c, Q' a c -> Q a c) ->
  (forall c, R' c -> R c) -> hoare P m Q R.
Proof.
  intros Hm HP HQ HR c Hc. specialize (Hm c (HP c Hc)).
  destruct (m c) as [[a|e] c']; auto.
Qed.

Lemma hoare_fold_loop (J : Ctx -> Prop) (R : Ctx -> Prop) (body : B -> A -> M B) :
  (forall acc x, hoare J (body acc x) (fun _ => J) R) ->
  forall l acc, hoare J (fold_loop l acc body) (fun _ => J) R.
Proof.
  intros Hbody l. induction l as [|x l IH]; intros acc; simpl.
  - intros c Hc. exact Hc.
  - intros c Hc. unfold bind. specialize (Hbody acc x c Hc).
    destruct (body acc x c) as [[acc'|e] c']; [apply (IH acc' c' Hbody) | exact Hbody].
Qed.

Lemma hoare_for_each (J : Ctx -> Prop) (R : Ctx -> Prop) (body : A -> M unit) :
  (forall x, hoare J (body x) (fun _ => J) R) ->
  forall l, hoare J (for_each l body) (fun _ => J) R.
Proof.
  intros Hbody l. induction l as [|x l IH]; simpl.
  - intros c Hc. exact Hc.
  - intros c Hc. unfold bind. specialize (Hbody x c Hc).
    destruct (body x c) as [[[]|e] c']; [apply (IH c' Hbody) | exact Hbody].
Qed.

End Hoare.

(** ** List facts used below *)

Section ListFacts.

Context {A B : Type}.

Lemma NoDup_map_filter (f : A -> B) (p : A -> bool) (l : list A) :
  NoDup (map f l) -> NoDup (map f (List.filter p l)).
Proof.
  induction l as [|x l IH]; simpl; intros H; [constructor|].
  apply NoDup_cons in H as [Hx Hl].
  destruct (p x); simpl; auto.
  apply NoDup_cons. split; auto.
  intros Hin. apply Hx.
  apply list_elem_of_In in Hin. apply list_elem_of_In.
  apply in_map_iff in Hin as (y & Hy & Hin).
  apply in_map_iff. exists y. split; auto.
  apply filter_In in Hin. tauto.
Qed.

Lemma map_update_same (g : A -> B) (q : A -> bool) (f : A -> A) (l : list A) :
  (forall x, g (f x) = g x) ->
  map g (map (fun x => if q x then f x else x) l) = map g l.
Proof.
  intros H. rewrite map_map. apply map_ext. intros x. destruct (q x); auto.
Qed.

Lemma Forall_update (P : A -> Prop) (q : A -> bool) (f : A -> A) (l : list A) :
  (forall x, P x -> P (f x)) -> Forall P l ->
  Forall P (map (fun x => if q x then f x else x) l).
Proof.
  intros H Hl. apply Forall_map. eapply Forall_impl; [exact Hl|].
  intros x Hx. simpl. destruct (q x); auto.
Qed.

Lemma Forall_filter_bool (P : A -> Prop) (p : A -> bool) (l : list A) :
  Forall P l -> Forall P (List.filter p l).
Proof.
  intros H. apply Forall_forall. intros x Hx.
  apply list_elem_of_In, filter_In in Hx as [Hx _].
  rewrite Forall_forall in H. apply H. apply list_elem_of_In. exact Hx.
Qed.

End ListFacts.

(** ** The handlers keep the tables well formed *)

Lemma datetime_ymd_year (y m d : Z) (t : datetime) :
  datetime_ymd y m d = Some t -> dt_year t = y /\ dt_month t = m /\ dt_day t = d
  /\ dt_hour t = 0 /\ dt_minute t = 0 /\ dt_second t = 0 /\ dt_microsecond t = 0.
Proof.
  unfold datetime_ymd. destruct (_ && _); [|discriminate].
  intros [= <-]. simpl. tauto.
Qed.

Lemma parse_filename_date_year (now : datetime) (filename : string) (i : DateInfo) :
  parse_filename_date now filename = Some i ->
  di_day_of_week i = strftime_A (di_event_date i)
  /\ di_week_number i = isocalendar_week (di_event_date i)
  /\ di_year i = dt_year (di_event_date i).
Proof.
  unfold parse_filename_date.
  destruct (match_filename filename) as [[[g1 g2] g3]|]; [|discriminate].
  destruct (datetime_ymd (dt_year now) _ _) as [ev|] eqn:Hev; [|discriminate].
  destruct (180 <? _).
  - destruct (datetime_ymd (dt_year now + 1) _ _) as [ev'|] eqn:Hev'; [|discriminate].
    intros [= <-]. simpl. apply datetime_ymd_year in Hev'. intuition congruence.
  - intros [= <-]. simpl. apply datetime_ymd_year in Hev. intuition congruence.
Qed.

Lemma db_inv_empty : db_inv empty_db.
Proof. split; simpl; constructor. Qed.

Lemma new_BEO_consistent sid fn num tp st ft ev dow wk yr pos :
  dow = strftime_A <$> ev -> wk = isocalendar_week <$> ev -> yr = dt_year <$> ev ->
  derived_consistent (new_BEO sid fn num tp st ft ev dow wk yr pos).
Proof. intros -> -> ->. repeat split. Qed.

Lemma beo_update_ok_status s : beo_update_ok (BEO.set_status s).
Proof. intros b. repeat split; apply H. Qed.

Lemma beo_update_ok_updated_at t : beo_update_ok (BEO.set_updated_at t).
Proof. intros b. repeat split; apply H. Qed.

Lemma beo_update_ok_beo_number n : beo_update_ok (BEO.set_beo_number n).
Proof. intros b. repeat split; apply H. Qed.

Lemma beo_update_ok_order_position p : beo_update_ok (BEO.set_order_position p).
Proof. intros b. repeat split; apply H. Qed.

Lemma beo_update_ok_reposition u v : beo_update_ok (reposition u v).
Proof.
  intros b. unfold reposition. destruct (bool_decide _); [tauto|].
  repeat split; apply H.
Qed.

Lemma beo_update_ok_set_event t : beo_update_ok (set_event t).
Proof. intros b. repeat split. Qed.

Lemma update_beo_fuse {A} (k : Z) (f g : BEO.t -> BEO.t) (rest : M A) (c : Ctx) :
  (forall b, BEO.id (f b) = BEO.id b) ->
  (update_beo k f ;;; update_beo k g ;;; rest) c
  = (update_beo k (fun b => g (f b)) ;;; rest) c.
Proof.
  intros Hid. unfold update_beo, bind, get_session, put_session, ret. simpl.
  rewrite map_map. f_equal. f_equal. f_equal.
  apply map_ext. intros b. destruct (bool_decide (BEO.id b = k)) eqn:Hb.
  - rewrite Hid, Hb. reflexivity.
  - rewrite Hb. reflexivity.
Qed.

Lemma update_beo_set_event {A} (k : Z) (t : datetime) (rest : M A) (c : Ctx) :
  (update_beo k (BEO.set_event_date (Some t)) ;;;
   update_beo k (BEO.set_day_of_week (Some (strftime_A t))) ;;;
   update_beo k (BEO.set_week_number (Some (isocalendar_week t))) ;;;
   update_beo k (BEO.set_year (Some (dt_year t))) ;;; rest) c
  = (update_beo k (set_event t) ;;; rest) c.
Proof.
  rewrite update_beo_fuse by reflexivity.
  rewrite update_beo_fuse by reflexivity.
  rewrite update_beo_fuse by reflexivity.
  reflexivity.
Qed.

Lemma inv_query_beo (p : BEO.t -> bool) :
  hoare ctx_inv (query_beo_first p)
    (fun o c => ctx_inv c /\ forall b, o = Some b -> derived_consistent b) ctx_inv.
Proof.
  intros c Hc. simpl. split; [exact Hc|].
  intros b Hb. apply find_some in Hb as [Hb _].
  destruct Hc as [_ Hs]. pose proof (inv_derived _ Hs) as Hd.
  rewrite Forall_forall in Hd. apply Hd. apply list_elem_of_In. exact Hb.
Qed.

Lemma inv_add_flush_beo (t : datetime) (b : BEO.t) :
  derived_consistent b -> BEO.is_active b = true ->
  hoare ctx_inv (add_flush_beo t b) (fun _ => ctx_inv) ctx_inv.
Proof.
  intros Hb Hactive c [Hc Hs]. unfold add_flush_beo, bind, get_session. simpl.
  destruct (existsb _ _) eqn:Hex; simpl; [split; assumption|].
  split; [exact Hc|]. destruct Hs as [Hlt Hid Hsid Hann Hd Hact].
  split; simpl.
  - apply Forall_app. split.
    + eapply Forall_impl; [exact Hlt|]. simpl. intros; lia.
    + constructor; [simpl; lia|constructor].
  - rewrite map_app. simpl. apply NoDup_app. split; [exact Hid|]. split.
    + intros x Hx Hx'. apply list_elem_of_In in Hx'. destruct Hx' as [<-|[]].
      apply list_elem_of_In, in_map_iff in Hx as (y & Hy & Hin).
      rewrite Forall_forall in Hlt. apply list_elem_of_In, Hlt in Hin. lia.
    + apply NoDup_singleton.
  - rewrite map_app. simpl. apply NoDup_app. split; [exact Hsid|]. split.
    + intros x Hx Hx'. apply list_elem_of_In in Hx'. destruct Hx' as [<-|[]].
      apply list_elem_of_In, in_map_iff in Hx as (y & Hy & Hin).
      assert (existsb (fun o => bool_decide (BEO.session_id o = BEO.session_id b))
                (beos (session c)) = true) as Habs; [|congruence].
      apply existsb_exists. exists y. split; [exact Hin|].
      apply bool_decide_eq_true. exact Hy.
    + apply NoDup_singleton.
  - exact Hann.
  - apply Forall_app. split; [exact Hd|]. constructor; [|constructor]. exact Hb.
  - apply Forall_app. split; [exact Hact|]. constructor; [|constructor]. exact Hactive.
Qed.

Lemma inv_put_pages (c : Ctx) (l : list BEOPage.t) (n : Z) :
  ctx_inv c ->
  ctx_inv (mk_ctx (committed c)
             (mk_db (beos (session c)) l (annotations (session c))
                (beos_seq (session c)) n (annotations_seq (session c)))
             (disk c)).
Proof. intros [Hc [? ? ? ? ? ?]]. split; [exact Hc|]. split; assumption. Qed.

Lemma inv_add_page (t : datetime) (p : BEOPage.t) :
  hoare ctx_inv (add_page t p) (fun _ => ctx_inv) ctx_inv.
Proof. intros c Hc. apply inv_put_pages. exact Hc. Qed.

Lemma inv_update_page (k : Z) (f : BEOPage.t -> BEOPage.t) :
  hoare ctx_inv (update_page k f) (fun _ => ctx_inv) ctx_inv.
Proof. intros c Hc. apply inv_put_pages. exact Hc. Qed.

Lemma inv_delete_pages (p : BEOPage.t -> bool) :
  hoare ctx_inv (delete_pages p) (fun _ => ctx_inv) ctx_inv.
Proof. intros c Hc. apply inv_put_pages. exact Hc. Qed.

Lemma inv_update_beo (k : Z) (f : BEO.t -> BEO.t) :
  beo_update_ok f ->
  hoare ctx_inv (update_beo k f) (fun _ => ctx_inv) ctx_inv.
Proof.
  intros Hf c [Hc [Hlt Hid Hsid Hann Hd Hact]]. split; [exact Hc|]. split; simpl.
  - apply Forall_map. eapply Forall_impl; [exact Hlt|]. simpl.
    intros b Hb. destruct (bool_decide _); [|exact Hb].
    destruct (Hf b) as [-> _]. exact Hb.
  - rewrite (map_update_same BEO.id); [exact Hid|]. intros b. apply Hf.
  - rewrite (map_update_same BEO.session_id); [exact Hsid|]. intros b. apply Hf.
  - exact Hann.
  - apply Forall_update; [|exact Hd]. intros b. apply Hf.
  - apply Forall_update; [|exact Hact]. intros b Hb.
    destruct (Hf b) as (_ & _ & -> & _). exact Hb.
Qed.

Lemma inv_update_annotation (k : Z) (f : Annotation.t -> Annotation.t) :
  (forall x, annotation_key (f x) = annotation_key x) ->
  hoare ctx_inv (update_annotation k f) (fun _ => ctx_inv) ctx_inv.
Proof.
  intros Hf c [Hc [Hlt Hid Hsid Hann Hd Hact]]. split; [exact Hc|]. split; simpl; try assumption.
  rewrite (map_update_same annotation_key); [exact Hann|]. exact Hf.
Qed.

Lemma inv_delete_annotations (p : Annotation.t -> bool) :
  hoare ctx_inv (delete_annotations p) (fun _ => ctx_inv) ctx_inv.
Proof.
  intros c [Hc [Hlt Hid Hsid Hann Hd Hact]]. split; [exact Hc|]. split; simpl; try assumption.
  apply NoDup_map_filter. exact Hann.
Qed.

Lemma inv_delete_beo_row (k : Z) :
  hoare ctx_inv (delete_beo_row k) (fun _ => ctx_inv) ctx_inv.
Proof.
  intros c [Hc [Hlt Hid Hsid Hann Hd Hact]]. split; [exact Hc|]. split; simpl.
  - apply Forall_filter_bool. exact Hlt.
  - apply NoDup_map_filter. exact Hid.
  - apply NoDup_map_filter. exact Hsid.
  - apply NoDup_map_filter. exact Hann.
  - apply Forall_filter_bool. exact Hd.
  - apply Forall_filter_bool. exact Hact.
Qed.

Lemma inv_add_annotation (t : datetime) (a : Annotation.t) :
  hoare (fun c => ctx_inv c
                  /\ ~ In (annotation_key a) (map annotation_key (annotations (session c))))
    (add_annotation t a) (fun _ => ctx_inv) ctx_inv.
Proof.
  intros c [[Hc [Hlt Hid Hsid Hann Hd Hact]] Hnew]. split; [exact Hc|].
  split; simpl; try assumption.
  rewrite map_app. simpl. apply NoDup_app. split; [exact Hann|]. split.
  - intros x Hx Hx'. apply list_elem_of_In in Hx'. destruct Hx' as [<-|[]].
    apply Hnew. apply list_elem_of_In. exact Hx.
  - apply NoDup_singleton.
Qed.

Lemma inv_commit : hoare ctx_inv db_commit (fun _ => ctx_inv) ctx_inv.
Proof. intros c [_ Hs]. split; exact Hs. Qed.

Lemma inv_rollback : hoare ctx_inv db_rollback (fun _ => ctx_inv) ctx_inv.
Proof. intros c [Hc _]. split; exact Hc. Qed.

Lemma inv_save_file (data : bytes) (d : Dir) (name : string) :
  hoare ctx_inv (save_file data d name) (fun _ => ctx_inv) ctx_inv.
Proof. intros c Hc. exact Hc. Qed.

Lemma inv_read_file (d : Dir) (name : string) :
  hoare ctx_inv (read_file d name) (fun _ => ctx_inv) ctx_inv.
Proof. intros c Hc. unfold read_file. destruct (_ !! _); exact Hc. Qed.

Lemma inv_path_exists (d : Dir) (name : string) :
  hoare ctx_inv (path_exists d name) (fun _ => ctx_inv) ctx_inv.
Proof. intros c Hc. exact Hc. Qed.

Lemma inv_query_page (p : BEOPage.t -> bool) :
  hoare ctx_inv (query_page_first p) (fun _ => ctx_inv) ctx_inv.
Proof. intros c Hc. exact Hc. Qed.

Lemma inv_query_annotation (p : Annotation.t -> bool) :
  hoare ctx_inv (query_annotation_first p) (fun _ => ctx_inv) ctx_inv.
Proof. intros c Hc. exact Hc. Qed.

Lemma hoare_ext {A} (P : Ctx -> Prop) (m m' : M A) (Q : A -> Ctx -> Prop) (R : Ctx -> Prop) :
  (forall c, m c = m' c) -> hoare P m' Q R -> hoare P m Q R.
Proof. intros Heq H c Hc. rewrite Heq. apply H. exact Hc. Qed.

Lemma update_beo_fuse_last (k : Z) (f g : BEO.t -> BEO.t) (c : Ctx) :
  (forall b, BEO.id (f b) = BEO.id b) ->
  (update_beo k f ;;; update_beo k g) c = update_beo k (fun b => g (f b)) c.
Proof.
  intros Hid. unfold update_beo, bind, get_session, put_session, ret. simpl.
  rewrite map_map. f_equal. f_equal. f_equal.
  apply map_ext. intros b. destruct (bool_decide (BEO.id b = k)) eqn:Hb.
  - rewrite Hid, Hb. reflexivity.
  - rewrite Hb. reflexivity.
Qed.

Lemma inv_set_event_block (k : Z) (t : datetime) :
  hoare ctx_inv
    (update_beo k (BEO.set_event_date (Some t)) ;;;
     update_beo k (BEO.set_day_of_week (Some (strftime_A t))) ;;;
     update_beo k (BEO.set_week_number (Some (isocalendar_week t))) ;;;
     update_beo k (BEO.set_year (Some (dt_year t))))
    (fun _ => ctx_inv) ctx_inv.
Proof.
  eapply hoare_ext; [|apply (inv_update_beo k (set_event t)), beo_update_ok_set_event].
  intros c. rewrite update_beo_fuse by reflexivity.
  rewrite update_beo_fuse by reflexivity.
  rewrite update_beo_fuse_last by reflexivity. reflexivity.
Qed.

Lemma inv_set_event_then {A} (k : Z) (t : datetime) (rest : M A) :
  hoare ctx_inv rest (fun _ => ctx_inv) ctx_inv ->
  hoare ctx_inv
    (update_beo k (BEO.set_event_date (Some t)) ;;;
     update_beo k (BEO.set_day_of_week (Some (strftime_A t))) ;;;
     update_beo k (BEO.set_week_number (Some (isocalendar_week t))) ;;;
     update_beo k (BEO.set_year (Some (dt_year t))) ;;; rest)
    (fun _ => ctx_inv) ctx_inv.
Proof.
  intros Hrest. eapply hoare_ext; [intros c; apply update_beo_set_event|].
  eapply hoare_bind; [apply (inv_update_beo k (set_event t)), beo_update_ok_set_event|].
  intros ?. exact Hrest.
Qed.

Lemma inv_lift {A} (r : Result A) : hoare ctx_inv (lift r) (fun _ => ctx_inv) ctx_inv.
Proof. apply hoare_lift; auto. Qed.

Lemma inv_ret {A} (a : A) : hoare ctx_inv (ret a) (fun _ => ctx_inv) ctx_inv.
Proof. apply hoare_ret; auto. Qed.

Lemma inv_raise {A} (e : exn) : hoare ctx_inv (@raise A e) (fun _ => ctx_inv) ctx_inv.
Proof. apply hoare_raise; auto. Qed.

(** Sequencing under the invariant, with a fact about the value. *)
Lemma inv_bind_fact {A B} (m : M A) (k : A -> M B) (phi : A -> Prop) :
  hoare ctx_inv m (fun a c => ctx_inv c /\ phi a) ctx_inv ->
  (forall a, phi a -> hoare ctx_inv (k a) (fun _ => ctx_inv) ctx_inv) ->
  hoare ctx_inv (bind m k) (fun _ => ctx_inv) ctx_inv.
Proof.
  intros Hm Hk. eapply hoare_bind; [exact Hm|].
  intros a c [Hc Ha]. apply (Hk a Ha c Hc).
Qed.

Lemma inv_bind {A B} (m : M A) (k : A -> M B) :
  hoare ctx_inv m (fun _ => ctx_inv) ctx_inv ->
  (forall a, hoare ctx_inv (k a) (fun _ => ctx_inv) ctx_inv) ->
  hoare ctx_inv (bind m k) (fun _ => ctx_inv) ctx_inv.
Proof. intros Hm Hk. eapply hoare_bind; [exact Hm|]. exact Hk. Qed.

Lemma inv_try {A} (m : M A) (h : exn -> M A) :
  hoare ctx_inv m (fun _ => ctx_inv) ctx_inv ->
  (forall e, hoare ctx_inv (h e) (fun _ => ctx_inv) ctx_inv) ->
  hoare ctx_inv (try_except m h) (fun _ => ctx_inv) ctx_inv.
Proof. intros Hm Hh. eapply hoare_try; [exact Hm|]. exact Hh. Qed.

Create HintDb inv.

#[local] Hint Resolve inv_add_page inv_update_page inv_delete_pages
  inv_delete_annotations inv_delete_beo_row inv_commit inv_rollback
  inv_save_file inv_read_file inv_path_exists inv_query_page
  inv_query_annotation inv_set_event_block inv_lift inv_ret inv_raise
  beo_update_ok_status beo_update_ok_updated_at beo_update_ok_beo_number
  beo_update_ok_order_position beo_update_ok_reposition beo_update_ok_set_event : inv.

(** Walks through a handler body one statement at a time. *)
Ltac inv_step :=
  lazymatch goal with
  | |- hoare ctx_inv (bind (query_beo_first _) _) _ _ =>
      eapply inv_bind_fact; [apply inv_query_beo | intros ? ?]
  | |- hoare ctx_inv (bind _ _) _ _ => apply inv_bind; [| intros ?]
  | |- hoare ctx_inv (try_except _ _) _ _ => apply inv_try; [| intros ?]
  | |- hoare ctx_inv (fold_loop _ _ _) _ _ => apply hoare_fold_loop; intros ? ?
  | |- hoare ctx_inv (for_each _ _) _ _ => apply hoare_for_each; intros ?
  | |- hoare ctx_inv (update_beo _ _) _ _ => apply inv_update_beo; auto with inv
  | |- hoare ctx_inv (if ?b then _ else _) _ _ => destruct b
  | |- hoare ctx_inv (match ?x with Some _ => _ | None => _ end) _ _ => destruct x
  | |- hoare ctx_inv (let '(_, _) := ?x in _) _ _ => destruct x
  | |- hoare ctx_inv _ _ _ => solve [auto with inv]
  end.

Section HandlersKeepInvariant.

Context (E : Env) (a : Ambient).

Lemma inv_thumbnail_step sid beo acc item :
  hoare ctx_inv (thumbnail_step E a sid beo acc item) (fun _ => ctx_inv) ctx_inv.
Proof. unfold thumbnail_step. destruct item as [idx img]. repeat inv_step. Qed.

Lemma inv_upload_pdf file file_type :
  hoare ctx_inv (upload_pdf E a file file_type) (fun _ => ctx_inv) ctx_inv.
Proof.
  unfold upload_pdf. repeat inv_step.
  - apply inv_add_flush_beo; [apply new_BEO_consistent|reflexivity].
    all: destruct (parse_filename_date _ _) as [i|] eqn:Hi; simpl; try reflexivity.
    all: apply parse_filename_date_year in Hi; f_equal; apply Hi.
  - apply inv_thumbnail_step.
Qed.

Lemma multi_event_fields_consistent s ev dow wk yr :
  multi_event_fields E s = (ev, dow, wk, yr) ->
  dow = strftime_A <$> ev /\ wk = isocalendar_week <$> ev /\ yr = dt_year <$> ev.
Proof.
  unfold multi_event_fields. destruct s as [s|]; [|intros [= <- <- <- <-]; auto].
  destruct (bool_decide _); [intros [= <- <- <- <-]; auto|].
  destruct (fromisoformat E _); intros [= <- <- <- <-]; auto.
Qed.

Lemma inv_upload_multiple_pdfs fs infos :
  hoare ctx_inv (upload_multiple_pdfs E a fs infos) (fun _ => ctx_inv) ctx_inv.
Proof.
  unfold upload_multiple_pdfs. repeat inv_step.
  unfold upload_multiple_step.
  destruct x as [k file]. destruct (negb _); [auto with inv|].
  destruct (multi_event_fields E _) as [[[ev dow] wk] yr] eqn:Hf.
  apply multi_event_fields_consistent in Hf as (? & ? & ?).
  repeat inv_step.
  - apply inv_add_flush_beo; [apply new_BEO_consistent; assumption|reflexivity].
  - apply inv_thumbnail_step.
Qed.

Lemma inv_process_all_pages ids :
  hoare ctx_inv (process_all_pages E a ids) (fun _ => ctx_inv) ctx_inv.
Proof.
  unfold process_all_pages. repeat inv_step.
  unfold process_all_step. destruct x as [k sid].
  inv_step. destruct a0 as [parent|]; [|auto with inv].
  specialize (H parent eq_refl). destruct H as (? & ? & ?).
  repeat inv_step.
  - apply inv_add_flush_beo; [apply new_BEO_consistent; assumption|reflexivity].
  - unfold all_pages_step. destruct x as [idx img]. repeat inv_step.
Qed.

Lemma inv_select_pages sel :
  hoare ctx_inv (select_pages a sel) (fun _ => ctx_inv) ctx_inv.
Proof. unfold select_pages. repeat inv_step. Qed.

Lemma inv_process_selected_pages sel :
  hoare ctx_inv (process_selected_pages E a sel) (fun _ => ctx_inv) ctx_inv.
Proof.
  unfold process_selected_pages. repeat inv_step.
  unfold selected_page_step. repeat inv_step.
Qed.

Lemma inv_save_annotation ann :
  hoare ctx_inv (save_annotation a ann) (fun _ => ctx_inv) ctx_inv.
Proof.
  unfold save_annotation. inv_step. destruct a0 as [beo|]; [|auto with inv].
  eapply hoare_bind.
  - intros c Hc. unfold query_annotation_first, bind, get_session, ret. simpl.
    instantiate (1 := fun o c =>
      ctx_inv c /\ (o = None ->
        ~ In (BEO.id beo, ad_page_index ann) (map annotation_key (annotations (session c))))).
    simpl. split; [exact Hc|]. intros Hnone Hin.
    apply in_map_iff in Hin as (x & Hx & Hin).
    eapply find_none in Hnone; [|exact Hin]. simpl in Hnone.
    unfold annotation_key in Hx. injection Hx as H1 H2.
    rewrite !bool_decide_eq_true_2 in Hnone by assumption. discriminate.
  - intros [existing|].
    + eapply hoare_conseq with (P' := ctx_inv) (Q' := fun _ => ctx_inv) (R' := ctx_inv);
        [|tauto|auto|auto].
      repeat inv_step; apply inv_update_annotation; reflexivity.
    + eapply hoare_bind with (Q1 := fun _ => ctx_inv).
      * eapply hoare_conseq; [apply inv_add_annotation| | |]; simpl; auto.
        intros c [Hc Hn]. split; [exact Hc|]. apply Hn. reflexivity.
      * intros ?. repeat inv_step.
Qed.

Lemma inv_create_beo_from_pages data :
  hoare ctx_inv (create_beo_from_pages E a data) (fun _ => ctx_inv) ctx_inv.
Proof.
  unfold create_beo_from_pages. inv_step. destruct a0 as [parent|]; [|auto with inv].
  specialize (H parent eq_refl). destruct H as (? & ? & ?).
  repeat inv_step.
  - apply inv_add_flush_beo; [apply new_BEO_consistent; assumption|reflexivity].
  - unfold create_page_step. destruct x as [new_idx original_idx]. repeat inv_step.
Qed.

Lemma inv_update_beo_metadata md :
  hoare ctx_inv (update_beo_metadata E a md) (fun _ => ctx_inv) ctx_inv.
Proof.
  unfold update_beo_metadata. inv_step. destruct a0 as [beo|]; [|auto with inv].
  inv_step; [repeat inv_step|].
  destruct (md_event_date md) as [s|]; [|repeat inv_step].
  destruct (fromisoformat E s) as [t|].
  - apply inv_bind; [apply inv_set_event_block | intros ?; repeat inv_step].
  - repeat inv_step.
Qed.

Lemma inv_reorder_beo ro :
  hoare ctx_inv (reorder_beo E a ro) (fun _ => ctx_inv) ctx_inv.
Proof.
  unfold reorder_beo. inv_step. destruct a0 as [beo|]; [|auto with inv].
  destruct (fromisoformat E _) as [t|]; [|auto with inv].
  apply inv_set_event_then. repeat inv_step.
  - intros c Hc. exact Hc.
  - unfold reorder_other_step. destruct x as [idx other]. repeat inv_step.
Qed.

Lemma inv_delete_beo sid :
  hoare ctx_inv (delete_beo sid) (fun _ => ctx_inv) ctx_inv.
Proof. unfold delete_beo. repeat inv_step. Qed.

Lemma inv_run_request {A} (m : M A) (w : World) :
  hoare ctx_inv m (fun _ => ctx_inv) ctx_inv ->
  db_inv (db w) -> db_inv (db (snd (run_request m w))).
Proof.
  intros Hm Hw. unfold run_request.
  specialize (Hm (mk_ctx (db w) (db w) (files w)) (conj Hw Hw)).
  destruct (m _) as [[r|e] c]; simpl; apply Hm.
Qed.

Lemma step_inv (req : Request) (w : World) :
  db_inv (db w) -> db_inv (db (step E a req w)).
Proof.
  intros Hw. destruct req; simpl; apply inv_run_request; auto.
  - apply inv_upload_pdf.
  - apply inv_upload_multiple_pdfs.
  - apply inv_process_all_pages.
  - apply inv_select_pages.
  - apply inv_process_selected_pages.
  - apply inv_save_annotation.
  - apply inv_create_beo_from_pages.
  - apply inv_update_beo_metadata.
  - apply inv_reorder_beo.
  - apply inv_delete_beo.
Qed.

End HandlersKeepInvariant.

Lemma reachable_inv (E : Env) (w : World) : reachable E w -> db_inv (db w).
Proof.
  induction 1 as [|a req w Hw IH].
  - apply db_inv_empty.
  - apply step_inv. exact IH.
Qed.

(** Runs a handler body symbolically up to the next library call or
    table lookup. *)
Ltac mrun :=
  cbv beta iota delta [run_request try_except bind ret raise lift
    get_session put_session query_beo_first query_page_first query_annotation_first
    add_flush_beo add_page add_annotation update_beo update_page update_annotation
    delete_pages delete_annotations delete_beo_row db_commit db_rollback
    save_file path_exists read_file];
  cbn [session committed disk db files fst snd
       beos beo_pages annotations beos_seq beo_pages_seq annotations_seq].

(** ** Placing a document on the calendar *)

Section Reorder.

Context (E : Env) (a : Ambient).

Lemma for_each_reorder (ro : BEOReorder) (items : list (Z * BEO.t)) (c : Ctx) :
  for_each items (reorder_other_step a ro) c
  = (Ok tt, mk_ctx (committed c)
              (with_beos
                 (renumber (utcnow a) (ro_order_position ro) items (beos (session c)))
                 (session c))
              (disk c)).
Proof.
  revert c. induction items as [|[idx o] items IH]; intros c; simpl.
  - destruct c as [cm [] dk]; reflexivity.
  - unfold bind at 1. unfold reorder_other_step.
    destruct (ro_order_position ro <=? idx) eqn:Hle;
      unfold update_beo, bind, get_session, put_session; simpl;
      rewrite IH; simpl; unfold shifted; simpl; rewrite Hle; reflexivity.
Qed.

Lemma reorder_beo_run (ro : BEOReorder) (w : World) (d : BEO.t) (t : datetime) :
  List.find (by_session_id (ro_session_id ro)) (beos (db w)) = Some d ->
  fromisoformat E (ro_event_date ro) = Some t ->
  run_request (reorder_beo E a ro) w
  = (Ok "success",
     mk_world
       (with_beos
          (renumber (utcnow a) (ro_order_position ro)
             (enumerate (same_day_query ro t (db w)))
             (map (fun b => if bool_decide (BEO.id b = BEO.id d)
                            then moved t (ro_order_position ro) (utcnow a) b else b)
                  (beos (db w))))
          (db w))
       (files w)).
Proof.
  intros Hd Ht. unfold run_request, reorder_beo.
  unfold bind at 1. unfold query_beo_first, bind at 1, get_session, ret. simpl.
  rewrite Hd, Ht.
  rewrite update_beo_set_event.
  rewrite update_beo_fuse by reflexivity.
  rewrite update_beo_fuse by reflexivity.
  unfold bind at 1. unfold update_beo at 1, bind at 1, get_session, put_session. simpl.
  unfold bind at 1. simpl.
  unfold bind at 1. rewrite for_each_reorder. simpl.
  reflexivity.
Qed.

Lemma snd_enumerate_from {X} (k : Z) (l : list X) : map snd (enumerate_from k l) = l.
Proof. revert k. induction l as [|x l IH]; intros k; simpl; [|rewrite IH]; reflexivity. Qed.

Lemma find_enumerate_from (k : Z) (l : list BEO.t) (r : nat) (o : BEO.t) :
  NoDup (map BEO.id l) -> l !! r = Some o ->
  List.find (fun item => bool_decide (BEO.id (snd item) = BEO.id o)) (enumerate_from k l)
  = Some (k + Z.of_nat r, o).
Proof.
  revert k r. induction l as [|x l IH]; intros k r Hnd Hr; [discriminate|].
  simpl in Hnd. apply NoDup_cons in Hnd as [Hx Hnd]. simpl.
  destruct r as [|r]; simpl in Hr.
  - injection Hr as ->. rewrite bool_decide_eq_true_2 by reflexivity.
    f_equal. f_equal. lia.
  - rewrite bool_decide_eq_false_2.
    + rewrite (IH (k + 1) r Hnd Hr). f_equal. f_equal. lia.
    + intros Heq. apply Hx. rewrite Heq. apply list_elem_of_In, in_map.
      apply list_elem_of_In. eapply list_elem_of_lookup_2. exact Hr.
Qed.

Lemma find_id_None (items : list (Z * BEO.t)) (b : BEO.t) :
  ~ In (BEO.id b) (map BEO.id (map snd items)) ->
  List.find (fun item => bool_decide (BEO.id (snd item) = BEO.id b)) items = None.
Proof.
  intros Hb. destruct (List.find _ items) as [item|] eqn:Hf; [|reflexivity].
  apply find_some in Hf as [Hin Heq]. apply bool_decide_eq_true in Heq.
  exfalso. apply Hb. rewrite <- Heq. apply in_map, in_map. exact Hin.
Qed.

Lemma reposition_id (u : datetime) (v : Z) (b : BEO.t) :
  BEO.id (reposition u v b) = BEO.id b.
Proof. unfold reposition. destruct (bool_decide _); reflexivity. Qed.

Lemma reposition_position (u : datetime) (v : Z) (b : BEO.t) :
  BEO.order_position (reposition u v b) = v.
Proof.
  unfold reposition. destruct (bool_decide _) eqn:Hv; [|reflexivity].
  apply bool_decide_eq_true in Hv. exact Hv.
Qed.

Lemma reposition_on_day (u : datetime) (v : Z) (t : datetime) (b : BEO.t) :
  is_on_day t (reposition u v b) = is_on_day t b.
Proof. unfold reposition. destruct (bool_decide _); reflexivity. Qed.

Lemma renumber_cons (u : datetime) (p : Z) (item : Z * BEO.t) (items : list (Z * BEO.t))
    (l : list BEO.t) :
  renumber u p (item :: items) l
  = renumber u p items
      (map (fun b => if bool_decide (BEO.id b = BEO.id (snd item))
                     then reposition u (shifted p (fst item)) b else b) l).
Proof. reflexivity. Qed.

Lemma renumber_map (u : datetime) (p : Z) (items : list (Z * BEO.t)) (l : list BEO.t) :
  NoDup (map BEO.id (map snd items)) ->
  renumber u p items l = map (renumbered u p items) l.
Proof.
  revert l. induction items as [|[idx o] items IH]; intros l Hnd.
  - simpl. rewrite map_id. reflexivity.
  - simpl in Hnd. apply NoDup_cons in Hnd as [Ho Hnd].
    rewrite renumber_cons, (IH _ Hnd), map_map. apply map_ext. intros b.
    unfold renumbered at 2. simpl.
    destruct (bool_decide (BEO.id o = BEO.id b)) eqn:Hb.
    + apply bool_decide_eq_true in Hb.
      rewrite bool_decide_eq_true_2 by congruence.
      unfold renumbered. rewrite reposition_id.
      rewrite (find_id_None items b); [reflexivity|].
      simpl. rewrite <- Hb. intros Hin. apply Ho. apply list_elem_of_In. exact Hin.
    + apply bool_decide_eq_false in Hb.
      rewrite bool_decide_eq_false_2 by congruence. reflexivity.
Qed.

Lemma filter_map_swap {X Y} (q : Y -> bool) (g : X -> Y) (l : list X) :
  List.filter q (map g l) = map g (List.filter (fun x => q (g x)) l).
Proof.
  induction l as [|x l IH]; simpl; [reflexivity|].
  destruct (q (g x)); simpl; rewrite IH; reflexivity.
Qed.

Lemma same_id_eq (l : list BEO.t) (x y : BEO.t) :
  NoDup (map BEO.id l) -> In x l -> In y l -> BEO.id x = BEO.id y -> x = y.
Proof.
  induction l as [|z l IH]; simpl; intros Hnd Hx Hy Heq; [contradiction|].
  apply NoDup_cons in Hnd as [Hz Hnd].
  destruct Hx as [->|Hx], Hy as [->|Hy]; auto.
  - exfalso. apply Hz. rewrite Heq. apply list_elem_of_In, in_map. exact Hy.
  - exfalso. apply Hz. rewrite <- Heq. apply list_elem_of_In, in_map. exact Hx.
Qed.

Lemma same_session_id_eq (l : list BEO.t) (x y : BEO.t) :
  NoDup (map BEO.session_id l) -> In x l -> In y l ->
  BEO.session_id x = BEO.session_id y -> x = y.
Proof.
  induction l as [|z l IH]; simpl; intros Hnd Hx Hy Heq; [contradiction|].
  apply NoDup_cons in Hnd as [Hz Hnd].
  destruct Hx as [->|Hx], Hy as [->|Hy]; auto.
  - exfalso. apply Hz. rewrite Heq. apply list_elem_of_In, in_map. exact Hy.
  - exfalso. apply Hz. rewrite <- Heq. apply list_elem_of_In, in_map. exact Hx.
Qed.

Lemma shifted_seqZ_split (p k : Z) :
  0 <= p -> 0 <= k ->
  Permutation (p :: map (shifted p) (seqZ 0 (p + k))) (seqZ 0 (p + (1 + k))).
Proof.
  intros Hp Hk.
  rewrite (seqZ_app 0 p k), (seqZ_app 0 p (1 + k)) by lia.
  rewrite map_app, !Z.add_0_l.
  rewrite (seqZ_cons p (1 + k)) by lia.
  replace (Z.pred (1 + k)) with k by lia.
  assert (map (shifted p) (seqZ 0 p) = seqZ 0 p) as ->.
  { rewrite <- (map_id (seqZ 0 p)) at 2. apply map_ext_in. intros x Hx.
    apply list_elem_of_In, elem_of_seqZ in Hx. unfold shifted.
    destruct (p <=? x) eqn:Hle; [apply Z.leb_le in Hle; lia|reflexivity]. }
  assert (map (shifted p) (seqZ p k) = seqZ (Z.succ p) k) as ->.
  { replace (Z.succ p) with (1 + p) by lia. rewrite <- fmap_add_seqZ.
    apply map_ext_in. intros x Hx.
    apply list_elem_of_In, elem_of_seqZ in Hx. unfold shifted.
    destruct (p <=? x) eqn:Hle; [lia|apply Z.leb_gt in Hle; lia]. }
  apply Permutation_middle.
Qed.

Lemma shifted_seqZ (p m : Z) :
  0 <= p <= m -> Permutation (p :: map (shifted p) (seqZ 0 m)) (seqZ 0 (m + 1)).
Proof.
  intros Hp. pose proof (shifted_seqZ_split p (m - p)) as H.
  replace (p + (m - p)) with m in H by lia.
  replace (p + (1 + (m - p))) with (m + 1) in H by lia.
  apply H; lia.
Qed.

Section Placed.

Context (ro : BEOReorder) (w : World) (d : BEO.t) (t : datetime).
Context (Hinv : db_inv (db w)).
Context (Hd : List.find (by_session_id (ro_session_id ro)) (beos (db w)) = Some d).
Context (Ht : fromisoformat E (ro_event_date ro) = Some t).

Local Abbreviation others := (same_day_query ro t (db w)).
Local Abbreviation p := (ro_order_position ro).

Lemma others_perm :
  Permutation others (List.filter (is_other (ro_session_id ro) t) (beos (db w))).
Proof. apply merge_sort_Permutation. Qed.

Lemma others_in (o : BEO.t) :
  In o others <-> In o (beos (db w)) /\ is_other (ro_session_id ro) t o = true.
Proof.
  rewrite <- filter_In. split; intros H; apply list_elem_of_In; apply list_elem_of_In in H.
  - rewrite <- others_perm. exact H.
  - rewrite others_perm. exact H.
Qed.

Lemma others_nodup : NoDup (map BEO.id others).
Proof.
  rewrite (Permutation_map BEO.id others_perm).
  apply NoDup_map_filter. apply Hinv.
Qed.

Lemma d_in : In d (beos (db w)) /\ BEO.session_id d = ro_session_id ro.
Proof.
  apply find_some in Hd as [Hin Hs]. split; [exact Hin|].
  apply bool_decide_eq_true in Hs. exact Hs.
Qed.

Lemma d_not_other (o : BEO.t) : In o others -> BEO.id o <> BEO.id d.
Proof.
  intros Ho Heq. apply others_in in Ho as [Hin Hf].
  destruct d_in as [Hdin Hsid].
  assert (o = d) as -> by (eapply same_id_eq; eauto; apply Hinv).
  unfold is_other in Hf. rewrite (bool_decide_eq_true_2 _ Hsid) in Hf.
  rewrite andb_false_r in Hf. discriminate.
Qed.

Lemma placed_d : placed a ro t d w d = moved t p (utcnow a) d.
Proof.
  unfold placed. rewrite bool_decide_eq_true_2 by reflexivity.
  unfold renumbered. rewrite find_id_None; [reflexivity|].
  unfold enumerate. rewrite snd_enumerate_from. intros Hin.
  apply in_map_iff in Hin as (o & Ho & Hin).
  apply (d_not_other o Hin). rewrite Ho. reflexivity.
Qed.

Lemma placed_other (r : nat) (o : BEO.t) :
  others !! r = Some o ->
  placed a ro t d w o = reposition (utcnow a) (shifted p (Z.of_nat r)) o.
Proof.
  intros Hr. unfold placed.
  assert (In o others) as Hin
    by (apply list_elem_of_In; eapply list_elem_of_lookup_2; exact Hr).
  rewrite bool_decide_eq_false_2 by (apply d_not_other; exact Hin).
  unfold renumbered, enumerate.
  rewrite (find_enumerate_from 0 (same_day_query ro t (db w)) r o others_nodup Hr).
  reflexivity.
Qed.

Lemma placed_rest (b : BEO.t) :
  BEO.id b <> BEO.id d -> ~ In b others -> In b (beos (db w)) ->
  placed a ro t d w b = b.
Proof.
  intros Hbd Hb Hin. unfold placed. rewrite bool_decide_eq_false_2 by exact Hbd.
  unfold renumbered. rewrite find_id_None; [reflexivity|].
  unfold enumerate. rewrite snd_enumerate_from. intros Hin'.
  apply in_map_iff in Hin' as (o & Ho & Hino).
  apply Hb. replace b with o; [exact Hino|].
  apply others_in in Hino as [Hino _].
  eapply same_id_eq; eauto. apply Hinv.
Qed.

Lemma reorder_beo_table :
  run_request (reorder_beo E a ro) w
  = (Ok "success",
     mk_world (with_beos (map (placed a ro t d w) (beos (db w))) (db w)) (files w)).
Proof.
  rewrite (reorder_beo_run ro w d t Hd Ht). f_equal. f_equal. f_equal.
  rewrite renumber_map.
  - rewrite map_map. reflexivity.
  - unfold enumerate. rewrite snd_enumerate_from. apply others_nodup.
Qed.

Context (Hactive : BEO.is_active d = true).

Lemma placed_on_day (b : BEO.t) :
  In b (beos (db w)) ->
  (is_on_day t (placed a ro t d w b) = true <-> b = d \/ In b others).
Proof.
  intros Hin. destruct d_in as [Hdin Hsid]. split.
  - intros Hq.
    destruct (decide (BEO.id b = BEO.id d)) as [Hbd|Hbd].
    { left. eapply same_id_eq; eauto. apply Hinv. }
    destruct (is_other (ro_session_id ro) t b) eqn:Hoth.
    { right. apply others_in. auto. }
    exfalso. rewrite placed_rest in Hq; auto.
    + unfold is_on_day in Hq. unfold is_other in Hoth.
      apply andb_true_iff in Hq as [Hq1 Hq2]. rewrite Hq1, Hq2 in Hoth.
      simpl in Hoth. rewrite andb_true_r in Hoth.
      apply negb_false_iff, bool_decide_eq_true in Hoth.
      apply Hbd. f_equal. eapply same_session_id_eq; eauto; [apply Hinv|congruence].
    + intros Ho. apply others_in in Ho as [_ Ho]. congruence.
  - intros [->|Ho].
    + rewrite placed_d. unfold is_on_day, moved, set_event. simpl.
      rewrite bool_decide_eq_true_2 by reflexivity. exact Hactive.
    + pose proof Ho as Ho'. apply list_elem_of_In, list_elem_of_lookup in Ho' as [r Hr].
      rewrite (placed_other r b Hr), reposition_on_day. apply others_in in Ho as [_ Ho].
      unfold is_other in Ho. unfold is_on_day.
      apply andb_true_iff in Ho as [Ho Hact]. apply andb_true_iff in Ho as [Hev _].
      rewrite Hev, Hact. reflexivity.
Qed.

Lemma on_day_placed :
  Permutation
    (on_day t (with_beos (map (placed a ro t d w) (beos (db w))) (db w)))
    (map (placed a ro t d w) (d :: others)).
Proof.
  unfold on_day. simpl beos.
  change (fun b => bool_decide (BEO.event_date b = Some t) && BEO.is_active b)
    with (is_on_day t).
  rewrite filter_map_swap. apply Permutation_map.
  destruct d_in as [Hdin Hsid].
  apply NoDup_Permutation.
  - rewrite <- (map_id (List.filter _ _)). apply NoDup_map_filter. rewrite map_id.
    eapply NoDup_fmap_1. apply Hinv.
  - apply NoDup_cons. split.
    + intros Hin. apply list_elem_of_In in Hin. apply (d_not_other d Hin). reflexivity.
    + eapply NoDup_fmap_1. apply others_nodup.
  - intros x. rewrite !list_elem_of_In. rewrite filter_In. simpl. split.
    + intros [Hin Hq]. apply placed_on_day in Hq; auto. destruct Hq; auto.
    + intros [<-|Ho].
      * split; [exact Hdin|]. apply placed_on_day; auto.
      * assert (In x (beos (db w))) by (apply others_in in Ho; tauto).
        split; [assumption|]. apply placed_on_day; auto.
Qed.

Lemma map_by_rank {X} (f : X -> Z) (g : Z -> Z) (k : Z) (l : list X) :
  (forall r o, l !! r = Some o -> f o = g (k + Z.of_nat r)) ->
  map f l = map g (seqZ k (len l)).
Proof.
  revert k. induction l as [|x l IH]; intros k H; [reflexivity|].
  unfold len. simpl length. rewrite seqZ_cons by lia. simpl. f_equal.
  - rewrite (H 0%nat x eq_refl). f_equal. lia.
  - replace (Z.pred (Z.of_nat (S (length l)))) with (len l) by (unfold len; lia).
    apply IH. intros r o Hr. rewrite (H (S r) o Hr). f_equal. lia.
Qed.

Lemma placed_positions :
  map BEO.order_position (map (placed a ro t d w) (d :: others))
  = p :: map (shifted p) (seqZ 0 (len others)).
Proof.
  simpl. rewrite placed_d. f_equal. rewrite map_map.
  apply map_by_rank. intros r o Hr. rewrite (placed_other r o Hr).
  apply reposition_position.
Qed.

End Placed.

End Reorder.

Lemma sorted_same_day_query (ro : BEOReorder) (t : datetime) (d : DB) :
  Sorted position_le (same_day_query ro t d).
Proof.
  assert (Total position_le) as Htotal by (intros x y; unfold position_le; lia).
  unfold same_day_query, order_by_position.
  apply (Sorted_merge_sort position_le).
Qed.

(** C1 (amended).  When the service is in a reachable state, the request
    names an existing document [d], the date parses to [t] and the
    target position [p] lies between 0 and the number [m] of the other
    active documents dated [t], [reorder_beo] succeeds and afterwards the
    active documents dated [t] hold exactly the positions 0..m, each once,
    with [d] at [p].  The others are ranked by ascending current position;
    the one of rank [r] receives [r] when [r < p] and [r + 1] otherwise
    (and a fresh [updated_at] when that changes its position).  When
    their positions were already 0..m-1, this is: those at or above [p]
    move up by one and those below are left as they are. *)
Theorem reorder_beo_positions (E : Env) (a : Ambient) (w : World) (ro : BEOReorder)
    (t : datetime) (d : BEO.t) :
  reachable E w ->
  fromisoformat E (ro_event_date ro) = Some t ->
  List.find (by_session_id (ro_session_id ro)) (beos (db w)) = Some d ->
  0 <= ro_order_position ro <= len (same_day_query ro t (db w)) ->
  let others := same_day_query ro t (db w) in
  let p := ro_order_position ro in
  let w' := snd (run_request (reorder_beo E a ro) w) in
  fst (run_request (reorder_beo E a ro) w) = Ok "success"
  /\ Sorted position_le others
  /\ positions_dense t (db w')
  /\ len (on_day t (db w')) = len others + 1
  /\ In (moved t p (utcnow a) d) (on_day t (db w'))
  /\ (forall r o, others !! r = Some o ->
        In (reposition (utcnow a) (shifted p (Z.of_nat r)) o) (on_day t (db w')))
  /\ (map BEO.order_position others = seqZ 0 (len others) ->
      forall o, In o others ->
        In (if p <=? BEO.order_position o
            then BEO.set_updated_at (utcnow a)
                   (BEO.set_order_position (BEO.order_position o + 1) o)
            else o)
           (on_day t (db w'))).
Proof.
  intros Hreach Ht Hd Hp. cbv zeta.
  pose proof (reachable_inv E w Hreach) as Hinv.
  assert (BEO.is_active d = true) as Hact.
  { pose proof (inv_active _ Hinv) as Hall. rewrite Forall_forall in Hall.
    apply Hall, list_elem_of_In. apply find_some in Hd. tauto. }
  rewrite (reorder_beo_table E a ro w d t Hinv Hd Ht). simpl fst. simpl snd. simpl db.
  pose proof (on_day_placed a ro w d t Hinv Hd Hact) as Hperm.
  pose proof (placed_positions a ro w d t Hinv Hd) as Hpos.
  set (others := same_day_query ro t (db w)) in *.
  set (tbl := with_beos (map (placed a ro t d w) (beos (db w))) (db w)) in *.
  assert (forall x, In x (d :: others) -> In (placed a ro t d w x) (on_day t tbl)) as Hin.
  { intros x Hx. apply list_elem_of_In. rewrite Hperm.
    apply list_elem_of_In, in_map. exact Hx. }
  assert (forall r o, others !! r = Some o ->
            In (reposition (utcnow a) (shifted (ro_order_position ro) (Z.of_nat r)) o)
               (on_day t tbl)) as Hrank.
  { intros r o Hr. rewrite <- (placed_other a ro w d t Hinv Hd r o Hr).
    apply Hin. right. apply list_elem_of_In. eapply list_elem_of_lookup_2. exact Hr. }
  assert (len (on_day t tbl) = len others + 1) as Hlen.
  { unfold len. rewrite (Permutation_length Hperm), length_map. simpl length. lia. }
  split; [reflexivity|].
  split; [apply sorted_same_day_query|].
  split; [|split; [exact Hlen|split; [|split; [exact Hrank|]]]].
  - unfold positions_dense. rewrite Hlen.
    rewrite (Permutation_map BEO.order_position Hperm), Hpos.
    apply shifted_seqZ. exact Hp.
  - rewrite <- (placed_d a ro w d t Hinv Hd). apply Hin. left. reflexivity.
  - intros Hdense o Ho.
    apply list_elem_of_In, list_elem_of_lookup in Ho as [r Hr].
    assert (BEO.order_position o = Z.of_nat r) as Ho.
    { assert (map BEO.order_position others !! r = Some (BEO.order_position o)) as Hm
        by (rewrite list_lookup_fmap, Hr; reflexivity).
      rewrite Hdense in Hm. apply lookup_seqZ in Hm. lia. }
    specialize (Hrank r o Hr). unfold reposition, shifted in Hrank. rewrite <- Ho in Hrank.
    destruct (ro_order_position ro <=? BEO.order_position o).
    + rewrite bool_decide_eq_false_2 in Hrank by lia. exact Hrank.
    + rewrite bool_decide_eq_true_2 in Hrank by reflexivity. exact Hrank.
Qed.

Lemma reachable_day_world : reachable demo_env day_world.
Proof. repeat apply reachable_step. apply reachable_init. Defined.

Lemma reachable_tie_world : reachable demo_env tie_world.
Proof. repeat apply reachable_step. apply reachable_init. Defined.

(** The case spelled out in the specification: inserting at position 1
    among two documents at positions 0 and 1. *)
Example reorder_insert_at_1 :
  map (fun b => (BEO.session_id b, BEO.order_position b)) (on_day oct28 (db day_world))
  = [("doc1-0", 0); ("doc2-0", 1)]
  /\ map (fun b => (BEO.session_id b, BEO.order_position b))
       (on_day oct28
          (db (snd (run_request (reorder_beo demo_env (demo_ambient 5) (place_doc4 1))
                      day_world))))
     = [("doc1-0", 0); ("doc2-0", 2); ("doc4-0", 1)].
Proof. split; vm_compute; reflexivity. Qed.

Lemma reorder_beo_positions_witness :
  positions_dense oct28
    (db (snd (run_request (reorder_beo demo_env (demo_ambient 5) (place_doc4 1)) day_world))).
Proof.
  destruct (List.find (by_session_id "doc4-0") (beos (db day_world))) as [d|] eqn:Hd;
    [|vm_compute in Hd; discriminate].
  assert (0 <= ro_order_position (place_doc4 1)
          <= len (same_day_query (place_doc4 1) oct28 (db day_world))) as Hp
    by (vm_compute; split; discriminate).
  exact (proj1 (proj2 (proj2
    (reorder_beo_positions demo_env (demo_ambient 5) day_world (place_doc4 1) oct28 d
       reachable_day_world eq_refl Hd Hp)))).
Defined.

(** C1 as stated fails when the target position is beyond the end of the
    day's list (the positions become 0, 1, 5), and its shifting rule fails
    when the current positions are not distinct: of two documents at
    position 0 the second, although below the target 1, is moved to 2. *)
Lemma reorder_beo_counterexample :
  reachable demo_env day_world
  /\ map BEO.order_position
       (on_day oct28
          (db (snd (run_request (reorder_beo demo_env (demo_ambient 5) (place_doc4 5))
                      day_world))))
     = [0; 1; 5]
  /\ ~ positions_dense oct28
         (db (snd (run_request (reorder_beo demo_env (demo_ambient 5) (place_doc4 5))
                     day_world)))
  /\ reachable demo_env tie_world
  /\ map (fun b => (BEO.session_id b, BEO.order_position b)) (on_day oct28 (db tie_world))
     = [("doc1-0", 0); ("doc2-0", 0)]
  /\ map (fun b => (BEO.session_id b, BEO.order_position b))
       (on_day oct28
          (db (snd (run_request (reorder_beo demo_env (demo_ambient 5) (place_doc4 1))
                      tie_world))))
     = [("doc1-0", 0); ("doc2-0", 2); ("doc4-0", 1)].
Proof.
  assert (map BEO.order_position
            (on_day oct28
               (db (snd (run_request (reorder_beo demo_env (demo_ambient 5) (place_doc4 5))
                           day_world))))
          = [0; 1; 5]) as Hpos by (vm_compute; reflexivity).
  split; [exact reachable_day_world|].
  split; [exact Hpos|].
  split.
  - unfold positions_dense. rewrite Hpos. intros Hperm.
    assert (In 5 (seqZ 0 (len [0; 1; 5]))) as Hin.
    { apply list_elem_of_In. rewrite <- Hperm. apply list_elem_of_In. simpl. auto. }
    vm_compute in Hin. intuition discriminate.
  - split; [exact reachable_tie_world|]. split; vm_compute; reflexivity.
Qed.

(** ** Ingest *)

Section Upload.

Context (E : Env) (a : Ambient).

Lemma thumbnail_loop (sid : string) (beo : BEO.t) (images : list Image) :
  forall (k : Z) (acc : list string) (c : Ctx),
    match fold_loop (enumerate_from k images) acc (thumbnail_step E a sid beo) c with
    | (Ok thumbs, c') =>
        committed c' = committed c
        /\ session c'
           = add_pages (thumb_rows a sid (BEO.id beo) (beo_pages_seq (session c)) k images)
               (session c)
        /\ length thumbs = (length acc + length images)%nat
    | (Raise _, c') => committed c' = committed c
    end.
Proof.
  induction images as [|img images IH]; intros k acc c.
  - simpl. split; [reflexivity|]. split; [|lia].
    unfold add_pages, len. simpl. rewrite app_nil_r, Z.add_0_r.
    destruct (session c); reflexivity.
  - simpl. unfold bind at 1. unfold thumbnail_step at 1.
    unfold bind at 1. unfold lift at 1.
    destruct (img_save E img 60) as [buffered|e]; [|reflexivity].
    unfold bind at 1. unfold save_file at 1. simpl.
    unfold bind at 1. unfold add_page at 1.
    unfold bind at 1. unfold get_session at 1, put_session at 1. simpl.
    match goal with |- context [fold_loop _ ?acc' _ ?c'] => specialize (IH (k + 1) acc' c') end.
    destruct (fold_loop _ _ _ _) as [[thumbs|e] c'].
    + destruct IH as (Hc & Hs & Hl). simpl in Hc, Hs. split; [exact Hc|]. split.
      * rewrite Hs. unfold add_pages, len. simpl. rewrite <- app_assoc. simpl.
        f_equal. lia.
      * rewrite Hl, length_app. simpl. lia.
    + exact IH.
Qed.

Lemma thumb_rows_length sid beo_id seq0 k (images : list Image) :
  length (thumb_rows a sid beo_id seq0 k images) = length images.
Proof.
  revert seq0 k. induction images as [|img images IH]; intros seq0 k; simpl;
    [|rewrite IH]; reflexivity.
Qed.

Lemma thumb_rows_page_index sid beo_id seq0 k (images : list Image) :
  map BEOPage.page_index (thumb_rows a sid beo_id seq0 k images) = seqZ k (len images).
Proof.
  revert seq0 k. induction images as [|img images IH]; intros seq0 k; [reflexivity|].
  unfold len. simpl length. rewrite seqZ_cons by lia. simpl. f_equal.
  rewrite IH. unfold len. f_equal; lia.
Qed.

Lemma thumb_rows_beo_id sid beo_id seq0 k (images : list Image) :
  Forall (fun p => BEOPage.beo_id p = beo_id /\ BEOPage.original_order p = BEOPage.page_index p)
    (thumb_rows a sid beo_id seq0 k images).
Proof.
  revert seq0 k. induction images as [|img images IH]; intros seq0 k; simpl;
    constructor; auto.
Qed.

(** The whole of [upload_pdf], as a function of the committed tables. *)
Lemma upload_pdf_run (file : UploadFile) (file_type : string) (w : World) :
  match run_request (upload_pdf E a file file_type) w with
  | (Ok resp, w') =>
      PyStr.endswith (uf_filename file) ".pdf" = true
      /\ exists images,
           convert_from_bytes E (uf_content file) 75 None = Ok images
           /\ resp = mk_session_response (uuid4 a 0%nat) (uf_filename file) (len images)
                       (sr_pages resp)
           /\ length (sr_pages resp) = length images
           /\ db w'
              = add_pages
                  (thumb_rows a (uuid4 a 0%nat) (beos_seq (db w)) (beo_pages_seq (db w)) 0
                     images)
                  (add_beo (uploaded_beo a file file_type (len images) (db w)) (db w))
  | (Raise e, w') =>
      db w' = db w /\ exists msg, e = HTTPException 500 ("PDF processing failed: " +:+ msg)
  end.
Proof.
  unfold upload_pdf. mrun.
  destruct (PyStr.endswith (uf_filename file) ".pdf") eqn:Hext; cbn [negb]; mrun.
  2: { split; [reflexivity|]. eexists. reflexivity. }
  destruct (convert_from_bytes E (uf_content file) 75 None) as [images|e] eqn:Hconv; mrun.
  2: { split; [reflexivity|]. eexists. reflexivity. }
  destruct (existsb _ (beos (db w))) eqn:Hex; mrun.
  { split; [reflexivity|]. eexists. reflexivity. }
  unfold enumerate.
  match goal with |- context [fold_loop _ ?acc (thumbnail_step _ _ ?sid ?beo) ?c] =>
    pose proof (thumbnail_loop sid beo images 0 acc c) as Hloop
  end.
  destruct (fold_loop _ _ _ _) as [[thumbs|e] c']; mrun.
  - destruct Hloop as (Hc & Hs & Hl). cbn [session committed disk] in Hc, Hs.
    split; [reflexivity|]. exists images.
    split; [reflexivity|]. split; [reflexivity|]. split; [exact Hl|].
    rewrite Hs. reflexivity.
  - cbn [session committed disk] in Hloop. split; [exact Hloop|]. eexists. reflexivity.
Qed.

(** C3.  The registry writes of an ingest are all-or-nothing: when
    [upload_pdf] returns, the committed tables are the old ones plus the
    document row and one page row per rasterised page (page indices
    0..n-1, all belonging to the new document); when it fails at any step
    (bad extension, rasteriser error, identifier clash at the flush, JPEG
    encoding error on any page) the committed tables are unchanged. *)
Theorem upload_pdf_atomic (file : UploadFile) (file_type : string) (w : World) :
  match run_request (upload_pdf E a file file_type) w with
  | (Ok resp, w') =>
      exists images beo rows,
        convert_from_bytes E (uf_content file) 75 None = Ok images
        /\ sr_total_pages resp = len images
        /\ BEO.session_id beo = sr_session_id resp
        /\ BEO.total_pages beo = len images
        /\ BEO.id beo = beos_seq (db w)
        /\ beos (db w') = beos (db w) ++ [beo]
        /\ beo_pages (db w') = beo_pages (db w) ++ rows
        /\ length rows = length images
        /\ map BEOPage.page_index rows = seqZ 0 (len images)
        /\ Forall (fun p => BEOPage.beo_id p = BEO.id beo) rows
        /\ annotations (db w') = annotations (db w)
  | (Raise _, w') => db w' = db w
  end.
Proof.
  pose proof (upload_pdf_run file file_type w) as H.
  destruct (run_request _ w) as [[resp|e] w']; [|apply H].
  destruct H as (_ & images & Hconv & Hresp & Hlen & Hdb).
  exists images, (uploaded_beo a file file_type (len images) (db w)),
    (thumb_rows a (uuid4 a 0%nat) (beos_seq (db w)) (beo_pages_seq (db w)) 0 images).
  rewrite Hdb, Hresp. simpl.
  repeat split; auto.
  - apply thumb_rows_length.
  - apply thumb_rows_page_index.
  - eapply Forall_impl; [apply thumb_rows_beo_id|]. simpl. tauto.
Qed.

(** C7 (what the code does).  An upload whose filename does not end in
    [.pdf] raises [HTTPException(400)] inside the handler's [try] block;
    the blanket [except Exception] catches it and the client receives
    status 500, "PDF processing failed: ...".  Nothing is persisted: the
    tables and the storage directories are unchanged. *)
Theorem upload_pdf_non_pdf (file : UploadFile) (file_type : string) (w : World) :
  PyStr.endswith (uf_filename file) ".pdf" = false ->
  run_request (upload_pdf E a file file_type) w
  = (Raise (HTTPException 500
              ("PDF processing failed: " +:+ str_exn (HTTPException 400 "File must be a PDF"))),
     w)
  /\ http_status (fst (run_request (upload_pdf E a file file_type) w)) = 500.
Proof.
  intros Hext.
  assert (run_request (upload_pdf E a file file_type) w
          = (Raise (HTTPException 500
                      ("PDF processing failed: "
                       +:+ str_exn (HTTPException 400 "File must be a PDF"))), w))
    as Hrun.
  { unfold upload_pdf. mrun. rewrite Hext. cbn [negb]. mrun.
    destruct w as [d f]. reflexivity. }
  split; [exact Hrun|]. rewrite Hrun. reflexivity.
Qed.

End Upload.

Lemma upload_pdf_non_pdf_witness :
  PyStr.endswith "notes.txt" ".pdf" = false
  /\ http_status
       (fst (run_request
               (upload_pdf demo_env (demo_ambient 1) (mk_upload "notes.txt" "ab") "daily")
               empty_world)) = 500.
Proof.
  split; [reflexivity|].
  apply (upload_pdf_non_pdf demo_env (demo_ambient 1) (mk_upload "notes.txt" "ab") "daily"
           empty_world).
  reflexivity.
Defined.

(** ** Splitting a document *)

Section Split.

Context (E : Env) (a : Ambient).

(** What the page loop of [create_beo_from_pages] adds: one row per index
    below [len images], carrying the position of that index in the
    request as its [page_index]. *)
Lemma create_pages_loop (pdf : bytes) (sid : string) (beo : BEO.t) (images : list Image)
    (l : list Z) :
  forall (k : Z) (c : Ctx),
    match for_each (enumerate_from k l) (create_page_step E a pdf sid beo images) c with
    | (Ok _, c') =>
        committed c' = committed c
        /\ beos (session c') = beos (session c)
        /\ annotations (session c') = annotations (session c)
        /\ exists rows,
             beo_pages (session c') = beo_pages (session c) ++ rows
             /\ Forall (fun p => BEOPage.beo_id p = BEO.id beo) rows
             /\ map (fun p => (BEOPage.page_index p, BEOPage.original_order p)) rows
                = List.filter (fun item => snd item <? len images) (enumerate_from k l)
    | (Raise _, c') => committed c' = committed c
    end.
Proof.
  induction l as [|i l IH]; intros k c.
  - simpl. repeat split. exists []. rewrite app_nil_r. repeat split. constructor.
  - simpl. unfold bind at 1. unfold create_page_step at 1.
    destruct (i <? len images) eqn:Hi.
    + mrun.
      destruct (py_index images i) as [img|e]; [|reflexivity].
      destruct (img_save E img 95) as [buffered|e]; [|reflexivity]. mrun.
      destruct (convert_from_bytes E pdf 75 _) as [thumbs|e]; [|reflexivity].
      destruct (py_index thumbs 0) as [thumb|e]; [|reflexivity].
      destruct (img_save E thumb 60) as [tb|e]; [|reflexivity]. mrun.
      match goal with |- context [for_each _ _ ?c'] => specialize (IH (k + 1) c') end.
      destruct (for_each _ _ _) as [[[]|e] c']; [|exact IH].
      cbn [session committed disk beos beo_pages annotations] in IH.
      destruct IH as (Hc & Hb & Han & rows & Hrows & Hall & Hmap).
      split; [exact Hc|]. split; [exact Hb|]. split; [exact Han|].
      eexists (_ :: rows). rewrite Hrows, <- app_assoc. split; [reflexivity|].
      split; [constructor; [reflexivity|exact Hall]|].
      simpl. rewrite Hmap. reflexivity.
    + unfold ret at 1. apply IH.
Qed.

Lemma filter_length_lt {X} (q : X -> bool) (l : list X) :
  Exists (fun x => q x = false) l -> (length (List.filter q l) < length l)%nat.
Proof.
  induction 1 as [x l Hx|x l _ IH]; simpl.
  - rewrite Hx. pose proof (List.filter_length_le q l). lia.
  - destruct (q x); simpl; [lia|]. pose proof (List.filter_length_le q l). lia.
Qed.

(** The split as a whole: the new row records [len(page_indices)] pages,
    the page rows are those of the indices in range; with an index out of
    range there are fewer rows than [total_pages]. *)
Lemma create_beo_from_pages_rows (data : CreateBEOFromPages) (w : World) :
  match run_request (create_beo_from_pages E a data) w with
  | (Ok _, w') =>
      exists pdf images beo rows,
        originals (files w) !! (cp_parent_session_id data +:+ ".pdf") = Some pdf
        /\ convert_from_bytes E pdf 300 None = Ok images
        /\ beos (db w') = beos (db w) ++ [beo]
        /\ BEO.id beo = beos_seq (db w)
        /\ BEO.total_pages beo = len (cp_page_indices data)
        /\ beo_pages (db w') = beo_pages (db w) ++ rows
        /\ Forall (fun p => BEOPage.beo_id p = BEO.id beo) rows
        /\ map (fun p => (BEOPage.page_index p, BEOPage.original_order p)) rows
           = List.filter (fun item => snd item <? len images)
               (enumerate (cp_page_indices data))
        /\ (Exists (fun i => len images <= i) (cp_page_indices data) ->
            len rows < BEO.total_pages beo)
  | (Raise _, w') => db w' = db w
  end.
Proof.
  unfold create_beo_from_pages. mrun.
  destruct (List.find _ (beos (db w))) as [parent|]; mrun; [|reflexivity].
  cbn [dir_files].
  destruct (originals (files w) !! _) as [pdf|] eqn:Hpdf; mrun; [|reflexivity].
  destruct (convert_from_bytes E pdf 300 None) as [images|e] eqn:Hconv; mrun;
    [|reflexivity].
  destruct (existsb _ (beos (db w))); mrun; [reflexivity|].
  unfold enumerate.
  match goal with |- context [for_each _ (create_page_step _ _ ?pdf ?sid ?beo ?imgs) ?c] =>
    pose proof (create_pages_loop pdf sid beo imgs (cp_page_indices data) 0 c) as Hloop
  end.
  destruct (for_each _ _ _) as [[[]|e] c']; mrun; [|exact Hloop].
  cbn [session committed disk beos beo_pages annotations] in Hloop.
  destruct Hloop as (_ & Hb & _ & rows & Hrows & Hall & Hmap).
  exists pdf, images. eexists. exists rows.
  split; [reflexivity|]. split; [exact Hconv|]. split; [exact Hb|].
  split; [reflexivity|]. split; [reflexivity|]. split; [exact Hrows|].
  split; [exact Hall|]. split; [exact Hmap|].
  intros Hex. cbn [BEO.total_pages BEO.set_id BEO.set_created_at BEO.set_updated_at new_BEO].
  unfold len. apply inj_lt.
  rewrite <- (length_map (fun p => (BEOPage.page_index p, BEOPage.original_order p)) rows).
  rewrite Hmap.
  assert (length (cp_page_indices data)
          = length (enumerate_from 0 (cp_page_indices data))) as ->
    by (rewrite <- (snd_enumerate_from 0 (cp_page_indices data)) at 1; apply length_map).
  rewrite <- (snd_enumerate_from 0 (cp_page_indices data)) in Hex.
  apply filter_length_lt.
  apply Exists_exists. apply Exists_exists in Hex as (i & Hin & Hi).
  apply list_elem_of_In, in_map_iff in Hin as (item & <- & Hin).
  exists item. split; [apply list_elem_of_In; exact Hin|]. apply Z.ltb_ge. exact Hi.
Qed.

End Split.

Lemma reachable_day_world_1 : reachable demo_env day_world_1.
Proof. repeat apply reachable_step. apply reachable_init. Defined.

(** C2 (what the code does).  The two-page document [doc1-0] was ingested
    with dense page indices.  Splitting it with [page_indices = [0; 5; 1]]
    succeeds; the new document is stored with [total_pages = 3] but has
    only two page rows, with page indices 0 and 2: index 5 is skipped by
    the range guard while the enumeration counter moves on. *)
Theorem create_beo_from_pages_gap :
  reachable demo_env day_world_1
  /\ (exists parent,
        List.find (by_session_id "doc1-0") (beos (db day_world_1)) = Some parent
        /\ pages_dense (db day_world_1) parent)
  /\ fst (run_request (create_beo_from_pages demo_env (demo_ambient 2) split_request)
            day_world_1)
     = Ok ("doc2-0", "1234567")
  /\ exists b,
       List.find (by_session_id "doc2-0") (beos (db split_world)) = Some b
       /\ BEO.total_pages b = 3
       /\ map (fun p => (BEOPage.page_index p, BEOPage.original_order p))
            (pages_of (db split_world) (BEO.id b))
          = [(0, 0); (2, 1)]
       /\ ~ pages_dense (db split_world) b.
Proof.
  split; [exact reachable_day_world_1|]. split; [|split].
  - eexists. split; [vm_compute; reflexivity|].
    unfold pages_dense. vm_compute. apply Permutation_refl.
  - vm_compute. reflexivity.
  - eexists. split; [vm_compute; reflexivity|]. split; [reflexivity|].
    split; [vm_compute; reflexivity|].
    unfold pages_dense. intros Hperm. apply Permutation_length in Hperm.
    vm_compute in Hperm. discriminate.
Qed.

(** ** Selecting pages *)

Lemma update_rows_twice (key : Z) (f g : BEO.t -> BEO.t) (l : list BEO.t) :
  (forall b, BEO.id (f b) = BEO.id b) ->
  update_rows key g (update_rows key f l) = update_rows key (fun b => g (f b)) l.
Proof.
  intros Hid. unfold update_rows. rewrite map_map. apply map_ext. intros b.
  destruct (bool_decide (BEO.id b = key)) eqn:Hb.
  - rewrite Hid, Hb. reflexivity.
  - rewrite Hb. reflexivity.
Qed.

Lemma world_eta (w : World) : mk_world (db w) (files w) = w.
Proof. destruct w; reflexivity. Qed.

Lemma select_pages_run (a : Ambient) (selection : PageSelection) (w : World) :
  run_request (select_pages a selection) w
  = match List.find (by_session_id (ps_session_id selection)) (beos (db w)) with
    | None => (Raise (HTTPException 404 "Session not found"), w)
    | Some beo =>
        (Ok (mk_selected_pages "success" (len (ps_selected_pages selection))
               "Ready for high-res processing"),
         mk_world
           (with_beos (update_rows (BEO.id beo) (mark_selected (utcnow a)) (beos (db w)))
              (db w))
           (files w))
    end.
Proof.
  unfold select_pages. mrun.
  destruct (List.find _ _) as [beo|]; mrun.
  - rewrite <- (update_rows_twice (BEO.id beo) (BEO.set_status "selected")
                  (BEO.set_updated_at (utcnow a))) by reflexivity.
    reflexivity.
  - rewrite world_eta. reflexivity.
Qed.

(** C9.  The state after [select_pages] depends on the document
    identifier only: two calls that differ in the list of selected pages
    leave the same world.  For an existing document the call returns the
    length of the list as [selected_count] and changes nothing but
    [status] (to "selected") and [updated_at] of that document's row; the
    page rows, the annotations and the stored files are untouched and the
    list is stored nowhere.  For an unknown identifier it raises 404 and
    changes nothing. *)
Theorem select_pages_frame (a : Ambient) (sid : string) (l1 l2 : list Z) (w : World) :
  snd (run_request (select_pages a (mk_page_selection sid l1)) w)
  = snd (run_request (select_pages a (mk_page_selection sid l2)) w)
  /\ match List.find (by_session_id sid) (beos (db w)) with
     | Some beo =>
         run_request (select_pages a (mk_page_selection sid l1)) w
         = (Ok (mk_selected_pages "success" (len l1) "Ready for high-res processing"),
            mk_world
              (mk_db (update_rows (BEO.id beo) (mark_selected (utcnow a)) (beos (db w)))
                 (beo_pages (db w)) (annotations (db w))
                 (beos_seq (db w)) (beo_pages_seq (db w)) (annotations_seq (db w)))
              (files w))
         /\ BEO.status (mark_selected (utcnow a) beo) = "selected"
         /\ BEO.updated_at (mark_selected (utcnow a) beo) = utcnow a
         /\ BEO.set_status (BEO.status beo)
              (BEO.set_updated_at (BEO.updated_at beo) (mark_selected (utcnow a) beo))
            = beo
     | None =>
         run_request (select_pages a (mk_page_selection sid l1)) w
         = (Raise (HTTPException 404 "Session not found"), w)
     end.
Proof.
  rewrite !select_pages_run. simpl ps_session_id. simpl ps_selected_pages.
  destruct (List.find _ _) as [beo|].
  - split; [reflexivity|]. split; [reflexivity|]. split; [reflexivity|].
    split; [reflexivity|]. destruct beo; reflexivity.
  - split; reflexivity.
Qed.

(** ** Promotion to high resolution *)

Section Promote.

Context (E : Env) (a : Ambient).

Lemma process_selected_not_found (selection : PageSelection) (w : World) :
  List.find (by_session_id (ps_session_id selection)) (beos (db w)) = None ->
  run_request (process_selected_pages E a selection) w
  = (Raise (HTTPException 404 "Session not found"), w).
Proof.
  intros Hfind. unfold process_selected_pages. mrun. rewrite Hfind. mrun.
  rewrite world_eta. reflexivity.
Qed.

Lemma process_selected_missing (selection : PageSelection) (w : World) (beo : BEO.t) :
  List.find (by_session_id (ps_session_id selection)) (beos (db w)) = Some beo ->
  originals (files w) !! (ps_session_id selection +:+ ".pdf") = None ->
  run_request (process_selected_pages E a selection) w
  = (Raise (FileNotFoundError
              (dir_name ORIGINALS_DIR +:+ "/" +:+ ps_session_id selection +:+ ".pdf")), w).
Proof.
  intros Hfind Hfile. unfold process_selected_pages. mrun. rewrite Hfind. mrun.
  cbn [dir_files]. rewrite Hfile. mrun. rewrite world_eta. reflexivity.
Qed.

(** [process_all_pages] guards the same read with [os.path.exists]: a
    document whose original PDF is not in the originals directory is
    skipped, the request succeeds with nothing processed and changes
    nothing. *)
Lemma process_all_pages_missing_original (session_id : string) (w : World) (beo : BEO.t) :
  List.find (by_session_id session_id) (beos (db w)) = Some beo ->
  originals (files w) !! (session_id +:+ ".pdf") = None ->
  run_request (process_all_pages E a [session_id]) w = (Ok (0, []), w).
Proof.
  intros Hfind Hfile. unfold process_all_pages, enumerate. simpl.
  unfold process_all_step. mrun. rewrite Hfind. mrun.
  cbn [dir_files]. rewrite Hfile. simpl. mrun. rewrite world_eta. reflexivity.
Qed.

(** C5 (defect of the code).  [process_selected_pages] raises 404
    "Session not found" for an unknown identifier.  When the document
    row exists and its original PDF is not in the originals directory,
    the unguarded [open] raises [FileNotFoundError], which no handler
    catches: the client receives the server's plain 500 response, not a
    condition of its own; the response differs from the 404 and is the
    one of any other unhandled failure.  Either way the tables and the
    stored files are unchanged. *)
Theorem process_selected_pages_failures (selection : PageSelection) (w : World) :
  (List.find (by_session_id (ps_session_id selection)) (beos (db w)) = None ->
   run_request (process_selected_pages E a selection) w
   = (Raise (HTTPException 404 "Session not found"), w))
  /\ (forall beo,
        List.find (by_session_id (ps_session_id selection)) (beos (db w)) = Some beo ->
        originals (files w) !! (ps_session_id selection +:+ ".pdf") = None ->
        snd (run_request (process_selected_pages E a selection) w) = w
        /\ (exists path,
              fst (run_request (process_selected_pages E a selection) w)
              = Raise (FileNotFoundError path))
        /\ http_status (fst (run_request (process_selected_pages E a selection) w)) = 500
        /\ http_detail (fst (run_request (process_selected_pages E a selection) w))
           = "Internal Server Error").
Proof.
  split; [apply process_selected_not_found|].
  intros beo Hfind Hfile. rewrite (process_selected_missing selection w beo Hfind Hfile).
  split; [reflexivity|]. split; [eexists; reflexivity|]. split; reflexivity.
Qed.

Lemma selected_loop_skip (selection : PageSelection) (beo : BEO.t) (images : list Image)
    (l : list Z) :
  forall (acc : gmap Z string) (c : Ctx),
    fold_loop l acc (selected_page_step E selection beo images) c
    = fold_loop (List.filter (fun i => i <? len images) l) acc
        (selected_page_step E selection beo images) c.
Proof.
  induction l as [|i l IH]; intros acc c; [reflexivity|].
  simpl. destruct (i <? len images) eqn:Hi.
  - simpl. unfold bind.
    destruct (selected_page_step E selection beo images acc i c) as [[acc'|e] c'];
      [apply IH|reflexivity].
  - unfold bind. unfold selected_page_step at 1. rewrite Hi. unfold ret at 1. apply IH.
Qed.

Lemma selected_step_keys (selection : PageSelection) (beo : BEO.t) (images : list Image)
    (acc acc' : gmap Z string) (i : Z) (c c' : Ctx) (j : Z) :
  selected_page_step E selection beo images acc i c = (Ok acc', c') ->
  len images <= j -> acc !! j = None -> acc' !! j = None.
Proof.
  unfold selected_page_step. intros Hstep Hj Hacc.
  destruct (i <? len images) eqn:Hi.
  - apply Z.ltb_lt in Hi. revert Hstep. mrun.
    destruct (py_index images i); [|discriminate].
    destruct (img_save E _ 95); [|discriminate]. mrun.
    destruct (List.find _ _); mrun; intros [= <- _];
      rewrite lookup_insert_ne by lia; exact Hacc.
  - injection Hstep as <- _. exact Hacc.
Qed.

Lemma selected_loop_keys (selection : PageSelection) (beo : BEO.t) (images : list Image)
    (l : list Z) :
  forall (acc m : gmap Z string) (c c' : Ctx) (j : Z),
    fold_loop l acc (selected_page_step E selection beo images) c = (Ok m, c') ->
    len images <= j -> acc !! j = None -> m !! j = None.
Proof.
  induction l as [|i l IH]; intros acc m c c' j Hloop Hj Hacc.
  - injection Hloop as <- _. exact Hacc.
  - simpl in Hloop. unfold bind in Hloop.
    destruct (selected_page_step E selection beo images acc i c) as [[acc1|e] c1] eqn:Hstep;
      [|discriminate].
    eapply IH; [exact Hloop|exact Hj|].
    eapply selected_step_keys; eauto.
Qed.

(** C10.  When the document exists, its original PDF is stored and the
    rasteriser returns [images], a call behaves on the selected indices
    that are [>= len images] as if they were not in the list: it leaves
    the same world and, when it returns, the same map of high-resolution
    pages as the call without them (and it fails exactly when that call
    fails, with the same exception).  The map has no entry at any such
    index, while [processed_pages] is the length of the whole list. *)
Theorem process_selected_pages_skips (sid : string) (sel : list Z) (w : World)
    (beo : BEO.t) (pdf : bytes) (images : list Image) :
  List.find (by_session_id sid) (beos (db w)) = Some beo ->
  originals (files w) !! (sid +:+ ".pdf") = Some pdf ->
  convert_from_bytes E pdf 300 None = Ok images ->
  let in_range := List.filter (fun i => i <? len images) sel in
  let r := run_request (process_selected_pages E a (mk_page_selection sid sel)) w in
  let r' := run_request (process_selected_pages E a (mk_page_selection sid in_range)) w in
  snd r = snd r'
  /\ match fst r, fst r' with
     | Ok resp, Ok resp' =>
         pp_processed_pages resp = len sel
         /\ pp_high_res_pages resp = pp_high_res_pages resp'
         /\ forall i, len images <= i -> pp_high_res_pages resp !! i = None
     | Raise e, Raise e' => e = e'
     | _, _ => False
     end.
Proof.
  intros Hfind Hfile Hconv. cbv zeta.
  unfold process_selected_pages. mrun. cbn [ps_session_id ps_selected_pages].
  rewrite Hfind. mrun. cbn [dir_files]. rewrite Hfile. mrun. rewrite Hconv. mrun.
  rewrite (selected_loop_skip (mk_page_selection sid sel) beo images sel).
  change (selected_page_step E (mk_page_selection sid sel) beo images)
    with (selected_page_step E
            (mk_page_selection sid (List.filter (fun i => i <? len images) sel)) beo images).
  destruct (fold_loop _ _ _ _) as [[m|e] c'] eqn:Hloop; mrun.
  - split; [reflexivity|]. split; [reflexivity|]. split; [reflexivity|].
    intros i Hi. eapply selected_loop_keys; [exact Hloop|exact Hi|apply lookup_empty].
  - split; reflexivity.
Qed.

(** Promotion rewrites [high_res_path], [status] and [updated_at] only:
    the placement of the page rows and every [total_pages] stay as they
    were, whether the call returns or fails. *)
Lemma process_selected_pages_layout (selection : PageSelection) (w : World) :
  page_layout (db (snd (run_request (process_selected_pages E a selection) w)))
  = page_layout (db w).
Proof.
  set (J := fun c : Ctx => page_layout (committed c) = page_layout (db w)
                           /\ page_layout (session c) = page_layout (db w)).
  assert (forall key f, (forall b, BEO.id (f b) = BEO.id b
                                   /\ BEO.total_pages (f b) = BEO.total_pages b) ->
            hoare J (update_beo key f) (fun _ => J) J) as Hupd.
  { intros key f Hf c [Hc Hs]. split; [exact Hc|]. rewrite <- Hs.
    unfold page_layout. simpl. f_equal. rewrite map_map. apply map_ext.
    intros b. destruct (bool_decide _); [|reflexivity].
    destruct (Hf b) as [-> ->]. reflexivity. }
  assert (hoare J (process_selected_pages E a selection) (fun _ => J) J) as Hh.
  { unfold process_selected_pages.
    eapply hoare_bind with (Q1 := fun _ => J); [intros c Hc; exact Hc|].
    intros [beo|]; [|intros c Hc; exact Hc].
    eapply hoare_bind with (Q1 := fun _ => J).
    { intros c Hc. unfold read_file. destruct (_ !! _); exact Hc. }
    intros pdf. eapply hoare_bind with (Q1 := fun _ => J).
    { apply hoare_lift; auto. }
    intros images. eapply hoare_bind with (Q1 := fun _ => J).
    { apply hoare_fold_loop. intros acc i c [Hc Hs]. unfold selected_page_step.
      destruct (i <? len images); [|split; assumption]. mrun.
      destruct (py_index images i); [|split; assumption].
      destruct (img_save E _ 95); [|split; assumption]. mrun.
      destruct (List.find _ _); mrun; (split; [exact Hc|]); [|exact Hs].
      rewrite <- Hs. unfold page_layout. cbn [session beos beo_pages]. f_equal.
      rewrite map_map. apply map_ext. intros x. destruct (bool_decide _); reflexivity. }
    intros m. eapply hoare_bind with (Q1 := fun _ => J); [apply Hupd; auto|].
    intros _. eapply hoare_bind with (Q1 := fun _ => J); [apply Hupd; auto|].
    intros _. eapply hoare_bind with (Q1 := fun _ => J).
    { intros c [_ Hs]. split; exact Hs. }
    intros _ c Hc. exact Hc. }
  unfold run_request.
  specialize (Hh (mk_ctx (db w) (db w) (files w)) (conj eq_refl eq_refl)).
  destruct (process_selected_pages E a selection _) as [[r|e] c]; apply Hh.
Qed.

End Promote.

Lemma reachable_split_world : reachable demo_env split_world.
Proof. repeat apply reachable_step. apply reachable_init. Defined.

Lemma process_selected_pages_failures_witness :
  http_status
    (fst (run_request
            (process_selected_pages demo_env (demo_ambient 3) (mk_page_selection "nobody" [0]))
            split_world)) = 404
  /\ http_status
       (fst (run_request
               (process_selected_pages demo_env (demo_ambient 3)
                  (mk_page_selection "doc2-0" [0]))
               split_world)) = 500.
Proof.
  pose proof (process_selected_pages_failures demo_env (demo_ambient 3)
                (mk_page_selection "nobody" [0]) split_world) as [H1 _].
  pose proof (process_selected_pages_failures demo_env (demo_ambient 3)
                (mk_page_selection "doc2-0" [0]) split_world) as [_ H2].
  split.
  - rewrite H1 by (vm_compute; reflexivity). reflexivity.
  - destruct (List.find (by_session_id "doc2-0") (beos (db split_world))) as [beo|] eqn:Hb;
      [|vm_compute in Hb; discriminate].
    assert (originals (files split_world) !! ("doc2-0" +:+ ".pdf") = None) as Hf
      by (vm_compute; reflexivity).
    destruct (H2 beo Hb Hf) as (_ & _ & Hs & _). exact Hs.
Defined.

(** C5, the failing request: in a reachable world the document [doc2-0]
    made by a split has no original PDF; promoting it fails with an
    unhandled [FileNotFoundError], and the client sees the same response
    as for another unhandled failure (here an [IndexError] on
    [doc1-0]). *)
Lemma process_selected_pages_counterexample :
  reachable demo_env split_world
  /\ fst (run_request
            (process_selected_pages demo_env (demo_ambient 3) (mk_page_selection "doc2-0" [0]))
            split_world)
     = Raise (FileNotFoundError "./storage/originals/doc2-0.pdf")
  /\ fst (run_request
            (process_selected_pages demo_env (demo_ambient 3) (mk_page_selection "doc1-0" [-5]))
            split_world)
     = Raise IndexError
  /\ (http_status (@Raise ProcessedPages (FileNotFoundError "./storage/originals/doc2-0.pdf")),
      http_detail (@Raise ProcessedPages (FileNotFoundError "./storage/originals/doc2-0.pdf")))
     = (http_status (@Raise ProcessedPages IndexError),
        http_detail (@Raise ProcessedPages IndexError)).
Proof.
  split; [exact reachable_split_world|].
  split; [vm_compute; reflexivity|]. split; [vm_compute; reflexivity|]. reflexivity.
Qed.

Lemma process_selected_pages_skips_witness :
  exists resp,
    fst (run_request
           (process_selected_pages demo_env (demo_ambient 2) (mk_page_selection "doc1-0" [0; 7]))
           day_world_1) = Ok resp
    /\ pp_processed_pages resp = 2
    /\ pp_high_res_pages resp !! 7 = None.
Proof.
  destruct (List.find (by_session_id "doc1-0") (beos (db day_world_1))) as [beo|] eqn:Hb;
    [|vm_compute in Hb; discriminate].
  pose proof (process_selected_pages_skips demo_env (demo_ambient 2) "doc1-0" [0; 7]
                day_world_1 beo "ab" ["a"; "b"] Hb eq_refl eq_refl) as [_ H].
  cbv zeta in H.
  destruct (fst (run_request
                   (process_selected_pages demo_env (demo_ambient 2)
                      (mk_page_selection "doc1-0" [0; 7])) day_world_1)) as [resp|e] eqn:Hr.
  - exists resp. split; [reflexivity|].
    destruct (fst (run_request _ day_world_1)) as [resp'|e'] in H; [|contradiction].
    destruct H as (Hn & _ & Hk). split; [exact Hn|]. apply Hk. vm_compute. discriminate.
  - vm_compute in Hr. discriminate.
Defined.

(** ** Saving an annotation *)

Section Annotate.

Lemma save_annotation_run (a : Ambient) (annotation : AnnotationData) (w : World)
    (beo : BEO.t) :
  List.find (by_session_id (ad_session_id annotation)) (beos (db w)) = Some beo ->
  run_request (save_annotation a annotation) w
  = (Ok "success", mk_world (saved a annotation beo (db w)) (files w)).
Proof.
  intros Hfind. unfold save_annotation. mrun. rewrite Hfind. mrun.
  unfold saved. fold (ann_match (BEO.id beo) (ad_page_index annotation)).
  destruct (List.find (ann_match _ _) (annotations (db w))) as [ex|]; mrun.
  - f_equal. f_equal. f_equal.
    + apply (update_rows_twice (BEO.id beo) (BEO.set_status "annotated")
               (BEO.set_updated_at (utcnow a))). reflexivity.
    + rewrite map_map. apply map_ext. intros x. unfold overwrite.
      destruct (bool_decide (Annotation.id x = Annotation.id ex)) eqn:Hx; simpl.
      * rewrite Hx. reflexivity.
      * rewrite Hx. reflexivity.
  - f_equal. f_equal. f_equal.
    apply (update_rows_twice (BEO.id beo) (BEO.set_status "annotated")
             (BEO.set_updated_at (utcnow a))). reflexivity.
Qed.

Lemma filter_find_none {X} (p : X -> bool) (l : list X) :
  List.find p l = None -> List.filter p l = [].
Proof.
  induction l as [|x l IH]; simpl; [reflexivity|].
  destruct (p x); [discriminate|exact IH].
Qed.

Lemma ann_match_key (k i : Z) (x : Annotation.t) :
  ann_match k i x = true <-> annotation_key x = (k, i).
Proof.
  unfold ann_match, annotation_key. rewrite andb_true_iff, !bool_decide_eq_true.
  split; [intros [-> ->]; reflexivity|intros [= -> ->]; auto].
Qed.

Lemma filter_find_unique (k i : Z) (l : list Annotation.t) (ex : Annotation.t) :
  NoDup (map annotation_key l) ->
  List.find (ann_match k i) l = Some ex ->
  List.filter (ann_match k i) l = [ex].
Proof.
  induction l as [|x l IH]; simpl; intros Hnd Hfind; [discriminate|].
  apply NoDup_cons in Hnd as [Hx Hnd].
  destruct (ann_match k i x) eqn:Hm.
  - injection Hfind as <-. f_equal.
    destruct (List.filter (ann_match k i) l) as [|y rest] eqn:Hf; [reflexivity|].
    exfalso. apply Hx.
    assert (In y (List.filter (ann_match k i) l)) as Hy by (rewrite Hf; left; reflexivity).
    apply filter_In in Hy as [Hy Hmy].
    apply ann_match_key in Hm. apply ann_match_key in Hmy.
    rewrite Hm, <- Hmy. apply list_elem_of_In, in_map. exact Hy.
  - apply IH; assumption.
Qed.

Lemma find_update_rows (sid : string) (key : Z) (f : BEO.t -> BEO.t) (l : list BEO.t)
    (b : BEO.t) :
  (forall x, BEO.session_id (f x) = BEO.session_id x) ->
  List.find (by_session_id sid) l = Some b -> BEO.id b = key ->
  List.find (by_session_id sid) (update_rows key f l) = Some (f b).
Proof.
  intros Hf. induction l as [|x l IH]; simpl; intros Hfind Hid; [discriminate|].
  unfold by_session_id at 1.
  destruct (bool_decide (BEO.id x = key)) eqn:Hx.
  - rewrite Hf. fold (by_session_id sid x).
    destruct (by_session_id sid x); [congruence|]. apply IH; assumption.
  - fold (by_session_id sid x).
    destruct (by_session_id sid x).
    + injection Hfind as ->. apply bool_decide_eq_false in Hx. contradiction.
    + apply IH; assumption.
Qed.

(** One call: afterwards the page has exactly one annotation, with the
    payload of the call. *)
Lemma saved_one_row (a : Ambient) (annotation : AnnotationData) (beo : BEO.t) (d : DB) :
  NoDup (map annotation_key (annotations d)) ->
  exists x,
    annotations_of (saved a annotation beo d) (BEO.id beo) (ad_page_index annotation) = [x]
    /\ Annotation.canvas_data x = ad_annotation_data annotation.
Proof.
  intros Hnd. unfold annotations_of, saved.
  fold (ann_match (BEO.id beo) (ad_page_index annotation)).
  destruct (List.find _ (annotations d)) as [ex|] eqn:Hfind; simpl annotations.
  - exists (overwrite (utcnow a) (ad_annotation_data annotation) ex).
    split; [|reflexivity].
    rewrite filter_map_swap.
    rewrite (filter_ext _ (ann_match (BEO.id beo) (ad_page_index annotation))).
    + rewrite (filter_find_unique _ _ _ ex Hnd Hfind). simpl.
      rewrite bool_decide_eq_true_2 by reflexivity. reflexivity.
    + intros x. destruct (bool_decide _); reflexivity.
  - eexists. rewrite List.filter_app, (filter_find_none _ _ Hfind). simpl.
    unfold ann_match. simpl. rewrite !bool_decide_eq_true_2 by reflexivity. simpl.
    split; reflexivity.
Qed.

Lemma find_filter_head {X} (p : X -> bool) (l : list X) (x : X) (rest : list X) :
  List.filter p l = x :: rest -> List.find p l = Some x.
Proof.
  induction l as [|y l IH]; simpl; [discriminate|].
  destruct (p y); [intros [= -> _]; reflexivity|exact IH].
Qed.

(** C6.  In a reachable state, two successive [save_annotation] calls with
    the same document, page index and payload both succeed and leave
    exactly one annotation row for that page, holding the payload.  The
    first call appends a row when the page has none; the second call
    finds the row and overwrites it in place (no row is added); and no
    two annotation rows share a (document, page index) pair. *)
Theorem save_annotation_idempotent (E : Env) (a1 a2 : Ambient)
    (annotation : AnnotationData) (w : World) (beo : BEO.t) :
  reachable E w ->
  List.find (by_session_id (ad_session_id annotation)) (beos (db w)) = Some beo ->
  let i := ad_page_index annotation in
  let payload := ad_annotation_data annotation in
  let w1 := snd (run_request (save_annotation a1 annotation) w) in
  let w2 := snd (run_request (save_annotation a2 annotation) w1) in
  fst (run_request (save_annotation a1 annotation) w) = Ok "success"
  /\ fst (run_request (save_annotation a2 annotation) w1) = Ok "success"
  /\ (exists x, annotations_of (db w2) (BEO.id beo) i = [x]
                /\ Annotation.canvas_data x = payload)
  /\ (annotations_of (db w) (BEO.id beo) i = [] ->
      annotations (db w1)
      = annotations (db w) ++ [inserted_annotation (utcnow a1) (BEO.id beo) i payload (db w)])
  /\ (exists x1,
        annotations_of (db w1) (BEO.id beo) i = [x1]
        /\ Annotation.canvas_data x1 = payload
        /\ annotations (db w2)
           = map (fun x => if bool_decide (Annotation.id x = Annotation.id x1)
                           then overwrite (utcnow a2) payload x else x)
                 (annotations (db w1)))
  /\ length (annotations (db w2)) = length (annotations (db w1))
  /\ NoDup (map annotation_key (annotations (db w2))).
Proof.
  intros Hreach Hfind. cbv zeta.
  pose proof (reachable_step E a1 (SaveAnnotation annotation) w Hreach) as Hreach1.
  pose proof (reachable_step E a2 (SaveAnnotation annotation) _ Hreach1) as Hreach2.
  cbn [step] in Hreach1, Hreach2.
  pose proof (reachable_inv E _ Hreach) as Hinv.
  pose proof (reachable_inv E _ Hreach1) as Hinv1.
  pose proof (reachable_inv E _ Hreach2) as Hinv2.
  revert Hreach1 Hreach2 Hinv1 Hinv2.
  rewrite (save_annotation_run a1 annotation w beo Hfind). cbn [fst snd].
  assert (List.find (by_session_id (ad_session_id annotation))
            (beos (db (mk_world (saved a1 annotation beo (db w)) (files w))))
          = Some (mark_annotated (utcnow a1) beo)) as Hfind1.
  { unfold saved. cbn [db].
    destruct (List.find (ann_match _ _) _); cbn [beos];
      apply find_update_rows; auto. }
  rewrite (save_annotation_run a2 annotation _ _ Hfind1). cbn [fst snd db].
  intros Hreach1 Hreach2 Hinv1 Hinv2.
  change (BEO.id (mark_annotated (utcnow a1) beo)) with (BEO.id beo) in *.
  destruct (saved_one_row a1 annotation beo (db w) (inv_annotation_keys _ Hinv))
    as (x1 & Hx1 & Hp1).
  set (d1 := saved a1 annotation beo (db w)) in *.
  assert (List.find (ann_match (BEO.id beo) (ad_page_index annotation)) (annotations d1)
          = Some x1) as Hex1.
  { unfold annotations_of in Hx1. eapply find_filter_head. exact Hx1. }
  split; [reflexivity|]. split; [reflexivity|]. split; [|split; [|split; [|split]]].
  - apply (saved_one_row a2 annotation (mark_annotated (utcnow a1) beo) d1).
    apply Hinv1.
  - intros Hnone. unfold annotations_of in Hnone.
    fold (ann_match (BEO.id beo) (ad_page_index annotation)) in Hnone.
    unfold d1, saved.
    destruct (List.find (ann_match _ _) (annotations (db w))) as [ex|] eqn:Hex.
    + apply find_some in Hex as [Hin Hm].
      assert (In ex (List.filter (ann_match (BEO.id beo) (ad_page_index annotation))
                       (annotations (db w)))) as Habs by (apply filter_In; auto).
      rewrite Hnone in Habs. contradiction.
    + reflexivity.
  - exists x1. split; [exact Hx1|]. split; [exact Hp1|].
    unfold saved at 1.
    change (BEO.id (mark_annotated (utcnow a1) beo)) with (BEO.id beo).
    rewrite Hex1. reflexivity.
  - unfold saved at 1.
    change (BEO.id (mark_annotated (utcnow a1) beo)) with (BEO.id beo).
    rewrite Hex1. cbn [annotations]. apply length_map.
  - apply Hinv2.
Qed.

End Annotate.

Lemma save_annotation_idempotent_witness :
  exists x,
    annotations_of
      (db (snd (run_request (save_annotation (demo_ambient 3) demo_annotation)
                  (snd (run_request (save_annotation (demo_ambient 2) demo_annotation)
                          day_world_1)))))
      1 0 = [x]
    /\ Annotation.canvas_data x = "{objects: []}".
Proof.
  destruct (List.find (by_session_id "doc1-0") (beos (db day_world_1))) as [beo|] eqn:Hb;
    [|vm_compute in Hb; discriminate].
  assert (BEO.id beo = 1) as Hid by (vm_compute in Hb; injection Hb as <-; reflexivity).
  destruct (save_annotation_idempotent demo_env (demo_ambient 2) (demo_ambient 3)
              demo_annotation day_world_1 beo reachable_day_world_1 Hb)
    as (_ & _ & H & _).
  rewrite Hid in H. exact H.
Defined.

(** ** The derived date columns *)

(** C8.  In every reachable state each document's [day_of_week],
    [week_number] and [year] are the values derived from its [event_date]
    (all three unset when the date is unset): every handler that writes
    [event_date] writes the three columns from the same date before it
    commits, and the handlers that create a document from another copy
    the four columns together.  Consequently a request never changes one
    of the three columns of a row whose [event_date] it leaves as it
    was. *)
Theorem derived_fields_consistent (E : Env) (w : World) :
  reachable E w ->
  Forall derived_consistent (beos (db w))
  /\ forall (a : Ambient) (req : Request) (b b' : BEO.t),
       In b (beos (db w)) -> In b' (beos (db (step E a req w))) ->
       derived_consistent b'
       /\ (BEO.event_date b' = BEO.event_date b ->
           BEO.day_of_week b' = BEO.day_of_week b
           /\ BEO.week_number b' = BEO.week_number b
           /\ BEO.year b' = BEO.year b).
Proof.
  intros Hreach. pose proof (reachable_inv E w Hreach) as Hinv.
  split; [apply Hinv|].
  intros a req b b' Hb Hb'.
  pose proof (reachable_inv E _ (reachable_step E a req w Hreach)) as Hinv'.
  assert (derived_consistent b) as (H1 & H2 & H3).
  { pose proof (inv_derived _ Hinv) as Hd. rewrite Forall_forall in Hd.
    apply Hd, list_elem_of_In, Hb. }
  assert (derived_consistent b') as Hc'.
  { pose proof (inv_derived _ Hinv') as Hd. rewrite Forall_forall in Hd.
    apply Hd, list_elem_of_In, Hb'. }
  split; [exact Hc'|]. destruct Hc' as (H1' & H2' & H3').
  intros Heq. rewrite H1, H2, H3, H1', H2', H3', Heq. auto.
Qed.

Lemma derived_fields_consistent_witness :
  Forall derived_consistent (beos (db day_world)).
Proof. exact (proj1 (derived_fields_consistent demo_env day_world reachable_day_world)). Defined.

(** A metadata update and a multi-file upload, run: the derived columns
    follow the date (30 December 2024 is a Monday of ISO week 1, year
    column 2024); a date string that does not parse leaves all four
    unset. *)
Example derived_fields_examples :
  map (fun b => (BEO.session_id b, BEO.day_of_week b, BEO.week_number b, BEO.year b))
      (beos (db (step demo_env (demo_ambient 5)
                   (UpdateBeoMetadata (mk_beo_metadata "doc4-0" None (Some "2025-12-25") None))
                   day_world)))
  = [("doc1-0", Some "Tuesday", Some 44, Some 2025);
     ("doc2-0", Some "Tuesday", Some 44, Some 2025);
     ("doc4-0", Some "Thursday", Some 52, Some 2025)]
  /\ map (fun b => (BEO.session_id b, BEO.day_of_week b, BEO.week_number b, BEO.year b))
       (beos (db (step demo_env (demo_ambient 5)
                    (UploadMultiplePdfs
                       [mk_upload "a.pdf" "xy"; mk_upload "b.txt" "z"; mk_upload "c.pdf" "z"]
                       [mk_file_upload_item "a.pdf" (Some "2024-12-30") None;
                        mk_file_upload_item "c.pdf" (Some "tomorrow") None])
                    empty_world)))
     = [("doc5-0", Some "Monday", Some 1, Some 2024); ("doc5-2", None, None, None)].
Proof. split; vm_compute; reflexivity. Qed.

(** ** The date in the filename *)

Section FilenameDate.

Lemma word_not_space (c : ascii) : PyStr.is_word c = true -> PyStr.is_space c = false.
Proof. destruct c as [[] [] [] [] [] [] [] []]; vm_compute; congruence. Qed.

Lemma dot_not_word (c : ascii) : PyStr.lower c = "."%char -> PyStr.is_word c = false.
Proof. destruct c as [[] [] [] [] [] [] [] []]; vm_compute; congruence. Qed.

Lemma span_app (p : ascii -> bool) (s1 s2 : string) :
  all_chars p s1 = true ->
  match s2 with String c _ => p c = false | EmptyString => True end ->
  PyStr.span p (s1 +:+ s2) = (s1, s2).
Proof.
  intros H1 H2. induction s1 as [|c s1 IH]; simpl in *.
  - destruct s2 as [|c r]; [reflexivity|]. simpl. rewrite H2. reflexivity.
  - apply andb_true_iff in H1 as [Hc H1]. rewrite Hc, (IH H1). reflexivity.
Qed.

Lemma span_spec (p : ascii -> bool) (s s1 s2 : string) :
  PyStr.span p s = (s1, s2) ->
  s = s1 +:+ s2 /\ all_chars p s1 = true.
Proof.
  revert s1 s2. induction s as [|c s IH]; simpl; intros s1 s2 H.
  - injection H as <- <-. auto.
  - destruct (p c) eqn:Hc.
    + destruct (PyStr.span p s) as [x y]. injection H as <- <-.
      destruct (IH x y eq_refl) as [-> Hx]. simpl. rewrite Hc. auto.
    + injection H as <- <-. auto.
Qed.

Lemma startswith_ci_spec (lit s : string) :
  PyStr.startswith_ci lit s = true <->
  exists ext rest, s = ext +:+ rest /\ lower_string ext = lower_string lit.
Proof.
  revert s. induction lit as [|x lit IH]; intros s; simpl.
  - split; [intros _; exists EmptyString, s; auto|auto].
  - destruct s as [|b s].
    + split; [discriminate|]. intros (ext & rest & Hs & Hl).
      destruct ext; [discriminate|discriminate].
    + destruct (decide (PyStr.lower x = PyStr.lower b)) as [Heq|Hne].
      * rewrite IH. split.
        -- intros (ext & rest & -> & Hl). exists (String b ext), rest.
           simpl. rewrite Hl, Heq. auto.
        -- intros (ext & rest & Hs & Hl). destruct ext as [|e ext]; [discriminate|].
           simpl in Hs, Hl. injection Hs as -> ->. injection Hl as _ Hl.
           exists ext, rest. auto.
      * split; [discriminate|]. intros (ext & rest & Hs & Hl).
        destruct ext as [|e ext]; [discriminate|].
        simpl in Hs, Hl. injection Hs as -> ->. injection Hl as Hl _. congruence.
Qed.

Lemma int_two_digits (c1 c2 : ascii) :
  PyStr.int_digits (String c1 (String c2 EmptyString))
  = 10 * digit_value c1 + digit_value c2.
Proof. unfold PyStr.int_digits, digit_value. simpl. lia. Qed.

(** The pattern of the code accepts exactly the filenames of that shape. *)
Lemma match_filename_shape (filename : string) (month day : Z) :
  date_filename filename month day <->
  exists g1 g2 g3,
    match_filename filename = Some (g1, g2, g3)
    /\ month = PyStr.int_digits g1 /\ day = PyStr.int_digits g2.
Proof.
  split.
  - intros (m1 & m2 & d1 & d2 & ws & word & ext & rest & -> & Hm1 & Hm2 & Hd1 & Hd2
            & Hws & Hsp & Hword & Hw & Hext & -> & ->).
    exists (String m1 (String m2 EmptyString)), (String d1 (String d2 EmptyString)), word.
    rewrite !int_two_digits. split; [|auto].
    unfold match_filename. rewrite Hm1, Hm2, Hd1, Hd2. cbn [andb].
    assert (match word +:+ ext +:+ rest with
            | String c _ => PyStr.is_space c = false
            | EmptyString => True
            end) as Hstop1.
    { destruct word as [|c r]; [congruence|]. simpl in *.
      apply andb_true_iff in Hw as [Hc _]. apply word_not_space. exact Hc. }
    assert (match ext +:+ rest with
            | String c _ => PyStr.is_word c = false
            | EmptyString => True
            end) as Hstop2.
    { destruct ext as [|c r]; [discriminate|]. simpl in *.
      injection Hext as Hc _. apply dot_not_word. exact Hc. }
    rewrite (span_app PyStr.is_space ws _ Hsp Hstop1).
    rewrite (span_app PyStr.is_word word _ Hw Hstop2).
    assert (PyStr.startswith_ci ".pdf" (ext +:+ rest) = true) as ->.
    { apply startswith_ci_spec. exists ext, rest. auto. }
    rewrite !bool_decide_eq_false_2 by assumption. reflexivity.
  - intros (g1 & g2 & g3 & Hm & -> & ->). unfold match_filename in Hm.
    destruct filename as [|m1 [|m2 [|d1 [|d2 r]]]]; try discriminate.
    destruct (PyStr.is_digit m1) eqn:Hm1; [|discriminate].
    destruct (PyStr.is_digit m2) eqn:Hm2; [|discriminate].
    destruct (PyStr.is_digit d1) eqn:Hd1; [|discriminate].
    destruct (PyStr.is_digit d2) eqn:Hd2; [|discriminate].
    cbn [andb] in Hm.
    destruct (PyStr.span PyStr.is_space r) as [ws r1] eqn:Hs1.
    destruct (PyStr.span PyStr.is_word r1) as [word r2] eqn:Hs2.
    destruct (bool_decide (ws = EmptyString)) eqn:Hws; [discriminate|].
    destruct (bool_decide (word = EmptyString)) eqn:Hword; [discriminate|].
    cbn [negb andb] in Hm.
    destruct (PyStr.startswith_ci ".pdf" r2) eqn:Hpdf; [|discriminate].
    injection Hm as <- <- <-.
    apply span_spec in Hs1 as [-> Hsp]. apply span_spec in Hs2 as [-> Hw].
    apply startswith_ci_spec in Hpdf as (ext & rest & -> & Hext).
    apply bool_decide_eq_false in Hws. apply bool_decide_eq_false in Hword.
    exists m1, m2, d1, d2, ws, word, ext, rest.
    rewrite !int_two_digits. repeat split; auto.
Qed.

Lemma timedelta_days_midnight (now ev : datetime) :
  time_in_range now ->
  dt_hour ev = 0 -> dt_minute ev = 0 -> dt_second ev = 0 -> dt_microsecond ev = 0 ->
  timedelta_days now ev = toordinal now - toordinal ev.
Proof.
  intros (Hh & Hm & Hs & Hu) H1 H2 H3 H4.
  unfold timedelta_days, to_microseconds. rewrite H1, H2, H3, H4.
  symmetry. apply (Z.div_unique _ _ _
    (((dt_hour now * 60 + dt_minute now) * 60 + dt_second now) * 1000000
     + dt_microsecond now)); lia.
Qed.

Lemma parse_filename_date_resolved (now : datetime) (filename : string) (month day : Z) :
  time_in_range now ->
  date_filename filename month day ->
  parse_filename_date now filename = resolved_date now month day.
Proof.
  intros Hnow Hshape. apply match_filename_shape in Hshape as (g1 & g2 & g3 & Hm & -> & ->).
  unfold parse_filename_date, resolved_date. rewrite Hm.
  destruct (datetime_ymd (dt_year now) _ _) as [ev|] eqn:Hev; [|reflexivity].
  apply datetime_ymd_year in Hev as (_ & _ & _ & H1 & H2 & H3 & H4).
  rewrite (timedelta_days_midnight now ev Hnow H1 H2 H3 H4).
  destruct (180 <? _); [|reflexivity].
  destruct (datetime_ymd (dt_year now + 1) _ _); reflexivity.
Qed.

Lemma parse_filename_date_no_match (now : datetime) (filename : string) :
  (forall month day, ~ date_filename filename month day) ->
  parse_filename_date now filename = None.
Proof.
  intros Hno. unfold parse_filename_date.
  destruct (match_filename filename) as [[[g1 g2] g3]|] eqn:Hm; [|reflexivity].
  exfalso. apply (Hno (PyStr.int_digits g1) (PyStr.int_digits g2)).
  apply match_filename_shape. exists g1, g2, g3. auto.
Qed.

Context (E : Env) (a : Ambient).

Lemma thumbnail_loop_status (sid : string) (beo : BEO.t) (images : list Image) :
  forall (k : Z) (acc : list string) (c : Ctx),
    is_ok (fst (fold_loop (enumerate_from k images) acc (thumbnail_step E a sid beo) c))
    = forallb (fun img => is_ok (img_save E img 60)) images.
Proof.
  induction images as [|img images IH]; intros k acc c; [reflexivity|].
  simpl. unfold bind at 1. unfold thumbnail_step at 1. mrun.
  destruct (img_save E img 60) as [buffered|e]; [|reflexivity].
  simpl. apply IH.
Qed.

Lemma upload_pdf_status (file : UploadFile) (file_type : string) (w : World) :
  is_ok (fst (run_request (upload_pdf E a file file_type) w)) = upload_succeeds E a file w.
Proof.
  unfold upload_succeeds, upload_pdf. mrun.
  destruct (PyStr.endswith (uf_filename file) ".pdf"); cbn [negb andb]; mrun;
    [|reflexivity].
  destruct (convert_from_bytes E (uf_content file) 75 None) as [images|e]; mrun;
    [|reflexivity].
  cbn [new_BEO BEO.session_id].
  destruct (existsb _ (beos (db w))); mrun; [reflexivity|].
  cbn [negb andb]. unfold enumerate.
  match goal with |- context [fold_loop _ ?acc (thumbnail_step _ _ ?sid ?beo) ?c] =>
    rewrite <- (thumbnail_loop_status sid beo images 0 acc c)
  end.
  destruct (fold_loop _ _ _ _) as [[thumbs|e] c']; reflexivity.
Qed.

(** C4 (amended).  For a filename that starts with two digits MM, two
    digits DD, whitespace, a run of word characters and [.pdf] in any
    letter case, [parse_filename_date] returns MM/DD of the current year
    when that is a valid date at most 180 whole days before [now], MM/DD of
    the next year when the current-year date is more than 180 days past
    and exists in the next year, and nothing otherwise; for every other
    filename it returns nothing.  The three derived values come from the
    resulting date.  [upload_pdf] stores the four values (or four NULLs)
    on the new row, and whether it succeeds does not depend on them. *)
Theorem upload_pdf_filename_date (file : UploadFile) (file_type : string) (w : World) :
  time_in_range (now a) ->
  let filename := uf_filename file in
  let parsed := parse_filename_date (now a) filename in
  (forall month day,
     date_filename filename month day -> parsed = resolved_date (now a) month day)
  /\ ((forall month day, ~ date_filename filename month day) -> parsed = None)
  /\ (forall info, parsed = Some info ->
        di_day_of_week info = strftime_A (di_event_date info)
        /\ di_week_number info = isocalendar_week (di_event_date info)
        /\ di_year info = dt_year (di_event_date info))
  /\ match run_request (upload_pdf E a file file_type) w with
     | (Ok _, w') =>
         exists beo,
           beos (db w') = beos (db w) ++ [beo]
           /\ BEO.event_date beo = di_event_date <$> parsed
           /\ BEO.day_of_week beo = di_day_of_week <$> parsed
           /\ BEO.week_number beo = di_week_number <$> parsed
           /\ BEO.year beo = di_year <$> parsed
     | (Raise _, _) => True
     end
  /\ is_ok (fst (run_request (upload_pdf E a file file_type) w)) = upload_succeeds E a file w.
Proof.
  intros Hnow. cbv zeta.
  split; [intros month day; apply parse_filename_date_resolved; exact Hnow|].
  split; [apply parse_filename_date_no_match|].
  split; [intros info; apply parse_filename_date_year|].
  split; [|apply upload_pdf_status].
  pose proof (upload_pdf_run E a file file_type w) as H.
  destruct (run_request _ w) as [[resp|e] w']; [|exact I].
  destruct H as (_ & images & _ & _ & _ & ->).
  eexists. split; [reflexivity|]. repeat split.
Qed.

End FilenameDate.

Lemma upload_pdf_filename_date_witness :
  parse_filename_date (now (demo_ambient 1)) "1028 Tuesday.pdf"
  = resolved_date (now (demo_ambient 1)) 10 28.
Proof.
  assert (time_in_range (now (demo_ambient 1))) as Hnow by (vm_compute; intuition discriminate).
  destruct (upload_pdf_filename_date demo_env (demo_ambient 1)
              (mk_upload "1028 Tuesday.pdf" "ab") "daily" empty_world Hnow) as [H _].
  apply H.
  exists "1"%char, "0"%char, "2"%char, "8"%char, " ", "Tuesday", ".pdf", EmptyString.
  repeat split; try reflexivity; discriminate.
Defined.

(** The filename of the specification's example.  Parsed a few days after
    28 October 2025 it gives that day, a Tuesday; parsed in the following
    spring it gives 28 October of the then current year, which lies
    ahead.  A January filename parsed in November is more than 180 days
    past and rolls to the next year. *)
Example parse_1028_tuesday :
  parse_filename_date (mk_datetime 2025 11 3 10 0 0 0) "1028 Tuesday.pdf"
  = Some (mk_date_info (mk_datetime 2025 10 28 0 0 0 0) "Tuesday" 44 2025)
  /\ parse_filename_date (mk_datetime 2026 4 27 0 0 0 0) "1028 Tuesday.pdf"
     = Some (mk_date_info (mk_datetime 2026 10 28 0 0 0 0) "Wednesday" 44 2026)
  /\ timedelta_days (mk_datetime 2025 11 3 10 0 0 0) (mk_datetime 2025 1 15 0 0 0 0) = 292
  /\ parse_filename_date (mk_datetime 2025 11 3 10 0 0 0) "0115 Wednesday.pdf"
     = Some (mk_date_info (mk_datetime 2026 1 15 0 0 0 0) "Thursday" 3 2026).
Proof. repeat split; vm_compute; reflexivity. Qed.

(** C4 as stated fails in two ways.  "1028 Foo.pdf" is not of the stated
    pattern (Foo is no weekday name), yet it is given the date 28
    October.  "0229 Thursday.pdf" is of the stated pattern and 29
    February 2024 is a valid date of the current year; parsed on
    1 December 2024, 276 days later, the year rolls to 2025, where the
    date does not exist, and [event_date] is left unset. *)
Lemma parse_filename_date_counterexample :
  claimed_pattern "1028 Foo.pdf" = false
  /\ (di_event_date <$> parse_filename_date (mk_datetime 2025 11 3 10 0 0 0) "1028 Foo.pdf")
     = Some oct28
  /\ claimed_pattern "0229 Thursday.pdf" = true
  /\ datetime_ymd 2024 2 29 = Some (mk_datetime 2024 2 29 0 0 0 0)
  /\ timedelta_days (mk_datetime 2024 12 1 9 0 0 0) (mk_datetime 2024 2 29 0 0 0 0) = 276
  /\ parse_filename_date (mk_datetime 2024 12 1 9 0 0 0) "0229 Thursday.pdf" = None.
Proof. repeat split; vm_compute; reflexivity. Qed.

(** * Further properties of the handlers *)

(** ** Statements that leave a part of the request state alone *)

Section Keep.

Context {X : Type} (proj : Ctx -> X) (P : X -> Prop).

(** A statement that does not change the [proj] part of the state keeps
    every property of that part. *)
Lemma keep_by {A} (m : M A) :
  (forall c, proj (snd (m c)) = proj c) ->
  hoare (fun c => P (proj c)) m (fun _ c => P (proj c)) (fun c => P (proj c)).
Proof.
  intros H c Hc. specialize (H c). destruct (m c) as [[r|e] c']; simpl in H; rewrite H; exact Hc.
Qed.

End Keep.

Lemma keep_ctx (J : Ctx -> Prop) {A} (m : M A) :
  (forall c, snd (m c) = c) -> hoare J m (fun _ => J) J.
Proof. intros H. apply (keep_by (fun c => c) J m H). Qed.

Ltac head_of t :=
  lazymatch t with
  | ?f _ => head_of f
  | _ => constr:(t)
  end.

(** Evaluates a primitive statement on a state. *)
Ltac prim_run :=
  mrun; repeat (case_match; mrun); try reflexivity.

(** Walks through a handler body; [tac] proves the statements that
    change the state. *)
Ltac keep_step tac :=
  first
  [ tac
  | lazymatch goal with
    | |- hoare ?J (bind _ _) _ _ => eapply hoare_bind with (Q1 := fun _ => J); [| intros ?]
    | |- hoare ?J (try_except _ _) _ _ => eapply hoare_try with (R1 := J); [| intros ?]
    | |- hoare _ (fold_loop _ _ _) _ _ => apply hoare_fold_loop; intros ? ?
    | |- hoare _ (for_each _ _) _ _ => apply hoare_for_each; intros ?
    | |- hoare _ (ret _) _ _ => apply hoare_ret; intros; solve [assumption | exact I]
    | |- hoare _ (raise _) _ _ => apply hoare_raise; intros; assumption
    | |- hoare _ (lift _) _ _ => apply hoare_lift; intros; assumption
    | |- hoare _ (if ?b then _ else _) _ _ => destruct b
    | |- hoare _ (match ?x with Some _ => _ | None => _ end) _ _ => destruct x
    | |- hoare _ (let '(_, _) := ?x in _) _ _ => destruct x
    | |- hoare _ _ _ _ =>
        first [ apply keep_ctx; intros ?; solve [prim_run]
              | lazymatch goal with
                | |- hoare _ ?m _ _ => let h := head_of m in unfold h
                end ]
    end ].

(** ** The read-only handlers change nothing *)

Lemma run_request_keep {A} (m : M A) (w : World) :
  (forall c0, hoare (fun c => c = c0) m (fun _ c => c = c0) (fun c => c = c0)) ->
  snd (run_request m w) = w.
Proof.
  intros H. unfold run_request.
  specialize (H _ (mk_ctx (db w) (db w) (files w)) eq_refl).
  destruct (m _) as [[r|e] c]; subst c; simpl; apply world_eta.
Qed.

(** X1.  GET requests are safe.  None of the six read-only handlers
    changes the tables or the storage directories, whatever it answers. *)
Theorem read_handlers_change_nothing (E : Env) (w : World) :
  (forall sid, snd (run_request (Routes.get_session sid) w) = w)
  /\ (forall sid, snd (run_request (Routes.get_beo_pages sid) w) = w)
  /\ (forall sid, snd (run_request (Routes.export_session E sid) w) = w)
  /\ snd (run_request Routes.list_beos w) = w
  /\ (forall year week, snd (run_request (Routes.get_week_beos E year week) w) = w)
  /\ (forall date, snd (run_request (Routes.get_day_beos E date) w) = w).
Proof.
  repeat split; intros; apply run_request_keep; intros c0.
  - unfold Routes.get_session. repeat keep_step fail.
  - unfold Routes.get_beo_pages. repeat keep_step fail.
  - unfold Routes.export_session. repeat keep_step fail.
  - unfold Routes.list_beos. repeat keep_step fail.
  - unfold Routes.get_week_beos. repeat keep_step fail.
  - unfold Routes.get_day_beos. repeat keep_step fail.
Qed.

(** ** A failed request leaves the tables as they were *)

Section Atomic.

Context (E : Env) (a : Ambient) (d0 : DB).

Local Abbreviation untouched := (fun c : Ctx => committed c = d0).

Lemma keep_committed {A} (m : M A) :
  (forall c, committed (snd (m c)) = committed c) ->
  hoare untouched m (fun _ => untouched) untouched.
Proof. apply (keep_by committed (fun d => d = d0)). Qed.

(** The commit is the last statement that can change the committed
    tables, and only a [return] follows it. *)
Ltac atomic_tac :=
  idtac;
  lazymatch goal with
  | |- hoare _ (bind db_commit _) _ _ =>
      eapply hoare_bind with (Q1 := fun _ _ => True);
      [intros ? ?; exact I | intros ?; apply hoare_ret; intros; exact I]
  | |- hoare _ (bind _ _) _ _ => fail
  | |- hoare _ (try_except _ _) _ _ => fail
  | |- hoare _ (fold_loop _ _ _) _ _ => fail
  | |- hoare _ (for_each _ _) _ _ => fail
  | |- hoare _ _ _ _ => apply keep_committed; intros ?; solve [prim_run]
  end.

Lemma atomic_upload_pdf file file_type :
  hoare untouched (upload_pdf E a file file_type) (fun _ _ => True) untouched.
Proof. unfold upload_pdf. repeat keep_step atomic_tac. Qed.

Lemma atomic_upload_multiple_pdfs fs infos :
  hoare untouched (upload_multiple_pdfs E a fs infos) (fun _ _ => True) untouched.
Proof. unfold upload_multiple_pdfs. repeat keep_step atomic_tac. Qed.

Lemma atomic_process_all_pages ids :
  hoare untouched (process_all_pages E a ids) (fun _ _ => True) untouched.
Proof. unfold process_all_pages. repeat keep_step atomic_tac. Qed.

Lemma atomic_select_pages sel :
  hoare untouched (select_pages a sel) (fun _ _ => True) untouched.
Proof. unfold select_pages. repeat keep_step atomic_tac. Qed.

Lemma atomic_process_selected_pages sel :
  hoare untouched (process_selected_pages E a sel) (fun _ _ => True) untouched.
Proof. unfold process_selected_pages. repeat keep_step atomic_tac. Qed.

Lemma atomic_save_annotation ann :
  hoare untouched (save_annotation a ann) (fun _ _ => True) untouched.
Proof. unfold save_annotation. repeat keep_step atomic_tac. Qed.

Lemma atomic_create_beo_from_pages data :
  hoare untouched (create_beo_from_pages E a data) (fun _ _ => True) untouched.
Proof. unfold create_beo_from_pages. repeat keep_step atomic_tac. Qed.

Lemma atomic_update_beo_metadata md :
  hoare untouched (update_beo_metadata E a md) (fun _ _ => True) untouched.
Proof. unfold update_beo_metadata. repeat keep_step atomic_tac. Qed.

Lemma atomic_reorder_beo ro :
  hoare untouched (reorder_beo E a ro) (fun _ _ => True) untouched.
Proof. unfold reorder_beo. repeat keep_step atomic_tac. Qed.

Lemma atomic_delete_beo sid :
  hoare untouched (delete_beo sid) (fun _ _ => True) untouched.
Proof. unfold delete_beo. repeat keep_step atomic_tac. Qed.

End Atomic.

Lemma run_request_atomic {A} (m : M A) (w : World) :
  hoare (fun c => committed c = db w) m (fun _ _ => True) (fun c => committed c = db w) ->
  http_status (fst (run_request m w)) <> 200 -> db (snd (run_request m w)) = db w.
Proof.
  intros H. unfold run_request.
  specialize (H (mk_ctx (db w) (db w) (files w)) eq_refl).
  destruct (m _) as [[r|e] c]; simpl; [congruence|]. intros _. exact H.
Qed.

(** X2.  Every mutating request is all-or-nothing on the tables.  When a
    request is answered with any status other than 200, the three tables
    are exactly what they were before it (files written before the failure
    stay on disk). *)
Theorem failed_request_keeps_tables (E : Env) (a : Ambient) (req : Request) (w : World) :
  respond E a req w <> 200 -> db (step E a req w) = db w.
Proof.
  destruct req; simpl; apply run_request_atomic.
  - apply atomic_upload_pdf.
  - apply atomic_upload_multiple_pdfs.
  - apply atomic_process_all_pages.
  - apply atomic_select_pages.
  - apply atomic_process_selected_pages.
  - apply atomic_save_annotation.
  - apply atomic_create_beo_from_pages.
  - apply atomic_update_beo_metadata.
  - apply atomic_reorder_beo.
  - apply atomic_delete_beo.
Qed.

Lemma failed_request_keeps_tables_witness :
  respond demo_env (demo_ambient 3)
    (ProcessSelectedPages (mk_page_selection "doc1-0" [0; -5])) split_world = 500
  /\ db (step demo_env (demo_ambient 3)
           (ProcessSelectedPages (mk_page_selection "doc1-0" [0; -5])) split_world)
     = db split_world.
Proof.
  split; [vm_compute; reflexivity|].
  apply failed_request_keeps_tables. vm_compute. discriminate.
Defined.

(** ** Keys, references and stored files *)

Section RowsInv.

Lemma In_beo_ids_app (l : list BEO.t) (row : BEO.t) (k : Z) :
  In k (map BEO.id l) -> In k (map BEO.id (l ++ [row])).
Proof. rewrite map_app, in_app_iff. auto. Qed.

Lemma rows_inv_add_beo (d : DB) (row : BEO.t) :
  rows_inv d -> BEO.id row = beos_seq d -> 0 <= BEO.total_pages row ->
  rows_inv (add_beo row d).
Proof.
  intros [Hb Hpo Hao Hpb Hpi Hpk Hpr Hab Hai Htp] Hid Htot. split; simpl; try assumption.
  - apply Forall_app. split.
    + eapply Forall_impl; [exact Hb|]. simpl. intros; lia.
    + constructor; [lia|constructor].
  - eapply Forall_impl; [exact Hpo|]. intros p. apply In_beo_ids_app.
  - eapply Forall_impl; [exact Hao|]. intros x. apply In_beo_ids_app.
  - rewrite Forall_forall in Hpr. rewrite Forall_forall in Hpo. rewrite Forall_forall in Hb.
    apply Forall_forall. intros p Hp.
    destruct (Hpr p Hp) as [H0 Hr]. split; [exact H0|].
    intros b Hin Hb'. apply in_app_iff in Hin as [Hin|[<-|[]]]; [auto|].
    exfalso. specialize (Hpo p Hp). unfold beo_ids in Hpo.
    apply in_map_iff in Hpo as (o & Ho & Hino).
    apply list_elem_of_In, Hb in Hino. lia.
  - apply Forall_app. split; [exact Htp|]. constructor; [exact Htot|constructor].
Qed.

Lemma rows_inv_update_beo (d : DB) (k : Z) (f : BEO.t -> BEO.t) :
  (forall b, BEO.id (f b) = BEO.id b /\ BEO.total_pages (f b) = BEO.total_pages b) ->
  rows_inv d ->
  rows_inv (with_beos (update_rows k f (beos d)) d).
Proof.
  intros Hf [Hb Hpo Hao Hpb Hpi Hpk Hpr Hab Hai Htp].
  assert (map BEO.id (update_rows k f (beos d)) = map BEO.id (beos d)) as Hids.
  { apply map_update_same. intros b. apply Hf. }
  split; simpl; try assumption.
  - apply Forall_map. eapply Forall_impl; [exact Hb|]. simpl. intros b Hlt.
    destruct (bool_decide _); [|exact Hlt]. destruct (Hf b) as [-> _]. exact Hlt.
  - unfold beo_ids. simpl. rewrite Hids. exact Hpo.
  - unfold beo_ids. simpl. rewrite Hids. exact Hao.
  - eapply Forall_impl; [exact Hpr|]. simpl. intros p [H0 Hr]. split; [exact H0|].
    intros b Hin Hb'. unfold update_rows in Hin. apply in_map_iff in Hin as (o & Ho & Hin).
    destruct (bool_decide (BEO.id o = k)); subst b.
    + destruct (Hf o) as [Hi Ht]. rewrite Ht. apply Hr; [exact Hin|congruence].
    + auto.
  - apply Forall_map. eapply Forall_impl; [exact Htp|]. simpl. intros b Hb0.
    destruct (bool_decide _); [|exact Hb0]. destruct (Hf b) as [_ ->]. exact Hb0.
Qed.

Lemma rows_inv_add_page (d : DB) (t : datetime) (p : BEOPage.t) :
  rows_inv d ->
  In (BEOPage.beo_id p) (beo_ids d) ->
  ~ In (page_key p) (map page_key (beo_pages d)) ->
  0 <= BEOPage.page_index p ->
  (forall b, In b (beos d) -> BEO.id b = BEOPage.beo_id p ->
             BEOPage.page_index p < BEO.total_pages b) ->
  rows_inv (mk_db (beos d)
              (beo_pages d ++ [BEOPage.set_id (beo_pages_seq d) (BEOPage.set_created_at t p)])
              (annotations d) (beos_seq d) (beo_pages_seq d + 1) (annotations_seq d)).
Proof.
  intros [Hb Hpo Hao Hpb Hpi Hpk Hpr Hab Hai Htp] Hown Hkey H0 Hrange.
  split; simpl; try assumption.
  - apply Forall_app. split; [exact Hpo|]. constructor; [exact Hown|constructor].
  - apply Forall_app. split.
    + eapply Forall_impl; [exact Hpb|]. simpl. intros; lia.
    + constructor; [simpl; lia|constructor].
  - rewrite map_app. simpl. apply NoDup_app. split; [exact Hpi|]. split.
    + intros x Hx Hx'. apply list_elem_of_In in Hx'. destruct Hx' as [<-|[]].
      apply list_elem_of_In, in_map_iff in Hx as (y & Hy & Hin).
      rewrite Forall_forall in Hpb. apply list_elem_of_In, Hpb in Hin. lia.
    + apply NoDup_singleton.
  - rewrite map_app. simpl. apply NoDup_app. split; [exact Hpk|]. split.
    + intros x Hx Hx'. apply list_elem_of_In in Hx'. destruct Hx' as [<-|[]].
      apply Hkey. apply list_elem_of_In. exact Hx.
    + apply NoDup_singleton.
  - apply Forall_app. split; [exact Hpr|]. constructor; [|constructor].
    split; [exact H0|exact Hrange].
Qed.

Lemma rows_inv_update_page (d : DB) (k : Z) (f : BEOPage.t -> BEOPage.t) :
  (forall p, BEOPage.id (f p) = BEOPage.id p /\ BEOPage.beo_id (f p) = BEOPage.beo_id p
             /\ BEOPage.page_index (f p) = BEOPage.page_index p) ->
  rows_inv d ->
  rows_inv (mk_db (beos d)
              (map (fun p => if bool_decide (BEOPage.id p = k) then f p else p) (beo_pages d))
              (annotations d) (beos_seq d) (beo_pages_seq d) (annotations_seq d)).
Proof.
  intros Hf [Hb Hpo Hao Hpb Hpi Hpk Hpr Hab Hai Htp]. split; simpl; try assumption.
  - apply Forall_map. eapply Forall_impl; [exact Hpo|]. simpl. intros p Hp.
    destruct (bool_decide _); [|exact Hp]. destruct (Hf p) as (_ & -> & _). exact Hp.
  - apply Forall_map. eapply Forall_impl; [exact Hpb|]. simpl. intros p Hp.
    destruct (bool_decide _); [|exact Hp]. destruct (Hf p) as (-> & _). exact Hp.
  - rewrite (map_update_same BEOPage.id); [exact Hpi|]. intros p. apply Hf.
  - rewrite (map_update_same page_key); [exact Hpk|]. intros p. unfold page_key.
    destruct (Hf p) as (_ & -> & ->). reflexivity.
  - apply Forall_map. eapply Forall_impl; [exact Hpr|]. simpl. intros p Hp.
    destruct (bool_decide _); [|exact Hp]. destruct (Hf p) as (_ & -> & ->). exact Hp.
Qed.

Lemma rows_inv_filter_pages (d : DB) (q : BEOPage.t -> bool) :
  rows_inv d ->
  rows_inv (mk_db (beos d) (List.filter q (beo_pages d)) (annotations d)
              (beos_seq d) (beo_pages_seq d) (annotations_seq d)).
Proof.
  intros [Hb Hpo Hao Hpb Hpi Hpk Hpr Hab Hai Htp]. split; simpl; try assumption;
    auto using Forall_filter_bool, NoDup_map_filter.
Qed.

Lemma rows_inv_add_annotation (d : DB) (t : datetime) (x : Annotation.t) :
  rows_inv d -> In (Annotation.beo_id x) (beo_ids d) ->
  rows_inv (mk_db (beos d) (beo_pages d)
              (annotations d ++
               [Annotation.set_id (annotations_seq d)
                  (Annotation.set_created_at t (Annotation.set_updated_at t x))])
              (beos_seq d) (beo_pages_seq d) (annotations_seq d + 1)).
Proof.
  intros [Hb Hpo Hao Hpb Hpi Hpk Hpr Hab Hai Htp] Hown. split; simpl; try assumption.
  - apply Forall_app. split; [exact Hao|]. constructor; [exact Hown|constructor].
  - apply Forall_app. split.
    + eapply Forall_impl; [exact Hab|]. simpl. intros; lia.
    + constructor; [simpl; lia|constructor].
  - rewrite map_app. simpl. apply NoDup_app. split; [exact Hai|]. split.
    + intros y Hy Hy'. apply list_elem_of_In in Hy'. destruct Hy' as [<-|[]].
      apply list_elem_of_In, in_map_iff in Hy as (z & Hz & Hin).
      rewrite Forall_forall in Hab. apply list_elem_of_In, Hab in Hin. lia.
    + apply NoDup_singleton.
Qed.

Lemma rows_inv_update_annotation (d : DB) (k : Z) (f : Annotation.t -> Annotation.t) :
  (forall x, Annotation.id (f x) = Annotation.id x
             /\ Annotation.beo_id (f x) = Annotation.beo_id x) ->
  rows_inv d ->
  rows_inv (mk_db (beos d) (beo_pages d)
              (map (fun x => if bool_decide (Annotation.id x = k) then f x else x)
                 (annotations d))
              (beos_seq d) (beo_pages_seq d) (annotations_seq d)).
Proof.
  intros Hf [Hb Hpo Hao Hpb Hpi Hpk Hpr Hab Hai Htp]. split; simpl; try assumption.
  - apply Forall_map. eapply Forall_impl; [exact Hao|]. simpl. intros x Hx.
    destruct (bool_decide _); [|exact Hx]. destruct (Hf x) as (_ & ->). exact Hx.
  - apply Forall_map. eapply Forall_impl; [exact Hab|]. simpl. intros x Hx.
    destruct (bool_decide _); [|exact Hx]. destruct (Hf x) as (-> & _). exact Hx.
  - rewrite (map_update_same Annotation.id); [exact Hai|]. intros x. apply Hf.
Qed.

Lemma rows_inv_filter_annotations (d : DB) (q : Annotation.t -> bool) :
  rows_inv d ->
  rows_inv (mk_db (beos d) (beo_pages d) (List.filter q (annotations d))
              (beos_seq d) (beo_pages_seq d) (annotations_seq d)).
Proof.
  intros [Hb Hpo Hao Hpb Hpi Hpk Hpr Hab Hai Htp]. split; simpl; try assumption;
    auto using Forall_filter_bool, NoDup_map_filter.
Qed.

Lemma rows_inv_delete_beo_row (d : DB) (k : Z) :
  rows_inv d ->
  rows_inv (mk_db (List.filter (fun b => negb (bool_decide (BEO.id b = k))) (beos d))
              (List.filter (fun p => negb (bool_decide (BEOPage.beo_id p = k))) (beo_pages d))
              (List.filter (fun x => negb (bool_decide (Annotation.beo_id x = k)))
                 (annotations d))
              (beos_seq d) (beo_pages_seq d) (annotations_seq d)).
Proof.
  intros [Hb Hpo Hao Hpb Hpi Hpk Hpr Hab Hai Htp].
  assert (forall j, j <> k -> In j (beo_ids d) ->
            In j (map BEO.id (List.filter (fun b => negb (bool_decide (BEO.id b = k)))
                                (beos d)))) as Hkeep.
  { intros j Hj Hin. unfold beo_ids in Hin. apply in_map_iff in Hin as (b & <- & Hin).
    apply in_map_iff. exists b. split; [reflexivity|]. apply filter_In. split; [exact Hin|].
    apply negb_true_iff, bool_decide_eq_false. exact Hj. }
  split; simpl; auto using Forall_filter_bool, NoDup_map_filter.
  - apply Forall_forall. intros p Hp. apply list_elem_of_In, filter_In in Hp as [Hp Hk].
    apply negb_true_iff, bool_decide_eq_false in Hk.
    rewrite Forall_forall in Hpo. apply Hkeep; [exact Hk|].
    apply Hpo, list_elem_of_In, Hp.
  - apply Forall_forall. intros x Hx. apply list_elem_of_In, filter_In in Hx as [Hx Hk].
    apply negb_true_iff, bool_decide_eq_false in Hk.
    rewrite Forall_forall in Hao. apply Hkeep; [exact Hk|].
    apply Hao, list_elem_of_In, Hx.
  - apply Forall_filter_bool. eapply Forall_impl; [exact Hpr|]. simpl.
    intros p [H0 Hr]. split; [exact H0|]. intros b Hin. apply filter_In in Hin as [Hin _].
    auto.
Qed.

End RowsInv.

Section PathsInv.

Lemma stored_write (dir : Dir) (name : string) (data : bytes) (f : Files) :
  stored dir name (write_file dir name data f).
Proof.
  unfold stored. destruct dir; simpl; rewrite lookup_insert_eq; eexists; reflexivity.
Qed.

Lemma files_kept_write (dir : Dir) (name : string) (data : bytes) (f : Files) :
  files_kept f (write_file dir name data f).
Proof.
  intros dir' name' H. unfold stored in *.
  destruct dir, dir'; simpl in *; try exact H;
    (destruct (decide (name = name')) as [->|Hne];
       [rewrite lookup_insert_eq; eexists; reflexivity
       |rewrite lookup_insert_ne by exact Hne; exact H]).
Qed.

Lemma files_kept_refl (f : Files) : files_kept f f.
Proof. intros dir name H. exact H. Qed.

Lemma files_kept_trans (f g h : Files) : files_kept f g -> files_kept g h -> files_kept f h.
Proof. intros H1 H2 dir name H. apply H2, H1, H. Qed.

Lemma paths_inv_kept (d : DB) (f g : Files) :
  files_kept f g -> paths_inv d f -> paths_inv d g.
Proof.
  intros Hk [Ht Hh]. split.
  - eapply Forall_impl; [exact Ht|]. simpl. intros p (n & Hn & Hs).
    exists n. split; [exact Hn|]. apply Hk, Hs.
  - eapply Forall_impl; [exact Hh|]. simpl. intros p Hp h Hph. apply Hk, Hp, Hph.
Qed.

Lemma paths_inv_same_pages (d d' : DB) (f : Files) :
  beo_pages d' = beo_pages d -> paths_inv d f -> paths_inv d' f.
Proof. intros Heq [Ht Hh]. split; rewrite Heq; assumption. Qed.

Lemma paths_inv_add_page (d : DB) (f : Files) (row : BEOPage.t) (l : list BEO.t)
    (xs : list Annotation.t) (s1 s2 s3 : Z) :
  paths_inv d f ->
  (exists n, BEOPage.thumbnail_path row = Some n /\ stored THUMBNAILS_DIR n f) ->
  (forall h, BEOPage.high_res_path row = Some h -> stored HIGH_RES_DIR h f) ->
  paths_inv (mk_db l (beo_pages d ++ [row]) xs s1 s2 s3) f.
Proof.
  intros [Ht Hh] Hthumb Hhigh. split; simpl; apply Forall_app; split; auto.
Qed.

Lemma paths_inv_set_high_res (d : DB) (f : Files) (k : Z) (h : string) (l : list BEO.t)
    (xs : list Annotation.t) (s1 s2 s3 : Z) :
  paths_inv d f -> stored HIGH_RES_DIR h f ->
  paths_inv (mk_db l
               (map (fun p => if bool_decide (BEOPage.id p = k)
                              then BEOPage.set_high_res_path (Some h) p else p)
                  (beo_pages d))
               xs s1 s2 s3) f.
Proof.
  intros [Ht Hh] Hs. split; simpl; apply Forall_map.
  - eapply Forall_impl; [exact Ht|]. simpl. intros p Hp. destruct (bool_decide _); exact Hp.
  - eapply Forall_impl; [exact Hh|]. simpl. intros p Hp.
    destruct (bool_decide _); [|exact Hp]. simpl. intros h' [= <-]. exact Hs.
Qed.

Lemma paths_inv_filter_pages (d : DB) (f : Files) (q : BEOPage.t -> bool) (l : list BEO.t)
    (xs : list Annotation.t) (s1 s2 s3 : Z) :
  paths_inv d f -> paths_inv (mk_db l (List.filter q (beo_pages d)) xs s1 s2 s3) f.
Proof. intros [Ht Hh]. split; simpl; apply Forall_filter_bool; assumption. Qed.

Lemma good_kept (d : DB) (f g : Files) : files_kept f g -> good d f -> good d g.
Proof. intros Hk [Hr Hp]. split; [exact Hr|]. eapply paths_inv_kept; eauto. Qed.

Lemma good_empty : good empty_db empty_files.
Proof. split; split; simpl; constructor. Qed.

End PathsInv.

(** The loop rules for [enumerate], with an invariant that knows the
    index. *)
Lemma hoare_fold_enumerate {A B} (J : Z -> Ctx -> Prop) (R : Ctx -> Prop)
    (body : B -> Z * A -> M B) (l : list A) :
  forall k0,
    (forall k acc x, k0 <= k < k0 + len l ->
       hoare (J k) (body acc (k, x)) (fun _ => J (k + 1)) R) ->
    forall acc, hoare (J k0) (fold_loop (enumerate_from k0 l) acc body)
                  (fun _ => J (k0 + len l)) R.
Proof.
  induction l as [|x l IH]; intros k0 Hbody acc; simpl.
  - intros c Hc. unfold len. simpl. rewrite Z.add_0_r. exact Hc.
  - assert (len (x :: l) = len l + 1) as Hlen by (unfold len; simpl length; lia).
    eapply hoare_bind; [apply Hbody; unfold len; simpl length; lia|].
    intros acc'. rewrite Hlen. replace (k0 + (len l + 1)) with (k0 + 1 + len l) by lia.
    apply IH. intros k acc0 y Hk. apply Hbody. lia.
Qed.

Lemma hoare_for_each_enumerate {A} (J : Z -> Ctx -> Prop) (R : Ctx -> Prop)
    (body : Z * A -> M unit) (l : list A) :
  forall k0,
    (forall k x, k0 <= k < k0 + len l -> hoare (J k) (body (k, x)) (fun _ => J (k + 1)) R) ->
    hoare (J k0) (for_each (enumerate_from k0 l) body) (fun _ => J (k0 + len l)) R.
Proof.
  induction l as [|x l IH]; intros k0 Hbody; simpl.
  - intros c Hc. unfold len. simpl. rewrite Z.add_0_r. exact Hc.
  - assert (len (x :: l) = len l + 1) as Hlen by (unfold len; simpl length; lia).
    eapply hoare_bind; [apply Hbody; unfold len; simpl length; lia|].
    intros ?. rewrite Hlen. replace (k0 + (len l + 1)) with (k0 + 1 + len l) by lia.
    apply IH. intros k y Hk. apply Hbody. lia.
Qed.

Section Good.

Context (E : Env) (a : Ambient).

Lemma good_save_file (data : bytes) (dir : Dir) (name : string) :
  hoare ctx_good (save_file data dir name) (fun _ => ctx_good) ctx_good.
Proof.
  intros c [Hc Hs]. split; simpl; eapply good_kept; eauto using files_kept_write.
Qed.

Lemma good_commit : hoare ctx_good db_commit (fun _ => ctx_good) ctx_good.
Proof. intros c [_ Hs]. split; exact Hs. Qed.

Lemma good_rollback : hoare ctx_good db_rollback (fun _ => ctx_good) ctx_good.
Proof. intros c [Hc _]. split; exact Hc. Qed.

Lemma good_update_beo (k : Z) (f : BEO.t -> BEO.t) :
  (forall b, BEO.id (f b) = BEO.id b /\ BEO.total_pages (f b) = BEO.total_pages b) ->
  hoare ctx_good (update_beo k f) (fun _ => ctx_good) ctx_good.
Proof.
  intros Hf c [Hc [Hr Hp]]. split; [exact Hc|]. split.
  - apply (rows_inv_update_beo (session c) k f Hf Hr).
  - eapply paths_inv_same_pages; [|exact Hp]. reflexivity.
Qed.

Lemma good_update_annotation (k : Z) (f : Annotation.t -> Annotation.t) :
  (forall x, Annotation.id (f x) = Annotation.id x
             /\ Annotation.beo_id (f x) = Annotation.beo_id x) ->
  hoare ctx_good (update_annotation k f) (fun _ => ctx_good) ctx_good.
Proof.
  intros Hf c [Hc [Hr Hp]]. split; [exact Hc|]. split.
  - apply (rows_inv_update_annotation (session c) k f Hf Hr).
  - eapply paths_inv_same_pages; [|exact Hp]. reflexivity.
Qed.

Lemma good_delete_pages (q : BEOPage.t -> bool) :
  hoare ctx_good (delete_pages q) (fun _ => ctx_good) ctx_good.
Proof.
  intros c [Hc [Hr Hp]]. split; [exact Hc|]. split.
  - apply rows_inv_filter_pages. exact Hr.
  - apply paths_inv_filter_pages. exact Hp.
Qed.

Lemma good_delete_annotations (q : Annotation.t -> bool) :
  hoare ctx_good (delete_annotations q) (fun _ => ctx_good) ctx_good.
Proof.
  intros c [Hc [Hr Hp]]. split; [exact Hc|]. split.
  - apply rows_inv_filter_annotations. exact Hr.
  - eapply paths_inv_same_pages; [|exact Hp]. reflexivity.
Qed.

Lemma good_delete_beo_row (k : Z) :
  hoare ctx_good (delete_beo_row k) (fun _ => ctx_good) ctx_good.
Proof.
  intros c [Hc [Hr Hp]]. split; [exact Hc|]. split.
  - apply rows_inv_delete_beo_row. exact Hr.
  - apply paths_inv_filter_pages. exact Hp.
Qed.

(** After the flush the new document is in the table and owns no page. *)
Lemma good_add_flush_beo (t : datetime) (b : BEO.t) :
  0 <= BEO.total_pages b ->
  hoare ctx_good (add_flush_beo t b)
    (fun row c => filling (BEO.id row) (BEO.total_pages b) 0 c) ctx_good.
Proof.
  intros Htot c [Hc [Hr Hp]]. unfold add_flush_beo. mrun.
  destruct (existsb _ _); mrun; [split; [exact Hc|split; assumption]|].
  set (row := BEO.set_id _ _).
  split; [split; [exact Hc|split]|split; [|split; [|split]]]; cbn [session committed disk].
  - apply (rows_inv_add_beo (session c) row Hr); [reflexivity|exact Htot].
  - eapply paths_inv_same_pages; [|exact Hp]. reflexivity.
  - unfold beo_ids. simpl. rewrite map_app, in_app_iff. right. left. reflexivity.
  - simpl. intros o Hin Hid. apply in_app_iff in Hin as [Hin|[<-|[]]]; [|simpl; lia].
    exfalso. pose proof (ri_beo_below _ Hr) as Hb. rewrite Forall_forall in Hb.
    apply list_elem_of_In, Hb in Hin. simpl in Hid. lia.
  - simpl. pose proof (ri_page_owner _ Hr) as Hpo. pose proof (ri_beo_below _ Hr) as Hb.
    eapply Forall_impl; [exact Hpo|]. simpl. intros p Hin Hid. exfalso.
    unfold beo_ids in Hin. apply in_map_iff in Hin as (o & Ho & Hin).
    rewrite Forall_forall in Hb. apply list_elem_of_In, Hb in Hin. lia.
  - lia.
Qed.

(** One more page of the document being filled. *)
Lemma filling_add_page (beo_id n k : Z) (c : Ctx) (p : BEOPage.t) (files' : Files) :
  filling beo_id n k c -> k < n -> files_kept (disk c) files' ->
  BEOPage.beo_id p = beo_id -> BEOPage.page_index p = k ->
  (exists nm, BEOPage.thumbnail_path p = Some nm /\ stored THUMBNAILS_DIR nm files') ->
  (forall h, BEOPage.high_res_path p = Some h -> stored HIGH_RES_DIR h files') ->
  filling beo_id n (k + 1)
    (mk_ctx (committed c)
       (mk_db (beos (session c))
          (beo_pages (session c)
           ++ [BEOPage.set_id (beo_pages_seq (session c))
                 (BEOPage.set_created_at (utcnow a) p)])
          (annotations (session c))
          (beos_seq (session c)) (beo_pages_seq (session c) + 1)
          (annotations_seq (session c)))
       files').
Proof.
  intros ([Hc [Hr Hp]] & Hown & Htot & Hbelow & Hk0) Hkn Hkept Hbid Hidx Hthumb Hhigh.
  split; [split|split; [|split; [|split]]]; cbn [session committed disk beos beo_pages].
  - eapply good_kept; eauto.
  - split.
    + apply rows_inv_add_page; try assumption.
      * rewrite Hbid. exact Hown.
      * intros Hin. apply in_map_iff in Hin as (q & Hq & Hin).
        rewrite Forall_forall in Hbelow. apply list_elem_of_In in Hin.
        specialize (Hbelow q Hin). unfold page_key in Hq. injection Hq as Hq1 Hq2.
        specialize (Hbelow (eq_trans Hq1 Hbid)). lia.
      * lia.
      * intros b Hin Hb. rewrite Hidx. specialize (Htot b Hin). rewrite Hbid in Hb.
        specialize (Htot Hb). lia.
    + apply paths_inv_add_page; [eapply paths_inv_kept; eauto| |]; assumption.
  - exact Hown.
  - exact Htot.
  - apply Forall_app. split.
    + eapply Forall_impl; [exact Hbelow|]. simpl. intros q Hq Hqid. specialize (Hq Hqid). lia.
    + constructor; [|constructor]. simpl. intros _. lia.
  - lia.
Qed.

End Good.

Section GoodHandlers.

Context (E : Env) (a : Ambient).

Lemma filling_good (beo_id n k : Z) (c : Ctx) : filling beo_id n k c -> ctx_good c.
Proof. intros H. apply H. Qed.

Lemma ctx_good_write (c : Ctx) (dir : Dir) (name : string) (data : bytes) :
  ctx_good c -> ctx_good (mk_ctx (committed c) (session c) (write_file dir name data (disk c))).
Proof. apply (good_save_file data dir name c). Qed.

Lemma filling_next (beo_id n k : Z) (c : Ctx) :
  filling beo_id n k c -> filling beo_id n (k + 1) c.
Proof.
  intros (Hg & Hown & Htot & Hbelow & Hk). repeat split; try assumption; try apply Hg; [|lia].
  eapply Forall_impl; [exact Hbelow|]. simpl. intros p Hp Hid. specialize (Hp Hid). lia.
Qed.

Lemma good_flush_then {A B} (t : datetime) (b : BEO.t) (loop : BEO.t -> M A)
    (rest : BEO.t -> A -> M B) :
  0 <= BEO.total_pages b ->
  (forall row, hoare (filling (BEO.id row) (BEO.total_pages b) 0) (loop row)
                 (fun _ => ctx_good) ctx_good) ->
  (forall row x, hoare ctx_good (rest row x) (fun _ => ctx_good) ctx_good) ->
  hoare ctx_good (row <- add_flush_beo t b ;; x <- loop row ;; rest row x)
    (fun _ => ctx_good) ctx_good.
Proof.
  intros Htot Hloop Hrest. eapply hoare_bind; [apply good_add_flush_beo; exact Htot|].
  intros row. eapply hoare_bind; [apply Hloop|]. intros x. apply Hrest.
Qed.

Lemma good_thumbnail_loop (sid : string) (beo : BEO.t) (images : list Image)
    (acc : list string) :
  hoare (filling (BEO.id beo) (len images) 0)
    (fold_loop (enumerate images) acc (thumbnail_step E a sid beo))
    (fun _ => ctx_good) ctx_good.
Proof.
  eapply hoare_conseq;
    [apply (hoare_fold_enumerate (filling (BEO.id beo) (len images)) ctx_good) | | |];
    [|auto|intros ? c Hc; apply (filling_good _ _ _ _ Hc)|auto].
  intros k acc' img Hk c Hc. unfold thumbnail_step. mrun.
  destruct (img_save E img 60) as [buffered|e]; mrun; [|apply (filling_good _ _ _ _ Hc)].
  apply (filling_add_page a (BEO.id beo) (len images) k c
           (new_BEOPage (BEO.id beo) k k
              (Some (sid +:+ "_thumb_" +:+ PyStr.str_int k +:+ ".jpg")) None));
    try reflexivity; try assumption; try lia.
  - apply files_kept_write.
  - eexists. split; [reflexivity|]. apply stored_write.
  - discriminate.
Qed.

(** The two files written for a page that is created at high
    resolution. *)
Lemma filling_add_high_res (beo_id n k : Z) (c : Ctx) (sid : string) (original : Z)
    (high thumb : bytes) :
  filling beo_id n k c -> k < n ->
  filling beo_id n (k + 1)
    (mk_ctx (committed c)
       (mk_db (beos (session c))
          (beo_pages (session c)
           ++ [BEOPage.set_id (beo_pages_seq (session c))
                 (BEOPage.set_created_at (utcnow a)
                    (new_BEOPage beo_id k original
                       (Some (sid +:+ "_thumb_" +:+ PyStr.str_int k +:+ ".jpg"))
                       (Some (sid +:+ "_highres_" +:+ PyStr.str_int k +:+ ".jpg"))))])
          (annotations (session c))
          (beos_seq (session c)) (beo_pages_seq (session c) + 1)
          (annotations_seq (session c)))
       (write_file THUMBNAILS_DIR (sid +:+ "_thumb_" +:+ PyStr.str_int k +:+ ".jpg") thumb
          (write_file HIGH_RES_DIR (sid +:+ "_highres_" +:+ PyStr.str_int k +:+ ".jpg") high
             (disk c)))).
Proof.
  intros Hc Hk.
  apply (filling_add_page a beo_id n k c
           (new_BEOPage beo_id k original
              (Some (sid +:+ "_thumb_" +:+ PyStr.str_int k +:+ ".jpg"))
              (Some (sid +:+ "_highres_" +:+ PyStr.str_int k +:+ ".jpg"))));
    try reflexivity; try assumption.
  - eapply files_kept_trans; apply files_kept_write.
  - eexists. split; [reflexivity|]. apply stored_write.
  - intros h [= <-]. apply files_kept_write. apply stored_write.
Qed.

Lemma good_all_pages_loop (pdf : bytes) (sid : string) (beo : BEO.t) (images : list Image) :
  hoare (filling (BEO.id beo) (len images) 0)
    (for_each (enumerate images) (all_pages_step E a pdf sid beo))
    (fun _ => ctx_good) ctx_good.
Proof.
  eapply hoare_conseq;
    [apply (hoare_for_each_enumerate (filling (BEO.id beo) (len images)) ctx_good) | | |];
    [|auto|intros ? c Hc; apply (filling_good _ _ _ _ Hc)|auto].
  intros k img Hk c Hc. unfold all_pages_step. mrun.
  destruct (img_save E img 95) as [buffered|e]; mrun; [|apply (filling_good _ _ _ _ Hc)].
  assert (ctx_good
            (mk_ctx (committed c) (session c)
               (write_file HIGH_RES_DIR
                  (sid +:+ "_highres_" +:+ PyStr.str_int k +:+ ".jpg") buffered (disk c))))
    as Hg1.
  { apply ctx_good_write, (filling_good _ _ _ _ Hc). }
  destruct (convert_from_bytes E pdf 75 _) as [thumbs|e]; mrun; [|exact Hg1].
  destruct (py_index thumbs 0) as [thumb_img|e]; mrun; [|exact Hg1].
  destruct (img_save E thumb_img 60) as [thumb_buffered|e]; mrun; [|exact Hg1].
  apply filling_add_high_res; [exact Hc|lia].
Qed.

Lemma good_create_pages_loop (pdf : bytes) (sid : string) (beo : BEO.t)
    (images : list Image) (indices : list Z) :
  hoare (filling (BEO.id beo) (len indices) 0)
    (for_each (enumerate indices) (create_page_step E a pdf sid beo images))
    (fun _ => ctx_good) ctx_good.
Proof.
  eapply hoare_conseq;
    [apply (hoare_for_each_enumerate (filling (BEO.id beo) (len indices)) ctx_good) | | |];
    [|auto|intros ? c Hc; apply (filling_good _ _ _ _ Hc)|auto].
  intros k original Hk c Hc. unfold create_page_step.
  destruct (original <? len images); [|apply filling_next; exact Hc]. mrun.
  destruct (py_index images original) as [img|e]; mrun; [|apply (filling_good _ _ _ _ Hc)].
  destruct (img_save E img 95) as [buffered|e]; mrun; [|apply (filling_good _ _ _ _ Hc)].
  assert (ctx_good
            (mk_ctx (committed c) (session c)
               (write_file HIGH_RES_DIR
                  (sid +:+ "_highres_" +:+ PyStr.str_int k +:+ ".jpg") buffered (disk c))))
    as Hg1.
  { apply ctx_good_write, (filling_good _ _ _ _ Hc). }
  destruct (convert_from_bytes E pdf 75 _) as [thumbs|e]; mrun; [|exact Hg1].
  destruct (py_index thumbs 0) as [thumb_img|e]; mrun; [|exact Hg1].
  destruct (img_save E thumb_img 60) as [thumb_buffered|e]; mrun; [|exact Hg1].
  apply filling_add_high_res; [exact Hc|lia].
Qed.

Lemma good_selected_page_step (selection : PageSelection) (beo : BEO.t)
    (images : list Image) (acc : gmap Z string) (i : Z) :
  hoare ctx_good (selected_page_step E selection beo images acc i)
    (fun _ => ctx_good) ctx_good.
Proof.
  intros c Hc. unfold selected_page_step.
  destruct (i <? len images); [|exact Hc]. mrun.
  destruct (py_index images i) as [img|e]; mrun; [|exact Hc].
  destruct (img_save E img 95) as [buffered|e]; mrun; [|exact Hc].
  set (name := ps_session_id selection +:+ "_highres_" +:+ PyStr.str_int i +:+ ".jpg").
  destruct Hc as [Hgc [Hr Hp]].
  assert (good (committed c) (write_file HIGH_RES_DIR name buffered (disk c))) as Hgc'.
  { eapply good_kept; eauto using files_kept_write. }
  assert (paths_inv (session c) (write_file HIGH_RES_DIR name buffered (disk c))) as Hp'.
  { eapply paths_inv_kept; eauto using files_kept_write. }
  destruct (List.find _ _) as [page|]; mrun.
  - split; [exact Hgc'|]. split.
    + apply (rows_inv_update_page (session c) (BEOPage.id page)
               (BEOPage.set_high_res_path (Some name))); [|exact Hr].
      intros p. repeat split.
    + apply paths_inv_set_high_res; [exact Hp'|]. apply stored_write.
  - split; [exact Hgc'|]. split; assumption.
Qed.

Lemma find_beo_owner (q : BEO.t -> bool) (d : DB) (beo : BEO.t) :
  List.find q (beos d) = Some beo -> In (BEO.id beo) (beo_ids d).
Proof.
  intros H. apply find_some in H as [H _]. unfold beo_ids. apply in_map. exact H.
Qed.

(** The assignments of the handlers keep the primary key and the page
    count of the row. *)
Ltac setter_ok :=
  let b := fresh "b" in
  intros b; unfold reposition; try destruct (bool_decide _); split; reflexivity.

Ltac good_tac :=
  idtac;
  lazymatch goal with
  | |- hoare _ (bind (add_flush_beo _ _) _) _ _ =>
      apply good_flush_then; [unfold len; simpl; lia | intros ? | intros ? ?]
  | |- hoare _ (fold_loop (enumerate _) _ (thumbnail_step _ _ _ _)) _ _ =>
      apply good_thumbnail_loop
  | |- hoare _ (for_each (enumerate _) (all_pages_step _ _ _ _ _)) _ _ =>
      apply good_all_pages_loop
  | |- hoare _ (for_each (enumerate _) (create_page_step _ _ _ _ _ _)) _ _ =>
      apply good_create_pages_loop
  | |- hoare _ (selected_page_step _ _ _ _ _ _) _ _ => apply good_selected_page_step
  | |- hoare _ (save_file _ _ _) _ _ => apply good_save_file
  | |- hoare _ db_commit _ _ => apply good_commit
  | |- hoare _ db_rollback _ _ => apply good_rollback
  | |- hoare _ (update_beo _ _) _ _ => apply good_update_beo; setter_ok
  | |- hoare _ (update_annotation _ _) _ _ => apply good_update_annotation; setter_ok
  | |- hoare _ (delete_pages _) _ _ => apply good_delete_pages
  | |- hoare _ (delete_annotations _) _ _ => apply good_delete_annotations
  | |- hoare _ (delete_beo_row _) _ _ => apply good_delete_beo_row
  end.

Lemma good_upload_pdf file file_type :
  hoare ctx_good (upload_pdf E a file file_type) (fun _ => ctx_good) ctx_good.
Proof. unfold upload_pdf. repeat keep_step good_tac. Qed.

Lemma good_upload_multiple_pdfs fs infos :
  hoare ctx_good (upload_multiple_pdfs E a fs infos) (fun _ => ctx_good) ctx_good.
Proof. unfold upload_multiple_pdfs. repeat keep_step good_tac. Qed.

Lemma good_process_all_pages ids :
  hoare ctx_good (process_all_pages E a ids) (fun _ => ctx_good) ctx_good.
Proof. unfold process_all_pages. repeat keep_step good_tac. Qed.

Lemma good_select_pages sel :
  hoare ctx_good (select_pages a sel) (fun _ => ctx_good) ctx_good.
Proof. unfold select_pages. repeat keep_step good_tac. Qed.

Lemma good_process_selected_pages sel :
  hoare ctx_good (process_selected_pages E a sel) (fun _ => ctx_good) ctx_good.
Proof. unfold process_selected_pages. repeat keep_step good_tac. Qed.

Lemma good_save_annotation ann :
  hoare ctx_good (save_annotation a ann) (fun _ => ctx_good) ctx_good.
Proof.
  unfold save_annotation.
  eapply hoare_bind with
    (Q1 := fun o c => ctx_good c
                      /\ forall b, o = Some b -> In (BEO.id b) (beo_ids (session c))).
  { intros c Hc. simpl. split; [exact Hc|]. intros b Hb. eapply find_beo_owner, Hb. }
  intros [beo|]; [|apply hoare_raise; tauto].
  eapply hoare_bind with
    (Q1 := fun _ c => ctx_good c /\ In (BEO.id beo) (beo_ids (session c))).
  { intros c [Hc Ho]. simpl. split; [exact Hc|]. apply Ho. reflexivity. }
  intros [existing|].
  - eapply hoare_conseq with (P' := ctx_good) (Q' := fun _ => ctx_good) (R' := ctx_good);
      [|tauto|auto|auto].
    repeat keep_step good_tac.
  - eapply hoare_bind with (Q1 := fun _ => ctx_good).
    + intros c [[Hc [Hr Hp]] Ho]. split; [exact Hc|]. split.
      * apply (rows_inv_add_annotation (session c)); [exact Hr|exact Ho].
      * eapply paths_inv_same_pages; [|exact Hp]. reflexivity.
    + intros ?. repeat keep_step good_tac.
Qed.

Lemma good_create_beo_from_pages data :
  hoare ctx_good (create_beo_from_pages E a data) (fun _ => ctx_good) ctx_good.
Proof. unfold create_beo_from_pages. repeat keep_step good_tac. Qed.

Lemma good_update_beo_metadata md :
  hoare ctx_good (update_beo_metadata E a md) (fun _ => ctx_good) ctx_good.
Proof. unfold update_beo_metadata. repeat keep_step good_tac. Qed.

Lemma good_reorder_beo ro :
  hoare ctx_good (reorder_beo E a ro) (fun _ => ctx_good) ctx_good.
Proof. unfold reorder_beo. repeat keep_step good_tac. Qed.

Lemma good_delete_beo sid :
  hoare ctx_good (delete_beo sid) (fun _ => ctx_good) ctx_good.
Proof. unfold delete_beo. repeat keep_step good_tac. Qed.

End GoodHandlers.

Lemma run_request_good {A} (E : Env) (m : M A) (w : World) :
  hoare ctx_good m (fun _ => ctx_good) ctx_good ->
  good (db w) (files w) ->
  good (db (snd (run_request m w))) (files (snd (run_request m w))).
Proof.
  intros Hm Hw. unfold run_request.
  specialize (Hm (mk_ctx (db w) (db w) (files w)) (conj Hw Hw)).
  destruct (m _) as [[r|e] c]; simpl; apply Hm.
Qed.

Lemma step_good (E : Env) (a : Ambient) (req : Request) (w : World) :
  good (db w) (files w) -> good (db (step E a req w)) (files (step E a req w)).
Proof.
  intros Hw. destruct req; simpl; apply (run_request_good E); auto.
  - apply good_upload_pdf.
  - apply good_upload_multiple_pdfs.
  - apply good_process_all_pages.
  - apply good_select_pages.
  - apply good_process_selected_pages.
  - apply good_save_annotation.
  - apply good_create_beo_from_pages.
  - apply good_update_beo_metadata.
  - apply good_reorder_beo.
  - apply good_delete_beo.
Qed.

Lemma reachable_good (E : Env) (w : World) : reachable E w -> good (db w) (files w).
Proof.
  induction 1 as [|a req w Hw IH].
  - apply good_empty.
  - apply step_good. exact IH.
Qed.

(** ** What the requests do to the storage directories *)

Section Storage.

Context (E : Env) (a : Ambient).

Section Kept.

Context (f0 : Files).

Local Abbreviation keeps := (fun c : Ctx => files_kept f0 (disk c)).

Ltac kept_tac :=
  idtac;
  lazymatch goal with
  | |- hoare _ (save_file _ _ _) _ _ =>
      let c := fresh "c" in let Hc := fresh "Hc" in
      intros c Hc; exact (files_kept_trans _ _ _ Hc (files_kept_write _ _ _ _))
  | |- hoare _ (bind _ _) _ _ => fail
  | |- hoare _ (try_except _ _) _ _ => fail
  | |- hoare _ (fold_loop _ _ _) _ _ => fail
  | |- hoare _ (for_each _ _) _ _ => fail
  | |- hoare _ ?m _ _ =>
      apply (keep_by disk (files_kept f0) m); intros ?; solve [prim_run]
  end.

Lemma kept_upload_pdf file file_type :
  hoare keeps (upload_pdf E a file file_type) (fun _ => keeps) keeps.
Proof. unfold upload_pdf. repeat keep_step kept_tac. Qed.

Lemma kept_upload_multiple_pdfs fs infos :
  hoare keeps (upload_multiple_pdfs E a fs infos) (fun _ => keeps) keeps.
Proof. unfold upload_multiple_pdfs. repeat keep_step kept_tac. Qed.

Lemma kept_process_all_pages ids :
  hoare keeps (process_all_pages E a ids) (fun _ => keeps) keeps.
Proof. unfold process_all_pages. repeat keep_step kept_tac. Qed.

Lemma kept_process_selected_pages sel :
  hoare keeps (process_selected_pages E a sel) (fun _ => keeps) keeps.
Proof. unfold process_selected_pages. repeat keep_step kept_tac. Qed.

Lemma kept_create_beo_from_pages data :
  hoare keeps (create_beo_from_pages E a data) (fun _ => keeps) keeps.
Proof. unfold create_beo_from_pages. repeat keep_step kept_tac. Qed.

End Kept.

Section Untouched.

Context {X : Type} (proj : Files -> X) (x0 : X).

Local Abbreviation same := (fun c : Ctx => proj (disk c) = x0).

Hypothesis proj_high_res : forall name data f, proj (write_file HIGH_RES_DIR name data f) = proj f.
Hypothesis proj_thumbnails :
  forall name data f, proj (write_file THUMBNAILS_DIR name data f) = proj f.

Ltac same_tac :=
  idtac;
  lazymatch goal with
  | |- hoare _ (save_file _ HIGH_RES_DIR _) _ _ =>
      let c := fresh "c" in let Hc := fresh "Hc" in
      intros c Hc; cbv beta iota delta [save_file]; cbn [disk];
      rewrite proj_high_res; exact Hc
  | |- hoare _ (save_file _ THUMBNAILS_DIR _) _ _ =>
      let c := fresh "c" in let Hc := fresh "Hc" in
      intros c Hc; cbv beta iota delta [save_file]; cbn [disk];
      rewrite proj_thumbnails; exact Hc
  | |- hoare _ (save_file _ _ _) _ _ => fail
  | |- hoare _ (bind _ _) _ _ => fail
  | |- hoare _ (try_except _ _) _ _ => fail
  | |- hoare _ (fold_loop _ _ _) _ _ => fail
  | |- hoare _ (for_each _ _) _ _ => fail
  | |- hoare _ ?m _ _ =>
      apply (keep_by (fun c => proj (disk c)) (fun x => x = x0) m); intros ?; solve [prim_run]
  end.

Lemma same_process_all_pages ids :
  hoare same (process_all_pages E a ids) (fun _ => same) same.
Proof. unfold process_all_pages. repeat keep_step same_tac. Qed.

Lemma same_process_selected_pages sel :
  hoare same (process_selected_pages E a sel) (fun _ => same) same.
Proof. unfold process_selected_pages. repeat keep_step same_tac. Qed.

Lemma same_create_beo_from_pages data :
  hoare same (create_beo_from_pages E a data) (fun _ => same) same.
Proof. unfold create_beo_from_pages. repeat keep_step same_tac. Qed.

Lemma same_select_pages sel : hoare same (select_pages a sel) (fun _ => same) same.
Proof. unfold select_pages. repeat keep_step same_tac. Qed.

Lemma same_save_annotation ann : hoare same (save_annotation a ann) (fun _ => same) same.
Proof. unfold save_annotation. repeat keep_step same_tac. Qed.

Lemma same_update_beo_metadata md :
  hoare same (update_beo_metadata E a md) (fun _ => same) same.
Proof. unfold update_beo_metadata. repeat keep_step same_tac. Qed.

Lemma same_reorder_beo ro : hoare same (reorder_beo E a ro) (fun _ => same) same.
Proof. unfold reorder_beo. repeat keep_step same_tac. Qed.

Lemma same_delete_beo sid : hoare same (delete_beo sid) (fun _ => same) same.
Proof. unfold delete_beo. repeat keep_step same_tac. Qed.

End Untouched.

End Storage.

Lemma run_request_disk {A} (J : Files -> Prop) (m : M A) (w : World) :
  hoare (fun c => J (disk c)) m (fun _ c => J (disk c)) (fun c => J (disk c)) ->
  J (files w) -> J (files (snd (run_request m w))).
Proof.
  intros H Hw. unfold run_request.
  specialize (H (mk_ctx (db w) (db w) (files w)) Hw).
  destruct (m _) as [[r|e] c]; simpl; exact H.
Qed.

(** X3.  No request ever deletes a stored file.  Whatever the request
    and whatever it answers, every file that was in one of the three
    storage directories is still there afterwards (its content may have been
    rewritten); in particular deleting a document leaves its files on disk. *)
Theorem stored_files_are_kept (E : Env) (a : Ambient) (req : Request) (w : World) :
  files_kept (files w) (files (step E a req w)).
Proof.
  destruct req; simpl.
  - apply (run_request_disk (files_kept (files w))); [apply kept_upload_pdf|apply files_kept_refl].
  - apply (run_request_disk (files_kept (files w)));
      [apply kept_upload_multiple_pdfs|apply files_kept_refl].
  - apply (run_request_disk (files_kept (files w)));
      [apply kept_process_all_pages|apply files_kept_refl].
  - rewrite (run_request_disk (fun f => f = files w) _ w
               (same_select_pages a (fun f => f) (files w) selection) eq_refl).
    apply files_kept_refl.
  - apply (run_request_disk (files_kept (files w)));
      [apply kept_process_selected_pages|apply files_kept_refl].
  - rewrite (run_request_disk (fun f => f = files w) _ w
               (same_save_annotation a (fun f => f) (files w) annotation) eq_refl).
    apply files_kept_refl.
  - apply (run_request_disk (files_kept (files w)));
      [apply kept_create_beo_from_pages|apply files_kept_refl].
  - rewrite (run_request_disk (fun f => f = files w) _ w
               (same_update_beo_metadata E a (fun f => f) (files w) metadata) eq_refl).
    apply files_kept_refl.
  - rewrite (run_request_disk (fun f => f = files w) _ w
               (same_reorder_beo E a (fun f => f) (files w) reorder) eq_refl).
    apply files_kept_refl.
  - rewrite (run_request_disk (fun f => f = files w) _ w
               (same_delete_beo (fun f => f) (files w) session_id) eq_refl).
    apply files_kept_refl.
Qed.

(** X4.  Which directories a request can write to.  The five requests
    that only edit rows (select pages, save annotation, update metadata,
    reorder, delete) leave all three directories exactly as they were; the
    three requests that render pages (process all pages, process selected
    pages, create from pages) never write to the originals directory, so
    only the two uploads can add or replace an original PDF. *)
Theorem storage_written_by (E : Env) (a : Ambient) (w : World) :
  (forall sel, files (step E a (SelectPages sel) w) = files w)
  /\ (forall ann, files (step E a (SaveAnnotation ann) w) = files w)
  /\ (forall md, files (step E a (UpdateBeoMetadata md) w) = files w)
  /\ (forall ro, files (step E a (ReorderBeo ro) w) = files w)
  /\ (forall sid, files (step E a (DeleteBeo sid) w) = files w)
  /\ (forall ids, originals (files (step E a (ProcessAllPages ids) w)) = originals (files w))
  /\ (forall sel,
        originals (files (step E a (ProcessSelectedPages sel) w)) = originals (files w))
  /\ (forall data,
        originals (files (step E a (CreateBeoFromPages data) w)) = originals (files w)).
Proof.
  repeat split; intros; simpl.
  - apply (run_request_disk (fun f => f = files w)); [|reflexivity].
    apply (same_select_pages a (fun f => f)).
  - apply (run_request_disk (fun f => f = files w)); [|reflexivity].
    apply (same_save_annotation a (fun f => f)).
  - apply (run_request_disk (fun f => f = files w)); [|reflexivity].
    apply (same_update_beo_metadata E a (fun f => f)).
  - apply (run_request_disk (fun f => f = files w)); [|reflexivity].
    apply (same_reorder_beo E a (fun f => f)).
  - apply (run_request_disk (fun f => f = files w)); [|reflexivity].
    apply (same_delete_beo (fun f => f)).
  - apply (run_request_disk (fun f => originals f = originals (files w))); [|reflexivity].
    apply (same_process_all_pages E a originals); reflexivity.
  - apply (run_request_disk (fun f => originals f = originals (files w))); [|reflexivity].
    apply (same_process_selected_pages E a originals); reflexivity.
  - apply (run_request_disk (fun f => originals f = originals (files w))); [|reflexivity].
    apply (same_create_beo_from_pages E a originals); reflexivity.
Qed.

(** ** References, keys and paths in every reachable state *)

Lemma NoDup_map_eq {X Y} (f : X -> Y) (l : list X) (x y : X) :
  NoDup (map f l) -> In x l -> In y l -> f x = f y -> x = y.
Proof.
  induction l as [|z l IH]; simpl; [tauto|].
  intros Hnd Hx Hy Hf. apply NoDup_cons in Hnd as [Hz Hnd].
  destruct Hx as [->|Hx], Hy as [->|Hy]; auto.
  - exfalso. apply Hz. rewrite Hf. apply list_elem_of_In, in_map, Hy.
  - exfalso. apply Hz. rewrite <- Hf. apply list_elem_of_In, in_map, Hx.
Qed.

Lemma NoDup_page_index (k : Z) (l : list BEOPage.t) :
  Forall (fun p => BEOPage.beo_id p = k) l ->
  NoDup (map page_key l) -> NoDup (map BEOPage.page_index l).
Proof.
  induction l as [|p l IH]; simpl; intros Hall Hnd; [constructor|].
  apply Forall_cons in Hall as [Hp Hall]. apply NoDup_cons in Hnd as [Hnp Hnd].
  apply NoDup_cons. split; [|auto].
  intros Hin. apply Hnp. apply list_elem_of_In, in_map_iff in Hin as (q & Hq & Hin).
  apply list_elem_of_In, in_map_iff. exists q. split; [|exact Hin].
  unfold page_key. rewrite Hq. f_equal.
  rewrite Forall_forall in Hall. rewrite Hp. apply Hall, list_elem_of_In, Hin.
Qed.

(** X5.  Referential integrity.  In every state the service can reach,
    each page row belongs to a document of the [beos] table and its
    [page_index] lies in [0 .. total_pages - 1] of that document, and each
    annotation row belongs to a document of the table: no request leaves
    an orphan row behind, not even the delete. *)
Theorem reachable_rows_belong (E : Env) (w : World) :
  reachable E w ->
  (forall p, In p (beo_pages (db w)) ->
     exists b, In b (beos (db w)) /\ BEO.id b = BEOPage.beo_id p
               /\ 0 <= BEOPage.page_index p < BEO.total_pages b)
  /\ (forall x, In x (annotations (db w)) ->
        exists b, In b (beos (db w)) /\ BEO.id b = Annotation.beo_id x).
Proof.
  intros Hreach. destruct (reachable_good E w Hreach) as [Hr _]. split.
  - intros p Hp. pose proof (ri_page_owner _ Hr) as Ho. pose proof (ri_page_range _ Hr) as Hg.
    rewrite Forall_forall in Ho. rewrite Forall_forall in Hg.
    apply list_elem_of_In in Hp. specialize (Ho p Hp). destruct (Hg p Hp) as [H0 Hlt].
    unfold beo_ids in Ho. apply in_map_iff in Ho as (b & Hb & Hin).
    exists b. split; [exact Hin|]. split; [exact Hb|]. split; [exact H0|]. auto.
  - intros x Hx. pose proof (ri_annotation_owner _ Hr) as Ho. rewrite Forall_forall in Ho.
    apply list_elem_of_In in Hx. specialize (Ho x Hx).
    unfold beo_ids in Ho. apply in_map_iff in Ho as (b & Hb & Hin). eauto.
Qed.

Lemma reachable_rows_belong_witness :
  (forall p, In p (beo_pages (db split_world)) ->
     exists b, In b (beos (db split_world)) /\ BEO.id b = BEOPage.beo_id p
               /\ 0 <= BEOPage.page_index p < BEO.total_pages b)
  /\ (forall x, In x (annotations (db split_world)) ->
        exists b, In b (beos (db split_world)) /\ BEO.id b = Annotation.beo_id x).
Proof. exact (reachable_rows_belong demo_env split_world reachable_split_world). Defined.

(** X6.  Page keys.  In every reachable state a document has at most
    one page row per [page_index], the primary keys of the page and
    annotation rows are unique, and a document never has more page rows
    than its [total_pages] (it may have fewer: a split that names a page
    out of range leaves holes). *)
Theorem reachable_page_keys (E : Env) (w : World) :
  reachable E w ->
  (forall p q, In p (beo_pages (db w)) -> In q (beo_pages (db w)) ->
     BEOPage.beo_id p = BEOPage.beo_id q -> BEOPage.page_index p = BEOPage.page_index q ->
     p = q)
  /\ NoDup (map BEOPage.id (beo_pages (db w)))
  /\ NoDup (map Annotation.id (annotations (db w)))
  /\ (forall b, In b (beos (db w)) -> len (pages_of (db w) (BEO.id b)) <= BEO.total_pages b).
Proof.
  intros Hreach. destruct (reachable_good E w Hreach) as [Hr _].
  split; [|split; [apply Hr|split; [apply Hr|]]].
  - intros p q Hp Hq Hid Hidx.
    apply (NoDup_map_eq page_key (beo_pages (db w))); [apply Hr|exact Hp|exact Hq|].
    unfold page_key. rewrite Hid, Hidx. reflexivity.
  - intros b Hb. unfold pages_of.
    set (l := List.filter _ _).
    assert (Forall (fun p => BEOPage.beo_id p = BEO.id b) l) as Hall.
    { apply Forall_forall. intros p Hp. apply list_elem_of_In, filter_In in Hp as [_ Hp].
      apply bool_decide_eq_true in Hp. exact Hp. }
    assert (NoDup (map BEOPage.page_index l)) as Hnd.
    { apply (NoDup_page_index (BEO.id b)); [exact Hall|].
      apply NoDup_map_filter, Hr. }
    assert (map BEOPage.page_index l ⊆+ seqZ 0 (BEO.total_pages b)) as Hsub.
    { apply NoDup_submseteq; [exact Hnd|]. intros i Hi.
      apply list_elem_of_In, in_map_iff in Hi as (p & <- & Hp).
      apply elem_of_seqZ. pose proof (ri_page_range _ Hr) as Hg.
      rewrite Forall_forall in Hg. rewrite Forall_forall in Hall.
      pose proof (Hall p (proj2 (list_elem_of_In _ _) Hp)) as Hpid.
      apply filter_In in Hp as [Hp _].
      destruct (Hg p (proj2 (list_elem_of_In _ _) Hp)) as [H0 Hlt].
      specialize (Hlt b Hb (eq_sym Hpid)). lia. }
    apply submseteq_length in Hsub. rewrite length_map, length_seqZ in Hsub.
    pose proof (ri_total_pages _ Hr) as Htp. rewrite Forall_forall in Htp.
    specialize (Htp b (proj2 (list_elem_of_In _ _) Hb)). unfold len. lia.
Qed.

Lemma reachable_page_keys_witness :
  (forall p q, In p (beo_pages (db split_world)) -> In q (beo_pages (db split_world)) ->
     BEOPage.beo_id p = BEOPage.beo_id q -> BEOPage.page_index p = BEOPage.page_index q ->
     p = q)
  /\ NoDup (map BEOPage.id (beo_pages (db split_world)))
  /\ NoDup (map Annotation.id (annotations (db split_world)))
  /\ (forall b, In b (beos (db split_world)) ->
        len (pages_of (db split_world) (BEO.id b)) <= BEO.total_pages b).
Proof. exact (reachable_page_keys demo_env split_world reachable_split_world). Defined.

(** X7.  Stored artifacts.  In every reachable state each page row
    records a thumbnail path, the file of that name is in the thumbnails
    directory, and a page row that records a high-resolution path has the
    file of that name in the high-resolution directory: the tables never
    point at a file that is not on disk. *)
Theorem reachable_paths_stored (E : Env) (w : World) :
  reachable E w ->
  forall p, In p (beo_pages (db w)) ->
    (exists n, BEOPage.thumbnail_path p = Some n /\ stored THUMBNAILS_DIR n (files w))
    /\ (forall h, BEOPage.high_res_path p = Some h -> stored HIGH_RES_DIR h (files w)).
Proof.
  intros Hreach p Hp. destruct (reachable_good E w Hreach) as [_ [Ht Hh]].
  rewrite Forall_forall in Ht. rewrite Forall_forall in Hh.
  apply list_elem_of_In in Hp. split; [apply Ht, Hp|apply Hh, Hp].
Qed.

Lemma reachable_paths_stored_witness :
  Forall (fun p =>
            (exists n, BEOPage.thumbnail_path p = Some n
                       /\ stored THUMBNAILS_DIR n (files split_world))
            /\ (forall h, BEOPage.high_res_path p = Some h ->
                          stored HIGH_RES_DIR h (files split_world)))
         (beo_pages (db split_world)).
Proof.
  apply Forall_forall. intros p Hp.
  apply (reachable_paths_stored demo_env split_world reachable_split_world).
  apply list_elem_of_In. exact Hp.
Defined.

(** ** Deleting a document and editing its metadata *)

Lemma filter_filter_same {X} (q : X -> bool) (l : list X) :
  List.filter q (List.filter q l) = List.filter q l.
Proof.
  induction l as [|x l IH]; simpl; [reflexivity|].
  destruct (q x) eqn:Hq; simpl; [rewrite Hq, IH|]; auto.
Qed.

Lemma delete_beo_run (sid : string) (w : World) :
  run_request (delete_beo sid) w
  = match List.find (by_session_id sid) (beos (db w)) with
    | None => (Raise (HTTPException 404 "BEO not found"), w)
    | Some beo => (Ok "success", mk_world (without beo (db w)) (files w))
    end.
Proof.
  unfold delete_beo. mrun. destruct (List.find _ _) as [beo|]; mrun.
  - unfold without. rewrite !filter_filter_same. reflexivity.
  - rewrite world_eta. reflexivity.
Qed.

Lemma find_by_session_id (sid : string) (l : list BEO.t) (b : BEO.t) :
  List.find (by_session_id sid) l = Some b -> In b l /\ BEO.session_id b = sid.
Proof.
  intros H. apply find_some in H as [Hin Hb]. split; [exact Hin|].
  apply bool_decide_eq_true in Hb. exact Hb.
Qed.

(** With unique keys, the rows with the primary key of [d] are the rows
    with its session id. *)
Lemma same_key_same_session (l : list BEO.t) (d b : BEO.t) :
  NoDup (map BEO.id l) -> NoDup (map BEO.session_id l) -> In d l -> In b l ->
  (BEO.id b = BEO.id d <-> BEO.session_id b = BEO.session_id d).
Proof.
  intros Hid Hsid Hd Hb. split; intros Heq.
  - rewrite (NoDup_map_eq BEO.id l b d Hid Hb Hd Heq). reflexivity.
  - rewrite (NoDup_map_eq BEO.session_id l b d Hsid Hb Hd Heq). reflexivity.
Qed.

Lemma filter_by_key (l : list BEO.t) (d : BEO.t) :
  NoDup (map BEO.id l) -> NoDup (map BEO.session_id l) -> In d l ->
  List.filter (fun b => negb (bool_decide (BEO.id b = BEO.id d))) l
  = List.filter (fun b => negb (by_session_id (BEO.session_id d) b)) l.
Proof.
  intros Hid Hsid Hd. apply filter_ext_in. intros b Hb. f_equal.
  unfold by_session_id. apply bool_decide_ext.
  apply same_key_same_session with (l := l); assumption.
Qed.

Lemma find_filter_none {X} (q : X -> bool) (l : list X) :
  List.find q (List.filter (fun x => negb (q x)) l) = None.
Proof.
  induction l as [|x l IH]; simpl; [reflexivity|].
  destruct (q x) eqn:Hq; simpl; [exact IH|]. rewrite Hq. exact IH.
Qed.

Lemma filter_none {X} (q : X -> bool) (l : list X) :
  List.filter q (List.filter (fun x => negb (q x)) l) = [].
Proof.
  induction l as [|x l IH]; simpl; [reflexivity|].
  destruct (q x) eqn:Hq; simpl; [exact IH|]. rewrite Hq. exact IH.
Qed.

(** X8.  Deleting a document.  In a reachable state, deleting an
    existing document answers 200 and removes exactly its row, its page
    rows and its annotation rows: the rows of every other document are the
    same rows in the same order, the primary-key sequences do not move
    back (keys are not reused), no file is removed from disk, and
    afterwards the identifier is unknown, so a second delete answers
    404. *)
Theorem delete_beo_removes_document (E : Env) (a : Ambient) (sid : string) (w : World)
    (d : BEO.t) :
  reachable E w ->
  List.find (by_session_id sid) (beos (db w)) = Some d ->
  let w' := step E a (DeleteBeo sid) w in
  respond E a (DeleteBeo sid) w = 200
  /\ beos (db w') = other_beos sid (db w)
  /\ beo_pages (db w') = other_pages (BEO.id d) (db w)
  /\ annotations (db w') = other_annotations (BEO.id d) (db w)
  /\ List.find (by_session_id sid) (beos (db w')) = None
  /\ pages_of (db w') (BEO.id d) = []
  /\ (forall i, annotations_of (db w') (BEO.id d) i = [])
  /\ (beos_seq (db w'), beo_pages_seq (db w'), annotations_seq (db w'))
     = (beos_seq (db w), beo_pages_seq (db w), annotations_seq (db w))
  /\ files w' = files w
  /\ respond E a (DeleteBeo sid) w' = 404.
Proof.
  intros Hreach Hfind. cbv zeta. simpl step. simpl respond.
  rewrite !delete_beo_run, Hfind. cbn [fst snd http_status db files without beos beo_pages
    annotations beos_seq beo_pages_seq annotations_seq].
  pose proof (reachable_inv E w Hreach) as Hinv.
  destruct (find_by_session_id _ _ _ Hfind) as [Hin Hsid].
  assert (List.filter (fun b => negb (bool_decide (BEO.id b = BEO.id d))) (beos (db w))
          = other_beos sid (db w)) as Hbeos.
  { unfold other_beos. rewrite <- Hsid.
    apply filter_by_key; [apply Hinv|apply Hinv|exact Hin]. }
  rewrite Hbeos.
  assert (List.find (by_session_id sid) (other_beos sid (db w)) = None) as Hgone
    by apply find_filter_none.
  rewrite Hgone.
  repeat split.
  - unfold pages_of. simpl. apply filter_none.
  - intros i. unfold annotations_of. simpl.
    induction (annotations (db w)) as [|x l IH]; simpl; [reflexivity|].
    destruct (bool_decide (Annotation.beo_id x = BEO.id d)) eqn:Hx; simpl; [exact IH|].
    rewrite Hx. simpl. exact IH.
Qed.

Lemma delete_beo_removes_document_witness :
  exists d,
    List.find (by_session_id "doc1-0") (beos (db split_world)) = Some d
    /\ respond demo_env (demo_ambient 3) (DeleteBeo "doc1-0") split_world = 200
    /\ List.find (by_session_id "doc1-0")
         (beos (db (step demo_env (demo_ambient 3) (DeleteBeo "doc1-0") split_world))) = None
    /\ pages_of (db (step demo_env (demo_ambient 3) (DeleteBeo "doc1-0") split_world))
         (BEO.id d) = [].
Proof.
  destruct (List.find (by_session_id "doc1-0") (beos (db split_world))) as [d|] eqn:Hd;
    [|vm_compute in Hd; discriminate].
  exists d. split; [reflexivity|].
  pose proof (delete_beo_removes_document demo_env (demo_ambient 3) "doc1-0" split_world d
                reachable_split_world Hd) as H.
  cbv zeta in H. destruct H as (H1 & _ & _ & _ & H5 & H6 & _).
  split; [exact H1|]. split; [exact H5|exact H6].
Defined.

Lemma map_update_rows (k : Z) (f : BEO.t -> BEO.t) (l : list BEO.t) :
  map (fun b => if bool_decide (BEO.id b = k) then f b else b) l = update_rows k f l.
Proof. reflexivity. Qed.

Lemma update_beo_metadata_run (E : Env) (a : Ambient) (md : BEOMetadata) (w : World) :
  run_request (update_beo_metadata E a md) w
  = match List.find (by_session_id (md_session_id md)) (beos (db w)) with
    | None => (Raise (HTTPException 404 "BEO not found"), w)
    | Some beo =>
        if date_given_ok E md
        then (Ok "success",
              mk_world (with_beos (update_rows (BEO.id beo) (patched E a md) (beos (db w)))
                          (db w))
                       (files w))
        else (Raise ValueError, w)
    end.
Proof.
  unfold update_beo_metadata, date_given_ok, patched. mrun.
  destruct (List.find _ _) as [beo|]; mrun; [|rewrite world_eta; reflexivity].
  destruct (md_beo_number md) as [n|]; mrun;
    (destruct (md_event_date md) as [s|]; cbn [mbind option_bind];
       [destruct (fromisoformat E s) as [t|]; mrun;
          [rewrite bool_decide_eq_true_2 by (eexists; reflexivity)
          |rewrite bool_decide_eq_false_2 by (intros [? [=]]); rewrite world_eta; reflexivity]
       |]);
    destruct (md_order_position md) as [p|]; mrun;
    unfold with_beos; f_equal; f_equal; f_equal;
    rewrite !map_update_rows; rewrite ?update_rows_twice by reflexivity; reflexivity.
Qed.


(** ** Requests that address one document leave the others alone *)

Section Others.

Context (E : Env) (a : Ambient).

Lemma filter_update_rows_other (sid : string) (k : Z) (g : BEO.t -> BEO.t) (l : list BEO.t)
    (d : BEO.t) :
  NoDup (map BEO.id l) -> In d l -> BEO.id d = k -> BEO.session_id d = sid ->
  (forall b, BEO.session_id (g b) = BEO.session_id b) ->
  List.filter (fun b => negb (by_session_id sid b)) (update_rows k g l)
  = List.filter (fun b => negb (by_session_id sid b)) l.
Proof.
  intros Hnd Hd Hk Hsid Hg.
  assert (forall b, In b l -> BEO.id b = k -> BEO.session_id b = sid) as Hkey.
  { intros b Hb Hbk. rewrite (NoDup_map_eq BEO.id l b d Hnd Hb Hd); [exact Hsid|congruence]. }
  clear Hnd Hd. unfold update_rows.
  induction l as [|b l IH]; simpl; [reflexivity|].
  rewrite IH by (intros x Hx; apply Hkey; right; exact Hx).
  destruct (bool_decide (BEO.id b = k)) eqn:Hbk; [|reflexivity].
  apply bool_decide_eq_true in Hbk.
  assert (by_session_id sid (g b) = true) as ->.
  { apply bool_decide_eq_true. rewrite Hg. apply Hkey; [left; reflexivity|exact Hbk]. }
  assert (by_session_id sid b = true) as ->.
  { apply bool_decide_eq_true. apply Hkey; [left; reflexivity|exact Hbk]. }
  reflexivity.
Qed.

Lemma filter_update_page_other (k key : Z) (f : BEOPage.t -> BEOPage.t)
    (l : list BEOPage.t) :
  (forall p, In p l -> BEOPage.id p = key -> BEOPage.beo_id p = k) ->
  (forall p, BEOPage.beo_id (f p) = BEOPage.beo_id p) ->
  List.filter (fun p => negb (bool_decide (BEOPage.beo_id p = k)))
    (map (fun p => if bool_decide (BEOPage.id p = key) then f p else p) l)
  = List.filter (fun p => negb (bool_decide (BEOPage.beo_id p = k))) l.
Proof.
  intros Hkey Hf. induction l as [|p l IH]; simpl; [reflexivity|].
  rewrite IH by (intros q Hq; apply Hkey; right; exact Hq).
  destruct (bool_decide (BEOPage.id p = key)) eqn:Hp; [|reflexivity].
  apply bool_decide_eq_true in Hp. rewrite Hf.
  rewrite (bool_decide_eq_true_2 _ (Hkey p (or_introl eq_refl) Hp)). reflexivity.
Qed.

Lemma filter_update_annotation_other (k key : Z) (f : Annotation.t -> Annotation.t)
    (l : list Annotation.t) :
  (forall x, In x l -> Annotation.id x = key -> Annotation.beo_id x = k) ->
  (forall x, Annotation.beo_id (f x) = Annotation.beo_id x) ->
  List.filter (fun x => negb (bool_decide (Annotation.beo_id x = k)))
    (map (fun x => if bool_decide (Annotation.id x = key) then f x else x) l)
  = List.filter (fun x => negb (bool_decide (Annotation.beo_id x = k))) l.
Proof.
  intros Hkey Hf. induction l as [|x l IH]; simpl; [reflexivity|].
  rewrite IH by (intros q Hq; apply Hkey; right; exact Hq).
  destruct (bool_decide (Annotation.id x = key)) eqn:Hx; [|reflexivity].
  apply bool_decide_eq_true in Hx. rewrite Hf.
  rewrite (bool_decide_eq_true_2 _ (Hkey x (or_introl eq_refl) Hx)). reflexivity.
Qed.

Lemma promoting_step (selection : PageSelection) (beo : BEO.t) (images : list Image)
    (d0 : DB) (acc : gmap Z string) (i : Z) :
  hoare (promoting d0 (BEO.id beo))
    (selected_page_step E selection beo images acc i)
    (fun _ => promoting d0 (BEO.id beo)) (promoting d0 (BEO.id beo)).
Proof.
  intros c Hc. unfold selected_page_step.
  destruct (i <? len images); [|exact Hc]. mrun.
  destruct (py_index images i) as [img|e]; mrun; [|exact Hc].
  destruct (img_save E img 95) as [buffered|e]; mrun; [|exact Hc].
  destruct Hc as (H1 & H2 & H3 & H4 & H5).
  destruct (List.find _ _) as [page|] eqn:Hpage; mrun;
    (split; [exact H1|split; [exact H2|split; [exact H3|]]]);
    cbn [session beo_pages]; [|split; assumption].
  apply find_some in Hpage as [Hin Hq]. apply andb_true_iff in Hq as [Hq _].
  apply bool_decide_eq_true in Hq.
  split.
  - rewrite (map_update_same BEOPage.id); [exact H4|]. reflexivity.
  - rewrite <- H5. unfold other_pages. cbn [beo_pages].
    apply filter_update_page_other; [|reflexivity].
    intros p Hp Hid.
    rewrite (NoDup_map_eq BEOPage.id _ p page H4 Hp Hin Hid). exact Hq.
Qed.

Lemma process_selected_pages_others (selection : PageSelection) (w : World) (d : BEO.t) :
  NoDup (map BEOPage.id (beo_pages (db w))) ->
  List.find (by_session_id (ps_session_id selection)) (beos (db w)) = Some d ->
  let w' := snd (run_request (process_selected_pages E a selection) w) in
  (beos (db w') = beos (db w)
   \/ beos (db w') = update_rows (BEO.id d) (mark_ready (utcnow a)) (beos (db w)))
  /\ other_pages (BEO.id d) (db w') = other_pages (BEO.id d) (db w)
  /\ annotations (db w') = annotations (db w).
Proof.
  intros Hnd Hfind. cbv zeta. unfold process_selected_pages. mrun. rewrite Hfind. mrun.
  destruct (dir_files ORIGINALS_DIR (files w) !! _) as [pdf|]; mrun; [|auto].
  destruct (convert_from_bytes E pdf 300 None) as [images|e]; mrun; [|auto].
  match goal with |- context [fold_loop ?l ?acc ?body ?c] =>
    pose proof (hoare_fold_loop (promoting (db w) (BEO.id d)) (promoting (db w) (BEO.id d))
                  body (fun acc' i => promoting_step selection d images (db w) acc' i)
                  l acc c) as Hloop
  end.
  assert (promoting (db w) (BEO.id d) (mk_ctx (db w) (db w) (files w))) as Hinit.
  { repeat split; assumption. }
  specialize (Hloop Hinit).
  destruct (fold_loop _ _ _ _) as [[m|e] c']; mrun.
  - destruct Hloop as (H1 & H2 & H3 & H4 & H5). split; [|split].
    + right. rewrite H2. unfold mark_ready.
      apply (update_rows_twice (BEO.id d) (BEO.set_status "ready_for_annotation")
               (BEO.set_updated_at (utcnow a))). reflexivity.
    + exact H5.
    + exact H3.
  - destruct Hloop as (H1 & _). rewrite H1. auto.
Qed.

Lemma save_annotation_not_found (annotation : AnnotationData) (w : World) :
  List.find (by_session_id (ad_session_id annotation)) (beos (db w)) = None ->
  run_request (save_annotation a annotation) w
  = (Raise (HTTPException 404 "Session not found"), w).
Proof.
  intros Hfind. unfold save_annotation. mrun. rewrite Hfind. mrun.
  rewrite world_eta. reflexivity.
Qed.

End Others.

(** X10.  Frame.  In a reachable state, a request that addresses one
    document by its identifier (select pages, process selected pages, save
    annotation, update metadata, delete) changes no row that belongs to
    another document: the other documents' rows of [beos], and the page and
    annotation rows of the other documents, are the same rows in the same
    order afterwards, whether the request succeeds or fails.  (Reordering
    is not such a request: it renumbers the other documents of the
    day.) *)
Theorem other_documents_untouched (E : Env) (a : Ambient) (req : Request) (w : World)
    (sid : string) :
  reachable E w ->
  target req = Some sid ->
  let w' := step E a req w in
  other_beos sid (db w') = other_beos sid (db w)
  /\ match List.find (by_session_id sid) (beos (db w)) with
     | Some d =>
         other_pages (BEO.id d) (db w') = other_pages (BEO.id d) (db w)
         /\ other_annotations (BEO.id d) (db w') = other_annotations (BEO.id d) (db w)
     | None => db w' = db w
     end.
Proof.
  intros Hreach Htarget. cbv zeta.
  pose proof (reachable_inv E w Hreach) as Hinv.
  destruct (reachable_good E w Hreach) as [Hrows _].
  assert (forall d g,
            List.find (by_session_id sid) (beos (db w)) = Some d ->
            (forall b, BEO.session_id (g b) = BEO.session_id b) ->
            List.filter (fun b => negb (by_session_id sid b))
              (update_rows (BEO.id d) g (beos (db w)))
            = other_beos sid (db w)) as Hupd.
  { intros d g Hd Hg. destruct (find_by_session_id _ _ _ Hd) as [Hin Hsid].
    apply (filter_update_rows_other sid (BEO.id d) g _ d); auto. apply Hinv. }
  destruct req; try discriminate; injection Htarget as <-; simpl step.
  - (* select_pages *)
    rewrite select_pages_run.
    destruct (List.find _ _) as [d|] eqn:Hd; cbn [snd db]; [|auto].
    split; [|split; reflexivity].
    unfold other_beos at 1. cbn [with_beos beos]. apply Hupd; [reflexivity|reflexivity].
  - (* process_selected_pages *)
    destruct (List.find _ _) as [d|] eqn:Hd.
    + destruct (process_selected_pages_others E a selection w d (ri_page_ids _ Hrows) Hd)
        as (Hb & Hp & Ha).
      split; [|split; [exact Hp|unfold other_annotations; rewrite Ha; reflexivity]].
      destruct Hb as [Hb|Hb]; unfold other_beos at 1; rewrite Hb; [reflexivity|].
      apply Hupd; [reflexivity|reflexivity].
    + rewrite (process_selected_not_found E a selection w Hd). auto.
  - (* save_annotation *)
    destruct (List.find _ _) as [d|] eqn:Hd.
    + rewrite (save_annotation_run a annotation w d Hd). cbn [snd db].
      unfold saved. fold (ann_match (BEO.id d) (ad_page_index annotation)).
      destruct (List.find (ann_match _ _) _) as [ex|] eqn:Hex.
      * split; [unfold other_beos at 1; cbn [beos]; apply Hupd; [reflexivity|reflexivity]|].
        split; [reflexivity|]. unfold other_annotations. cbn [annotations].
        apply filter_update_annotation_other; [|reflexivity].
        intros x Hx Hid. apply find_some in Hex as [Hin Hm].
        apply ann_match_key in Hm. unfold annotation_key in Hm. injection Hm as Hm _.
        rewrite (NoDup_map_eq Annotation.id _ x ex (ri_annotation_ids _ Hrows) Hx Hin Hid).
        exact Hm.
      * split; [unfold other_beos at 1; cbn [beos]; apply Hupd; [reflexivity|reflexivity]|].
        split; [reflexivity|]. unfold other_annotations. cbn [annotations].
        rewrite List.filter_app. simpl.
        rewrite bool_decide_eq_true_2 by reflexivity. simpl. apply app_nil_r.
    + rewrite (save_annotation_not_found a annotation w Hd). auto.
  - (* update_beo_metadata *)
    rewrite update_beo_metadata_run.
    destruct (List.find _ _) as [d|] eqn:Hd; [|auto].
    destruct (date_given_ok E metadata); cbn [snd db]; [|auto].
    split; [|split; reflexivity].
    unfold other_beos at 1. cbn [with_beos beos]. apply Hupd; [reflexivity|].
    intros b. unfold patched.
    destruct (md_beo_number metadata), (md_event_date metadata ≫= fromisoformat E),
      (md_order_position metadata); reflexivity.
  - (* delete_beo *)
    rewrite delete_beo_run.
    destruct (List.find _ _) as [d|] eqn:Hd; cbn [snd db]; [|auto].
    destruct (find_by_session_id _ _ _ Hd) as [Hin Hsid].
    unfold other_beos, other_pages, other_annotations, without. cbn [beos beo_pages annotations].
    rewrite !filter_filter_same.
    split; [|split; reflexivity].
    rewrite (filter_by_key (beos (db w)) d); [|apply Hinv|apply Hinv|exact Hin].
    rewrite Hsid. apply filter_filter_same.
Qed.

Lemma other_documents_untouched_witness :
  other_beos "doc1-0"
    (db (step demo_env (demo_ambient 3) (SaveAnnotation demo_annotation) split_world))
  = other_beos "doc1-0" (db split_world).
Proof.
  exact (proj1 (other_documents_untouched demo_env (demo_ambient 3)
                  (SaveAnnotation demo_annotation) split_world "doc1-0"
                  reachable_split_world eq_refl)).
Defined.

(** ** The creating requests only append rows *)

Section Grown.

Context (E : Env) (a : Ambient) (d0 : DB) (ok : BEO.t -> Prop).

Local Abbreviation adding := (fun c : Ctx => committed c = d0 /\ grown ok d0 (session c)).
Local Abbreviation adding_to k :=
  (fun c : Ctx => committed c = d0 /\ growing ok d0 k (session c)).

Lemma growing_grown (k : Z) (d : DB) : growing ok d0 k d -> grown ok d0 d.
Proof.
  intros (Ha & nb & np & H1 & H2 & H3 & H4 & _). split; [exact Ha|].
  exists nb, np. auto.
Qed.

Lemma grown_refl : grown ok d0 d0.
Proof. split; [reflexivity|]. exists [], []. rewrite !app_nil_r. repeat split; constructor. Qed.

Lemma adding_keep {A} (m : M A) :
  (forall c, snd (m c) = c) -> hoare adding m (fun _ => adding) adding.
Proof. apply keep_ctx. Qed.

Lemma adding_to_keep {A} (k : Z) (m : M A) :
  (forall c, committed (snd (m c)) = committed c /\ session (snd (m c)) = session c) ->
  hoare (adding_to k) m (fun _ => adding_to k) adding.
Proof.
  intros H c [Hc Hs]. specialize (H c).
  destruct (m c) as [[r|e] c']; simpl in H; destruct H as [-> ->].
  - split; assumption.
  - split; [exact Hc|]. eapply growing_grown, Hs.
Qed.

Lemma adding_keep_session {A} (m : M A) :
  (forall c, committed (snd (m c)) = committed c /\ session (snd (m c)) = session c) ->
  hoare adding m (fun _ => adding) adding.
Proof.
  intros H c [Hc Hs]. specialize (H c).
  destruct (m c) as [[r|e] c']; simpl in H; destruct H as [-> ->]; split; assumption.
Qed.

Lemma adding_flush (t : datetime) (b : BEO.t) :
  (forall k, ok (BEO.set_id k (BEO.set_created_at t (BEO.set_updated_at t b)))) ->
  hoare adding (add_flush_beo t b) (fun row => adding_to (BEO.id row)) adding.
Proof.
  intros Hok c [Hc (Ha & nb & np & H1 & H2 & H3 & H4)]. unfold add_flush_beo. mrun.
  destruct (existsb _ _); mrun.
  - split; [exact Hc|]. split; [exact Ha|]. exists nb, np. auto.
  - split; [exact Hc|]. split; [exact Ha|]. cbn [beos beo_pages BEO.id BEO.set_id].
    eexists (nb ++ [_]), np. rewrite H1, <- app_assoc.
    split; [reflexivity|]. split; [exact H2|].
    split; [apply Forall_app; split; [exact H3|constructor; [apply Hok|constructor]]|].
    split.
    + eapply Forall_impl; [exact H4|]. simpl. intros p Hp.
      rewrite map_app, in_app_iff. left. exact Hp.
    + rewrite map_app, in_app_iff. right. left. reflexivity.
Qed.

Lemma adding_page (k : Z) (t : datetime) (p : BEOPage.t) :
  BEOPage.beo_id p = k ->
  hoare (adding_to k) (add_page t p) (fun _ => adding_to k) adding.
Proof.
  intros Hk c [Hc (Ha & nb & np & H1 & H2 & H3 & H4 & H5)]. unfold add_page. mrun.
  split; [exact Hc|]. split; [exact Ha|]. cbn [beos beo_pages].
  eexists nb, (np ++ [_]). rewrite H2, <- app_assoc.
  split; [exact H1|]. split; [reflexivity|]. split; [exact H3|]. split; [|exact H5].
  apply Forall_app. split; [exact H4|]. constructor; [|constructor].
  simpl. rewrite Hk. exact H5.
Qed.

Ltac grown_leaf :=
  apply adding_to_keep; intros ?; prim_run; split; reflexivity.

Lemma adding_thumbnail_step (sid : string) (beo : BEO.t) (acc : list string)
    (item : Z * Image) :
  hoare (adding_to (BEO.id beo)) (thumbnail_step E a sid beo acc item)
    (fun _ => adding_to (BEO.id beo)) adding.
Proof.
  unfold thumbnail_step. destruct item as [idx img].
  eapply hoare_bind; [grown_leaf|]. intros buffered.
  eapply hoare_bind; [grown_leaf|]. intros ?.
  eapply hoare_bind; [apply adding_page; reflexivity|]. intros ?.
  grown_leaf.
Qed.

Lemma adding_all_pages_step (pdf : bytes) (sid : string) (beo : BEO.t) (item : Z * Image) :
  hoare (adding_to (BEO.id beo)) (all_pages_step E a pdf sid beo item)
    (fun _ => adding_to (BEO.id beo)) adding.
Proof.
  unfold all_pages_step. destruct item as [idx img].
  eapply hoare_bind; [grown_leaf|]. intros buffered.
  eapply hoare_bind; [grown_leaf|]. intros ?.
  eapply hoare_bind; [grown_leaf|]. intros thumbs.
  eapply hoare_bind; [grown_leaf|]. intros thumb_img.
  eapply hoare_bind; [grown_leaf|]. intros thumb_buffered.
  eapply hoare_bind; [grown_leaf|]. intros ?.
  apply adding_page. reflexivity.
Qed.

Lemma adding_create_page_step (pdf : bytes) (sid : string) (beo : BEO.t)
    (images : list Image) (item : Z * Z) :
  hoare (adding_to (BEO.id beo)) (create_page_step E a pdf sid beo images item)
    (fun _ => adding_to (BEO.id beo)) adding.
Proof.
  unfold create_page_step. destruct item as [new_idx original_idx].
  destruct (original_idx <? len images); [|grown_leaf].
  eapply hoare_bind; [grown_leaf|]. intros img.
  eapply hoare_bind; [grown_leaf|]. intros buffered.
  eapply hoare_bind; [grown_leaf|]. intros ?.
  eapply hoare_bind; [grown_leaf|]. intros thumbs.
  eapply hoare_bind; [grown_leaf|]. intros thumb_img.
  eapply hoare_bind; [grown_leaf|]. intros thumb_buffered.
  eapply hoare_bind; [grown_leaf|]. intros ?.
  apply adding_page. reflexivity.
Qed.

(** A new document, its pages, then the rest of the handler. *)
Lemma adding_flush_then {A B} (t : datetime) (b : BEO.t) (loop : BEO.t -> M A)
    (rest : BEO.t -> A -> M B) (Q : B -> Ctx -> Prop) :
  (forall k, ok (BEO.set_id k (BEO.set_created_at t (BEO.set_updated_at t b)))) ->
  (forall row, hoare (adding_to (BEO.id row)) (loop row)
                 (fun _ => adding_to (BEO.id row)) adding) ->
  (forall row x, hoare adding (rest row x) Q adding) ->
  hoare adding (row <- add_flush_beo t b ;; x <- loop row ;; rest row x) Q adding.
Proof.
  intros Hok Hloop Hrest. eapply hoare_bind; [apply adding_flush; exact Hok|].
  intros row. eapply hoare_bind; [apply Hloop|]. intros x.
  eapply hoare_conseq; [apply Hrest| |auto|auto].
  intros c [Hc Hs]. split; [exact Hc|]. eapply growing_grown, Hs.
Qed.

Lemma adding_commit_ret {A} (x : A) :
  hoare adding (db_commit ;;; ret x) (fun _ c => grown ok d0 (committed c)) adding.
Proof. intros c [Hc Hs]. exact Hs. Qed.

Lemma adding_rollback_raise {A} (e : exn) (Q : A -> Ctx -> Prop) :
  hoare adding (db_rollback ;;; raise e) Q (fun c => grown ok d0 (committed c)).
Proof. intros c [Hc Hs]. simpl. rewrite Hc. apply grown_refl. Qed.

End Grown.

Section GrownHandlers.

Context (E : Env) (a : Ambient) (d0 : DB).

Local Abbreviation adding ok := (fun c : Ctx => committed c = d0 /\ grown ok d0 (session c)).
Local Abbreviation done ok := (fun c : Ctx => grown ok d0 (committed c)).

Ltac adding_leaf :=
  first [ apply hoare_raise; intros; assumption
        | apply hoare_ret; intros; assumption
        | apply adding_keep_session; intros ?; prim_run; split; reflexivity ].

Lemma adding_done ok (c : Ctx) : adding ok c -> done ok c.
Proof. intros [-> _]. apply grown_refl. Qed.

Lemma grown_upload_pdf file file_type :
  hoare (adding uploaded_ok) (upload_pdf E a file file_type)
    (fun _ => done uploaded_ok) (done uploaded_ok).
Proof.
  unfold upload_pdf.
  eapply hoare_try with (R1 := adding uploaded_ok);
    [|intros e; apply adding_rollback_raise].
  destruct (PyStr.endswith (uf_filename file) ".pdf") eqn:Hext; cbn [negb];
    [|intros c Hc; exact Hc].
  eapply hoare_bind with (Q1 := fun _ => adding uploaded_ok); [adding_leaf|]. intros ?.
  eapply hoare_bind with (Q1 := fun _ => adding uploaded_ok); [adding_leaf|]. intros ?.
  eapply hoare_bind with (Q1 := fun _ => adding uploaded_ok); [adding_leaf|]. intros images.
  apply adding_flush_then.
  - intros k. repeat split. exact Hext.
  - intros row. apply hoare_fold_loop. intros acc x. apply adding_thumbnail_step.
  - intros row x. apply adding_commit_ret.
Qed.

Lemma grown_upload_multiple_pdfs fs infos :
  hoare (adding uploaded_ok) (upload_multiple_pdfs E a fs infos)
    (fun _ => done uploaded_ok) (done uploaded_ok).
Proof.
  unfold upload_multiple_pdfs.
  eapply hoare_try with (R1 := adding uploaded_ok);
    [|intros e; apply adding_rollback_raise].
  eapply hoare_bind with (Q1 := fun _ => adding uploaded_ok);
    [|intros results; apply adding_commit_ret].
  apply hoare_fold_loop. intros acc [k file]. unfold upload_multiple_step.
  destruct (PyStr.endswith (uf_filename file) ".pdf") eqn:Hext; cbn [negb]; [|adding_leaf].
  destruct (multi_event_fields E _) as [[[ev dow] wk] yr].
  eapply hoare_bind with (Q1 := fun _ => adding uploaded_ok); [adding_leaf|]. intros ?.
  eapply hoare_bind with (Q1 := fun _ => adding uploaded_ok); [adding_leaf|]. intros images.
  apply adding_flush_then.
  - intros k'. repeat split. exact Hext.
  - intros row. apply hoare_fold_loop. intros acc' x. apply adding_thumbnail_step.
  - intros row x. adding_leaf.
Qed.

Lemma grown_process_all_pages ids :
  hoare (adding processed_ok) (process_all_pages E a ids)
    (fun _ => done processed_ok) (done processed_ok).
Proof.
  unfold process_all_pages.
  eapply hoare_try with (R1 := adding processed_ok);
    [|intros e; apply adding_rollback_raise].
  eapply hoare_bind with (Q1 := fun _ => adding processed_ok);
    [|intros results; apply adding_commit_ret].
  apply hoare_fold_loop. intros acc [k sid]. unfold process_all_step.
  eapply hoare_bind with (Q1 := fun _ => adding processed_ok); [adding_leaf|].
  intros [upload_beo|]; [|adding_leaf].
  eapply hoare_bind with (Q1 := fun _ => adding processed_ok); [adding_leaf|].
  intros present. destruct (negb present); [adding_leaf|].
  eapply hoare_bind with (Q1 := fun _ => adding processed_ok).
  { apply adding_keep_session. intros c. unfold read_file.
    destruct (_ !! _); split; reflexivity. }
  intros pdf_bytes.
  eapply hoare_bind with (Q1 := fun _ => adding processed_ok); [adding_leaf|]. intros images.
  apply adding_flush_then.
  - intros k'. repeat split.
  - intros row. apply hoare_for_each. intros x. apply adding_all_pages_step.
  - intros row x. adding_leaf.
Qed.

Lemma grown_create_beo_from_pages data :
  hoare (adding (split_ok data)) (create_beo_from_pages E a data)
    (fun _ => done (split_ok data)) (done (split_ok data)).
Proof.
  unfold create_beo_from_pages.
  eapply hoare_conseq with (P' := adding (split_ok data))
    (Q' := fun _ => done (split_ok data)) (R' := adding (split_ok data));
    [|auto|auto|apply adding_done].
  eapply hoare_bind with (Q1 := fun _ => adding (split_ok data)); [adding_leaf|].
  intros [parent|]; [|adding_leaf].
  eapply hoare_bind with (Q1 := fun _ => adding (split_ok data)).
  { apply adding_keep_session. intros c. unfold read_file.
    destruct (_ !! _); split; reflexivity. }
  intros pdf_bytes.
  eapply hoare_bind with (Q1 := fun _ => adding (split_ok data)); [adding_leaf|].
  intros images.
  apply adding_flush_then.
  - intros k'. repeat split.
  - intros row. apply hoare_for_each. intros x. apply adding_create_page_step.
  - intros row x. apply adding_commit_ret.
Qed.

End GrownHandlers.

Lemma run_request_grown {A} (ok : BEO.t -> Prop) (m : M A) (w : World) :
  hoare (fun c => committed c = db w /\ grown ok (db w) (session c)) m
    (fun _ c => grown ok (db w) (committed c)) (fun c => grown ok (db w) (committed c)) ->
  grown ok (db w) (db (snd (run_request m w))).
Proof.
  intros H. unfold run_request.
  specialize (H (mk_ctx (db w) (db w) (files w)) (conj eq_refl (grown_refl _ _))).
  destruct (m _) as [[r|e] c]; exact H.
Qed.

(** X11.  The creating requests only append.  An upload, a multi-file
    upload, process-all-pages and create-from-pages never change or remove
    an existing row: afterwards each table is the old table followed by
    new rows, the annotations are untouched, and every new page row
    belongs to one of the new documents.  The new documents of an upload
    have status "new", no number, position 0 and a name ending in [.pdf];
    those of process-all-pages are all numbered "BEO 1" at position 0 with
    status "ready_for_annotation"; the one of create-from-pages carries
    the requested number and position and records as many pages as
    indices were requested. *)
Theorem creating_requests_append (E : Env) (a : Ambient) (w : World) :
  (forall file file_type,
     grown uploaded_ok (db w) (db (step E a (UploadPdf file file_type) w)))
  /\ (forall fs infos,
        grown uploaded_ok (db w) (db (step E a (UploadMultiplePdfs fs infos) w)))
  /\ (forall ids, grown processed_ok (db w) (db (step E a (ProcessAllPages ids) w)))
  /\ (forall data,
        grown (split_ok data) (db w) (db (step E a (CreateBeoFromPages data) w))).
Proof.
  split; [|split; [|split]]; intros; simpl step; apply run_request_grown.
  - apply grown_upload_pdf.
  - apply grown_upload_multiple_pdfs.
  - apply grown_process_all_pages.
  - apply grown_create_beo_from_pages.
Qed.

(** ** The read-only handlers in reachable states *)

#[local] Instance page_index_le_trans : Transitive page_index_le.
Proof. intros x y z. unfold page_index_le. lia. Qed.

#[local] Instance page_index_le_total : Total page_index_le.
Proof. intros x y. unfold page_index_le. lia. Qed.

Lemma StronglySorted_lt (l : list Z) :
  StronglySorted Z.le l -> NoDup l -> StronglySorted Z.lt l.
Proof.
  induction 1 as [|x l Hs IH Hall]; intros Hnd; constructor.
  - apply IH. apply NoDup_cons in Hnd. tauto.
  - apply NoDup_cons in Hnd as [Hx _]. rewrite Forall_forall in Hall.
    apply Forall_forall. intros y Hy. specialize (Hall y Hy).
    assert (x <> y) by (intros ->; contradiction). lia.
Qed.

Lemma pages_of_sorted (d : DB) (k : Z) :
  rows_inv d ->
  StronglySorted Z.lt
    (map BEOPage.page_index (merge_sort page_index_le (pages_of d k))).
Proof.
  intros Hr. apply StronglySorted_lt.
  - apply (StronglySorted_fmap BEOPage.page_index page_index_le Z.le); [auto|].
    apply StronglySorted_merge_sort; apply _.
  - rewrite (Permutation_map BEOPage.page_index (merge_sort_Permutation page_index_le _)).
    apply (NoDup_page_index k).
    + apply Forall_forall. intros p Hp. apply list_elem_of_In, filter_In in Hp as [_ Hp].
      apply bool_decide_eq_true in Hp. exact Hp.
    + apply NoDup_map_filter, Hr.
Qed.

Section Exporting.

Context (E : Env).

Lemma export_loop (dict : gmap Z JSON) (pages : list BEOPage.t) :
  forall (acc : list PageData) (c : Ctx),
    Forall (fun p => is_Some (page_image_file (disk c) p)) pages ->
    fold_loop pages acc (Routes.export_page E dict) c
    = (Ok (acc ++ map (exported_page E (disk c) dict) pages), c).
Proof.
  induction pages as [|p pages IH]; intros acc c Hall.
  - simpl. rewrite app_nil_r. reflexivity.
  - apply Forall_cons in Hall as [Hp Hall]. simpl.
    unfold bind at 1. unfold Routes.export_page at 1.
    unfold exported_page at 1. unfold page_image_file in Hp |- *.
    destruct (truthy (BEOPage.high_res_path p)).
    + unfold load_file_as_base64. mrun. cbn [dir_files].
      destruct Hp as [data Hdata]. rewrite Hdata. mrun.
      rewrite IH by exact Hall. rewrite <- app_assoc. reflexivity.
    + destruct (BEOPage.thumbnail_path p) as [n|]; [|destruct Hp as [? [=]]].
      unfold load_file_as_base64. mrun. cbn [dir_files mbind option_bind] in *.
      destruct Hp as [data Hdata]. rewrite Hdata. mrun.
      rewrite IH by exact Hall. rewrite <- app_assoc. reflexivity.
Qed.

Lemma page_image_stored (d : DB) (f : Files) (p : BEOPage.t) :
  paths_inv d f -> In p (beo_pages d) -> is_Some (page_image_file f p).
Proof.
  intros [Ht Hh] Hp. rewrite Forall_forall in Ht. rewrite Forall_forall in Hh.
  apply list_elem_of_In in Hp. unfold page_image_file.
  destruct (BEOPage.high_res_path p) as [h|] eqn:Hhigh; simpl.
  - destruct (bool_decide (h = EmptyString)); simpl.
    + destruct (Ht p Hp) as (n & -> & Hn). exact Hn.
    + apply (Hh p Hp h Hhigh).
  - destruct (Ht p Hp) as (n & -> & Hn). exact Hn.
Qed.

(** X12.  Export.  In a reachable state the export of an existing
    document always succeeds: it returns the document's filename and one
    entry per page row, in increasing order of page number (the page index
    plus one, each at most [total_pages]), and every entry carries the
    image of a file that is on disk, the high-resolution one when the row
    records it and the thumbnail otherwise, with the page's annotation or
    the empty object.  For an unknown identifier it answers 404. *)
Theorem export_session_succeeds (w : World) (sid : string) :
  reachable E w ->
  match List.find (by_session_id sid) (beos (db w)) with
  | None =>
      fst (run_request (Routes.export_session E sid) w)
      = Raise (HTTPException 404 "Session not found")
  | Some d =>
      let pages := merge_sort page_index_le (pages_of (db w) (BEO.id d)) in
      fst (run_request (Routes.export_session E sid) w)
      = Ok (BEO.filename d,
            map (exported_page E (files w) (doc_annotations (db w) (BEO.id d))) pages)
      /\ Forall (fun p => is_Some (page_image_file (files w) p)) pages
      /\ StronglySorted Z.lt (map (fun p => BEOPage.page_index p + 1) pages)
      /\ Forall (fun p => 1 <= BEOPage.page_index p + 1 <= BEO.total_pages d) pages
  end.
Proof.
  intros Hreach. destruct (reachable_good E w Hreach) as [Hr Hp].
  unfold Routes.export_session, query_pages_ordered, query_annotations_all. mrun.
  destruct (List.find _ _) as [d|] eqn:Hd; mrun; [|reflexivity].
  fold (pages_of (db w) (BEO.id d)).
  assert (Forall (fun p => In p (beo_pages (db w)) /\ BEOPage.beo_id p = BEO.id d)
            (merge_sort page_index_le (pages_of (db w) (BEO.id d)))) as Hin.
  { rewrite (merge_sort_Permutation page_index_le). apply Forall_forall. intros p Hp'.
    apply list_elem_of_In, filter_In in Hp' as [Hp' Hk].
    apply bool_decide_eq_true in Hk. auto. }
  assert (Forall (fun p => is_Some (page_image_file (files w) p))
            (merge_sort page_index_le (pages_of (db w) (BEO.id d)))) as Hall.
  { eapply Forall_impl; [exact Hin|]. simpl. intros p [Hp' _].
    eapply page_image_stored; eauto. }
  rewrite export_loop by exact Hall. mrun.
  split; [reflexivity|]. split; [exact Hall|]. split.
  - pose proof (pages_of_sorted (db w) (BEO.id d) Hr) as Hs.
    rewrite <- (map_map BEOPage.page_index (fun i => i + 1)).
    apply (StronglySorted_fmap (fun i => i + 1) Z.lt Z.lt); [intros; lia|exact Hs].
  - eapply Forall_impl; [exact Hin|]. simpl. intros p [Hp' Hk].
    pose proof (ri_page_range _ Hr) as Hg. rewrite Forall_forall in Hg.
    destruct (Hg p (proj2 (list_elem_of_In _ _) Hp')) as [H0 Hlt].
    apply find_some in Hd as [Hd _]. specialize (Hlt d Hd (eq_sym Hk)). lia.
Qed.

End Exporting.

Lemma export_session_succeeds_witness :
  exists entries,
    fst (run_request (Routes.export_session demo_env "doc2-0") split_world)
    = Ok ("1028 Tuesday.pdf", entries)
    /\ map pd_page_number entries = [1; 3].
Proof.
  destruct (List.find (by_session_id "doc2-0") (beos (db split_world))) as [d|] eqn:Hd;
    [|vm_compute in Hd; discriminate].
  pose proof (export_session_succeeds demo_env split_world "doc2-0" reachable_split_world)
    as H.
  rewrite Hd in H. cbv zeta in H. destruct H as (H & _).
  vm_compute in Hd. injection Hd as <-.
  eexists. split; [exact H|]. vm_compute. reflexivity.
Defined.

(** ** Dictionaries built from rows *)

Section Dicts.

Context {X V : Type} (key : X -> Z) (val : X -> option V).

Lemma find_key_None (l : list X) (j : Z) :
  ~ In j (map key l) -> List.find (fun x => bool_decide (key x = j)) l = None.
Proof.
  induction l as [|x l IH]; simpl; intros Hj; [reflexivity|].
  rewrite bool_decide_eq_false_2 by (intros Hx; apply Hj; left; exact Hx).
  apply IH. intros Hin. apply Hj. right. exact Hin.
Qed.

Lemma find_key_unique (l : list X) (x : X) :
  NoDup (map key l) -> In x l ->
  List.find (fun y => bool_decide (key y = key x)) l = Some x.
Proof.
  induction l as [|y l IH]; simpl; intros Hnd Hx; [contradiction|].
  apply NoDup_cons in Hnd as [Hy Hnd].
  destruct Hx as [->|Hx]; [rewrite bool_decide_eq_true_2 by reflexivity; reflexivity|].
  rewrite bool_decide_eq_false_2; [apply IH; assumption|].
  intros Heq. apply Hy. rewrite Heq. apply list_elem_of_In, in_map, Hx.
Qed.

Lemma find_key_Permutation (l l' : list X) (j : Z) :
  NoDup (map key l) -> Permutation l l' ->
  List.find (fun y => bool_decide (key y = j)) l'
  = List.find (fun y => bool_decide (key y = j)) l.
Proof.
  intros Hnd Hperm.
  assert (NoDup (map key l')) as Hnd' by (rewrite <- (Permutation_map key Hperm); exact Hnd).
  destruct (List.find _ l) as [x|] eqn:Hfind.
  - apply find_some in Hfind as [Hin Hk]. apply bool_decide_eq_true in Hk. subst j.
    apply find_key_unique; [exact Hnd'|].
    apply list_elem_of_In. rewrite <- Hperm. apply list_elem_of_In. exact Hin.
  - apply find_key_None. intros Hin. apply in_map_iff in Hin as (y & Hy & Hin).
    apply list_elem_of_In in Hin. rewrite <- Hperm in Hin. apply list_elem_of_In in Hin.
    eapply find_none in Hfind; [|exact Hin]. simpl in Hfind.
    apply bool_decide_eq_false in Hfind. contradiction.
Qed.

(** With one row per key, the dict holds at [j] the value of the row
    with key [j]. *)
Lemma fold_put_lookup (l : list X) (j : Z) :
  NoDup (map key l) ->
  forall m0,
    fold_left (put_row key val) l m0 !! j
    = match List.find (fun x => bool_decide (key x = j)) l with
      | Some x => match val x with Some v => Some v | None => m0 !! j end
      | None => m0 !! j
      end.
Proof.
  induction l as [|x l IH]; simpl; intros Hnd m0; [reflexivity|].
  apply NoDup_cons in Hnd as [Hx Hnd]. rewrite IH by exact Hnd.
  destruct (bool_decide (key x = j)) eqn:Hk.
  - apply bool_decide_eq_true in Hk. subst j.
    rewrite find_key_None by (intros Hin; apply Hx, list_elem_of_In, Hin).
    unfold put_row. destruct (val x); [apply lookup_insert_eq|reflexivity].
  - apply bool_decide_eq_false in Hk.
    assert (put_row key val m0 x !! j = m0 !! j) as ->; [|reflexivity].
    unfold put_row. destruct (val x); [apply lookup_insert_ne; exact Hk|reflexivity].
Qed.

End Dicts.

Lemma fold_left_ext {X Y} (f g : Y -> X -> Y) (l : list X) (y : Y) :
  (forall y x, f y x = g y x) -> fold_left f l y = fold_left g l y.
Proof.
  intros H. revert y. induction l as [|x l IH]; intros y; simpl; [reflexivity|].
  rewrite H. apply IH.
Qed.

Lemma NoDup_annotation_index (k : Z) (l : list Annotation.t) :
  Forall (fun x => Annotation.beo_id x = k) l ->
  NoDup (map annotation_key l) -> NoDup (map Annotation.page_index l).
Proof.
  induction l as [|p l IH]; simpl; intros Hall Hnd; [constructor|].
  apply Forall_cons in Hall as [Hp Hall]. apply NoDup_cons in Hnd as [Hnp Hnd].
  apply NoDup_cons. split; [|auto].
  intros Hin. apply Hnp. apply list_elem_of_In, in_map_iff in Hin as (q & Hq & Hin).
  apply list_elem_of_In, in_map_iff. exists q. split; [|exact Hin].
  unfold annotation_key. rewrite Hq. f_equal.
  rewrite Forall_forall in Hall. rewrite Hp. apply Hall, list_elem_of_In, Hin.
Qed.

Lemma find_in_filter {X} (q r : X -> bool) (l : list X) :
  List.find r (List.filter q l) = List.find (fun x => q x && r x) l.
Proof.
  induction l as [|x l IH]; simpl; [reflexivity|].
  destruct (q x); simpl; [destruct (r x); auto|exact IH].
Qed.

(** The dict of a document's annotations, read at page [j]. *)
Lemma doc_annotations_lookup (d : DB) (k j : Z) :
  NoDup (map annotation_key (annotations d)) ->
  doc_annotations d k !! j
  = Annotation.canvas_data <$> List.find (ann_match k j) (annotations d).
Proof.
  intros Hnd. unfold doc_annotations, annotations_dict.
  set (l := List.filter _ _).
  assert (NoDup (map Annotation.page_index l)) as Hl.
  { apply (NoDup_annotation_index k).
    - apply Forall_forall. intros x Hx. apply list_elem_of_In, filter_In in Hx as [_ Hx].
      apply bool_decide_eq_true in Hx. exact Hx.
    - apply NoDup_map_filter. exact Hnd. }
  rewrite (fold_left_ext _ (put_row Annotation.page_index (fun x => Some (Annotation.canvas_data x))))
    by reflexivity.
  rewrite (fold_put_lookup _ _ l j Hl). rewrite lookup_empty.
  unfold l. rewrite find_in_filter. unfold ann_match.
  destruct (List.find _ _); reflexivity.
Qed.

Lemma find_ann_match_app (k j : Z) (l : list Annotation.t) (x : Annotation.t) :
  List.find (ann_match k j) (l ++ [x])
  = match List.find (ann_match k j) l with
    | Some y => Some y
    | None => if ann_match k j x then Some x else None
    end.
Proof.
  induction l as [|y l IH]; simpl; [reflexivity|].
  destruct (ann_match k j y); [reflexivity|exact IH].
Qed.

Lemma find_ann_match_update (k j key : Z) (f : Annotation.t -> Annotation.t)
    (l : list Annotation.t) :
  (forall x, annotation_key (f x) = annotation_key x) ->
  List.find (ann_match k j)
    (map (fun x => if bool_decide (Annotation.id x = key) then f x else x) l)
  = (fun x => if bool_decide (Annotation.id x = key) then f x else x)
      <$> List.find (ann_match k j) l.
Proof.
  intros Hf. induction l as [|y l IH]; simpl; [reflexivity|].
  assert (ann_match k j (if bool_decide (Annotation.id y = key) then f y else y)
          = ann_match k j y) as ->.
  { destruct (bool_decide _); [|reflexivity].
    specialize (Hf y). unfold annotation_key in Hf. injection Hf as H1 H2.
    unfold ann_match. rewrite H1, H2. reflexivity. }
  destruct (ann_match k j y); [reflexivity|exact IH].
Qed.

(** X13.  Saving and reading back.  In a reachable state, after a
    successful [save_annotation] for page [i] of a document,
    [get_session] on that document succeeds and its [annotations] dict is
    the dict from before the call with [i] mapped to the new payload:
    the payload can be read back under its page index and the annotations
    of the other pages are as they were.  The reported status is
    "annotated" and [updated_at] is the time of the call. *)
Theorem annotation_round_trip (E : Env) (a : Ambient) (annotation : AnnotationData)
    (w : World) (d : BEO.t) :
  reachable E w ->
  List.find (by_session_id (ad_session_id annotation)) (beos (db w)) = Some d ->
  let w' := step E a (SaveAnnotation annotation) w in
  exists r,
    fst (run_request (Routes.get_session (ad_session_id annotation)) w') = Ok r
    /\ sd_annotations r
       = <[ad_page_index annotation := ad_annotation_data annotation]>
           (doc_annotations (db w) (BEO.id d))
    /\ sd_status r = "annotated"
    /\ sd_updated_at r = isoformat (utcnow a)
    /\ (sd_session_id r, sd_filename r, sd_total_pages r, sd_created_at r)
       = (ad_session_id annotation, BEO.filename d, BEO.total_pages d,
          isoformat (BEO.created_at d)).
Proof.
  intros Hreach Hfind. cbv zeta. simpl step.
  pose proof (reachable_inv E w Hreach) as Hinv.
  destruct (reachable_good E w Hreach) as [Hrows _].
  pose proof (reachable_inv E _ (reachable_step E a (SaveAnnotation annotation) w Hreach))
    as Hinv'. simpl step in Hinv'.
  rewrite (save_annotation_run a annotation w d Hfind) in Hinv' |- *. cbn [snd db] in Hinv'.
  destruct (find_by_session_id _ _ _ Hfind) as [Hin Hsid].
  assert (List.find (by_session_id (ad_session_id annotation))
            (beos (saved a annotation d (db w)))
          = Some (mark_annotated (utcnow a) d)) as Hfind'.
  { assert (beos (saved a annotation d (db w))
            = update_rows (BEO.id d) (mark_annotated (utcnow a)) (beos (db w))) as ->
      by (unfold saved; cbv zeta; destruct (List.find (ann_match _ _) _); reflexivity).
    apply find_update_rows; [reflexivity|exact Hfind|reflexivity]. }
  unfold Routes.get_session, query_annotations_all, query_pages_ordered. mrun.
  rewrite Hfind'. mrun.
  eexists. split; [reflexivity|]. cbn [sd_annotations sd_status sd_updated_at sd_session_id
    sd_filename sd_total_pages sd_created_at].
  split; [|split; [reflexivity|split; [reflexivity|]]].
  2: { rewrite <- Hsid. reflexivity. }
  change (doc_annotations (saved a annotation d (db w)) (BEO.id d)
          = <[ad_page_index annotation := ad_annotation_data annotation]>
              (doc_annotations (db w) (BEO.id d))).
  apply map_eq. intros j.
  rewrite doc_annotations_lookup by apply Hinv'.
  destruct (decide (j = ad_page_index annotation)) as [->|Hji].
  - rewrite lookup_insert_eq.
    destruct (saved_one_row a annotation d (db w) (inv_annotation_keys _ Hinv))
      as (x & Hx & Hpayload).
    unfold annotations_of in Hx. fold (ann_match (BEO.id d) (ad_page_index annotation)) in Hx.
    rewrite (find_filter_head _ _ _ _ Hx). simpl. rewrite Hpayload. reflexivity.
  - rewrite lookup_insert_ne by auto.
    rewrite doc_annotations_lookup by apply Hinv.
    unfold saved. fold (ann_match (BEO.id d) (ad_page_index annotation)).
    destruct (List.find (ann_match (BEO.id d) (ad_page_index annotation)) (annotations (db w))) as [ex|] eqn:Hex;
      cbn [annotations].
    + rewrite find_ann_match_update by reflexivity.
      destruct (List.find (ann_match (BEO.id d) j) (annotations (db w))) as [x|] eqn:Hx;
        [|reflexivity].
      simpl. destruct (bool_decide (Annotation.id x = Annotation.id ex)) eqn:Hid;
        [|reflexivity].
      exfalso. apply bool_decide_eq_true in Hid.
      apply find_some in Hx as [Hxin Hxm]. apply find_some in Hex as [Hexin Hexm].
      rewrite (NoDup_map_eq Annotation.id _ x ex (ri_annotation_ids _ Hrows) Hxin Hexin Hid)
        in Hxm.
      apply ann_match_key in Hxm. apply ann_match_key in Hexm.
      rewrite Hxm in Hexm. injection Hexm as Hji'. contradiction.
    + rewrite find_ann_match_app.
      destruct (List.find (ann_match (BEO.id d) j) (annotations (db w))); [reflexivity|].
      unfold ann_match at 1. unfold inserted_annotation. simpl.
      rewrite (bool_decide_eq_false_2 (ad_page_index annotation = j)) by auto.
      rewrite andb_false_r. reflexivity.
Qed.

Lemma annotation_round_trip_witness :
  exists r,
    fst (run_request (Routes.get_session "doc1-0")
           (step demo_env (demo_ambient 3) (SaveAnnotation demo_annotation) split_world))
    = Ok r
    /\ sd_annotations r !! 0 = Some "{objects: []}"
    /\ sd_status r = "annotated".
Proof.
  destruct (List.find (by_session_id "doc1-0") (beos (db split_world))) as [d|] eqn:Hd;
    [|vm_compute in Hd; discriminate].
  destruct (annotation_round_trip demo_env (demo_ambient 3) demo_annotation split_world d
              reachable_split_world Hd) as (r & Hr & Hdict & Hstatus & _).
  exists r. split; [exact Hr|]. split; [|exact Hstatus].
  rewrite Hdict. apply lookup_insert_eq.
Defined.

Lemma high_res_urls_lookup (d : DB) (k i : Z) :
  rows_inv d ->
  Routes.high_res_urls (merge_sort page_index_le (pages_of d k)) !! i
  = page_at d k i ≫= high_res_url.
Proof.
  intros Hr. unfold Routes.high_res_urls.
  rewrite (fold_left_ext _ (put_row BEOPage.page_index high_res_url)).
  2: { intros m p. unfold put_row, high_res_url. destruct (truthy _); reflexivity. }
  assert (NoDup (map BEOPage.page_index (pages_of d k))) as Hnd.
  { apply (NoDup_page_index k).
    - apply Forall_forall. intros p Hp. apply list_elem_of_In, filter_In in Hp as [_ Hp].
      apply bool_decide_eq_true in Hp. exact Hp.
    - apply NoDup_map_filter, Hr. }
  rewrite fold_put_lookup.
  2: { rewrite (Permutation_map BEOPage.page_index (merge_sort_Permutation page_index_le _)).
       exact Hnd. }
  rewrite (find_key_Permutation BEOPage.page_index (pages_of d k) _ i Hnd)
    by (symmetry; apply merge_sort_Permutation).
  unfold pages_of. rewrite find_in_filter. unfold page_at. rewrite lookup_empty.
  destruct (List.find _ _) as [p|]; simpl; [destruct (high_res_url p)|]; reflexivity.
Qed.

(** X14.  The high-resolution pages of a document.  In a reachable
    state [get_beo_pages] answers 404 for an unknown identifier; for a
    known one it returns, under each page index, the URL
    [/storage/high_res/<path>] of the page row with that index when the
    row records a high-resolution path, and nothing otherwise.  Every URL
    it returns names a file that is in the high-resolution directory, and
    its index lies in [0 .. total_pages - 1]. *)
Theorem get_beo_pages_urls (E : Env) (w : World) (sid : string) :
  reachable E w ->
  match List.find (by_session_id sid) (beos (db w)) with
  | None =>
      fst (run_request (Routes.get_beo_pages sid) w)
      = Raise (HTTPException 404 "BEO not found")
  | Some d =>
      exists r,
        fst (run_request (Routes.get_beo_pages sid) w) = Ok r
        /\ (bp_session_id r, bp_beo_number r, bp_filename r, bp_total_pages r)
           = (BEO.session_id d, BEO.beo_number d, BEO.filename d, BEO.total_pages d)
        /\ (forall i, bp_high_res_pages r !! i = page_at (db w) (BEO.id d) i ≫= high_res_url)
        /\ (forall i url,
              bp_high_res_pages r !! i = Some url ->
              0 <= i < BEO.total_pages d
              /\ exists h, url = "/storage/high_res/" +:+ h
                           /\ stored HIGH_RES_DIR h (files w))
  end.
Proof.
  intros Hreach. destruct (reachable_good E w Hreach) as [Hr Hp].
  unfold Routes.get_beo_pages, query_pages_ordered. mrun.
  destruct (List.find _ _) as [d|] eqn:Hd; mrun; [|reflexivity].
  fold (pages_of (db w) (BEO.id d)).
  eexists. split; [reflexivity|]. cbn [bp_session_id bp_beo_number bp_filename
    bp_total_pages bp_high_res_pages].
  split; [reflexivity|].
  split; [intros i; apply high_res_urls_lookup; exact Hr|].
  intros i url. rewrite high_res_urls_lookup by exact Hr.
  unfold page_at. destruct (List.find _ (beo_pages (db w))) as [p|] eqn:Hfind;
    [|discriminate].
  simpl. unfold high_res_url. destruct (truthy (BEOPage.high_res_path p)) eqn:Ht;
    [|discriminate].
  intros [= <-]. apply find_some in Hfind as [Hin Hq].
  apply andb_true_iff in Hq as [Hq1 Hq2].
  apply bool_decide_eq_true in Hq1. apply bool_decide_eq_true in Hq2.
  apply list_elem_of_In in Hin. split.
  - pose proof (ri_page_range _ Hr) as Hg. rewrite Forall_forall in Hg.
    destruct (Hg p Hin) as [H0 Hlt]. apply find_some in Hd as [Hd _].
    specialize (Hlt d Hd (eq_sym Hq1)). lia.
  - destruct (BEOPage.high_res_path p) as [h|] eqn:Hh; [|discriminate].
    exists h. split; [reflexivity|].
    pose proof (pi_high_res _ _ Hp) as Hs. rewrite Forall_forall in Hs.
    apply (Hs p Hin h Hh).
Qed.

Lemma get_beo_pages_urls_witness :
  exists r,
    fst (run_request (Routes.get_beo_pages "doc2-0") split_world) = Ok r
    /\ bp_high_res_pages r !! 2 = Some "/storage/high_res/doc2-0_highres_2.jpg"
    /\ bp_high_res_pages r !! 1 = None.
Proof.
  destruct (List.find (by_session_id "doc2-0") (beos (db split_world))) as [d|] eqn:Hd;
    [|vm_compute in Hd; discriminate].
  pose proof (get_beo_pages_urls demo_env split_world "doc2-0" reachable_split_world) as H.
  rewrite Hd in H. destruct H as (r & Hr & _ & Hurl & _).
  exists r. split; [exact Hr|]. rewrite !Hurl.
  vm_compute in Hd. injection Hd as <-. split; vm_compute; reflexivity.
Defined.
